(** * Mobile AI backend selection: a shallow embedding

    The development follows the C++ sources under
    [android/app/src/main/cpp]:

    - [mobile_ai/tflite_gpu_service.cpp]               (module [Mock])
    - [mobile_ai/tflite_gpu_service_prod_headers.cpp]  (module [Prod])
    - [mobile_ai/onnx_mobile_service.cpp]              (module [Onnx])
    - [jni/mobile_ai_jni_bridge.cpp]                   (module [Bridge])
    - [qnn/qnn_llm_service.cpp], [jni/qnn_jni_bridge.cpp] (module [Qnn])

    Objects are records, member functions are computations in a small
    state-and-exception monad over the object, and everything the code
    obtains from outside (random draws, the clock, the TensorFlow Lite
    runtime, the Android asset store) is an explicit argument.

    Conventions.
    - [float] values are idealised as rationals ([Q]); NaN and infinities
      are outside the model.
    - [std::bad_alloc] is outside the model; every other C++ exception
      source of the modelled code is a [throw], and a read through a null
      pointer is a [segfault].
    - Log lines of the adapters (tags [TFLiteGPU], [ONNXMobile]) are not
      modelled; the bridge's own lines (tag [MobileAI-JNI]) are. *)

From Stdlib Require Import ZArith QArith Qminmax Qabs String Ascii List Bool Lia Lqa.
From Stdlib Require Import DecimalString.
From stdpp Require Import base option gmap strings.

Import ListNotations.
Local Open Scope string_scope.
Local Open Scope Z_scope.

(* ===================================================================== *)
(** ** Computations: state plus C++ exceptions *)
(* ===================================================================== *)

(** How a C++ call can end without returning: by an exception, which
    carries its [what()] text, or by a fatal signal (a null pointer is
    dereferenced), which ends the process. *)
Inductive Abort : Type :=
| Exception (what : string)
| Fatal (signal : string).

(** Outcome of a C++ call: a normal return, or one of the above. *)
Inductive Result (A : Type) : Type :=
| Return (a : A)
| Throw (what : Abort).
Arguments Return {A} a.
Arguments Throw {A} what.

(** A member function of an object of type [S]. The object is updated in
    place, also when the call ends in an exception. *)
Definition M (S A : Type) : Type := S -> Result A * S.

Definition ret {S A : Type} (a : A) : M S A := fun s => (Return a, s).

Definition bind {S A B : Type} (c : M S A) (k : A -> M S B) : M S B :=
  fun s =>
    match c s with
    | (Return a, s') => k a s'
    | (Throw w, s') => (Throw w, s')
    end.

Definition throw {S A : Type} (w : string) : M S A :=
  fun s => (Throw (Exception w), s).

(** A read through a null pointer. *)
Definition segfault {S A : Type} : M S A :=
  fun s => (Throw (Fatal "SIGSEGV"), s).

(** [try { body } catch (const std::exception& e) { handler(e.what()) }]:
    a handler sees exceptions, not signals. *)
Definition try_catch {S A : Type} (body : M S A) (handler : string -> M S A) : M S A :=
  fun s =>
    match body s with
    | (Return a, s') => (Return a, s')
    | (Throw (Exception w), s') => handler w s'
    | (Throw (Fatal g), s') => (Throw (Fatal g), s')
    end.

Definition get {S : Type} : M S S := fun s => (Return s, s).
Definition gets {S A : Type} (f : S -> A) : M S A := fun s => (Return (f s), s).
Definition modify {S : Type} (f : S -> S) : M S unit := fun s => (Return tt, f s).

Notation "'do' x <- c ; k" := (bind c (fun x => k))
  (at level 10, x name, c at level 99, k at level 200).
Notation "'do_' c ; k" := (bind c (fun _ => k))
  (at level 10, c at level 99, k at level 200).

Definition result_of {S A : Type} (r : Result A * S) : Result A := fst r.
Definition state_of {S A : Type} (r : Result A * S) : S := snd r.

(** The call returned normally. *)
Definition returns {S A : Type} (r : Result A * S) (a : A) : Prop :=
  result_of r = Return a.

Definition no_throw {S A : Type} (r : Result A * S) : Prop :=
  exists a, result_of r = Return a.

(** The call did not end by a fatal signal. *)
Definition no_signal {S A : Type} (r : Result A * S) : Prop :=
  forall g, result_of r <> Throw (Fatal g).

(* ===================================================================== *)
(** ** C++ odds and ends *)
(* ===================================================================== *)

Module Cxx.

(** A raw pointer is its address; the null pointer is address 0. *)
Definition Ptr : Type := Z.
Definition nullptr : Ptr := 0.
Definition non_null (p : Ptr) : bool := negb (p =? 0).

(** [!p] for a [std::unique_ptr] *)
Definition is_null {A : Type} (p : option A) : bool :=
  match p with None => true | Some _ => false end.

(** [(int)x] for a float: truncation towards zero. *)
Definition trunc (x : Q) : Z := Z.quot (Qnum x) (Zpos (Qden x)).

(** [s.substr(0, n)] *)
Definition substr0 (n : nat) (s : string) : string := String.substring 0 n s.

(** [s.empty()] *)
Definition empty (s : string) : bool :=
  match s with EmptyString => true | String _ _ => false end.

(** [std::min(1.0f, std::max(0.0f, x))] *)
Definition clamp01 (x : Q) : Q := Qmin 1 (Qmax 0 x).

(** [operator<<(int)] and [std::to_string(int)] *)
Definition to_string (z : Z) : string := NilZero.string_of_int (Z.to_int z).

(** Nearest integer, ties to even, of a rational. *)
Definition round_half_even (q : Q) : Z :=
  let n := Qnum q in
  let d := Zpos (Qden q) in
  let fl := n / d in
  let r2 := 2 * (n mod d) in
  if r2 <? d then fl
  else if d <? r2 then fl + 1
  else if Z.even fl then fl else fl + 1.

Definition digit (n : Z) : ascii := ascii_of_nat (48 + Z.to_nat (n mod 10)).

(** The [k] low decimal digits of [n], zero padded on the left. *)
Fixpoint digits (k : nat) (n : Z) : string :=
  match k with
  | O => ""
  | S k' => digits k' (n / 10) ++ String (digit n) ""
  end.

(** [os << std::fixed << std::setprecision(prec) << x]: the correctly
    rounded decimal expansion with [prec] digits after the point. *)
Definition fixed (prec : nat) (x : Q) : string :=
  let scale := 10 ^ Z.of_nat prec in
  let r := round_half_even (Qabs x * inject_Z scale) in
  (if Qnum x <? 0 then "-" else "")
    ++ to_string (r / scale)
    ++ (match prec with O => "" | S _ => "." ++ digits prec (r mod scale) end).

(** [static_cast<float>(z)] for an [int32_t]: the nearest number with a
    24-bit significand, ties to even (exact up to 2^24 in magnitude). *)
Definition int32_to_float (z : Z) : Q :=
  let excess := Z.log2 (Z.abs z) - 23 in
  if excess <=? 0 then inject_Z z
  else
    let unit := 2 ^ excess in
    inject_Z (Z.sgn z * round_half_even (Z.abs z # Z.to_pos unit) * unit).

(** The [int32_t] that [memcpy] leaves when it copies only the first
    [k] bytes (0 < k < 4) of [src] over [dst]. On the little-endian
    targets of Android these are the low-order bytes. *)
Definition splice_bytes (k : Z) (src dst : Z) : Z :=
  Z.lor (Z.land src (Z.ones (8 * k))) (Z.ldiff dst (Z.ones (8 * k))).

(** [needle] occurs in [hay]. *)
Definition contains (needle hay : string) : Prop :=
  exists before after, hay = before ++ needle ++ after.

(** [hay] starts with [label]. *)
Definition starts_with (label hay : string) : Prop :=
  exists after, hay = label ++ after.

(** [v.resize(n)] on a [std::vector<char>]: keep the first [n] bytes,
    zero-fill the rest. *)
Definition resize (n : nat) (v : string) : string :=
  let kept := String.substring 0 n v in
  kept ++ string_of_list_ascii (repeat zero (n - String.length kept)).

End Cxx.

(* ===================================================================== *)
(** ** The Android asset store *)
(* ===================================================================== *)

Module Android.

(** An opened asset: the length [AAsset_getLength] reports, the bytes a
    read delivers, and whether reading fails. *)
Record AAsset : Type := mkAsset {
  asset_length : Z;
  asset_contents : string;
  asset_io_error : bool
}.

(** The asset manager is a name-keyed blob store. *)
Abbreviation AAssetManager := (gmap string AAsset).

(** [AAssetManager_open(mgr, name, mode)]; [None] is the null asset. *)
Definition AAssetManager_open (mgr : AAssetManager) (name : string) : option AAsset :=
  mgr !! name.

Definition AAsset_getLength (a : AAsset) : Z := asset_length a.

(** [AAsset_read(asset, buf, count)]: the return value and the bytes
    written at the start of [buf]. *)
Definition AAsset_read (a : AAsset) (count : Z) : Z * string :=
  if asset_io_error a then (-1, "")
  else
    let got := String.substring 0 (Z.to_nat count) (asset_contents a) in
    (Z.of_nat (String.length got), got).

(** Overwrite the first bytes of [buf] with [written]. *)
Definition store_prefix (written buf : string) : string :=
  written ++ String.substring (String.length written)
                              (String.length buf - String.length written) buf.

End Android.

(* ===================================================================== *)
(** ** [tflite_gpu_service.cpp]: the mock TensorFlow Lite GPU adapter *)
(* ===================================================================== *)

Module Mock.
Import Cxx Android.

(** The members of [class TFLiteGPUService] in a mock build
    ([REAL_TFLITE_AVAILABLE] off: the three handles are raw pointers). *)
Record TFLiteGPUService : Type := mkService {
  initialized_ : bool;
  model_loaded_ : bool;
  model_path_ : string;
  interpreter_ : Ptr;
  model_ : Ptr;
  gpu_delegate_ : Ptr;
  asset_manager_ : option AAssetManager;
  model_buffer_ : string
}.

Definition set_initialized_ (b : bool) (s : TFLiteGPUService) :=
  mkService b (model_loaded_ s) (model_path_ s) (interpreter_ s) (model_ s)
            (gpu_delegate_ s) (asset_manager_ s) (model_buffer_ s).
Definition set_model_loaded_ (b : bool) (s : TFLiteGPUService) :=
  mkService (initialized_ s) b (model_path_ s) (interpreter_ s) (model_ s)
            (gpu_delegate_ s) (asset_manager_ s) (model_buffer_ s).
Definition set_model_path_ (p : string) (s : TFLiteGPUService) :=
  mkService (initialized_ s) (model_loaded_ s) p (interpreter_ s) (model_ s)
            (gpu_delegate_ s) (asset_manager_ s) (model_buffer_ s).
Definition set_interpreter_ (p : Ptr) (s : TFLiteGPUService) :=
  mkService (initialized_ s) (model_loaded_ s) (model_path_ s) p (model_ s)
            (gpu_delegate_ s) (asset_manager_ s) (model_buffer_ s).
Definition set_model_ (p : Ptr) (s : TFLiteGPUService) :=
  mkService (initialized_ s) (model_loaded_ s) (model_path_ s) (interpreter_ s) p
            (gpu_delegate_ s) (asset_manager_ s) (model_buffer_ s).
Definition set_gpu_delegate_ (p : Ptr) (s : TFLiteGPUService) :=
  mkService (initialized_ s) (model_loaded_ s) (model_path_ s) (interpreter_ s)
            (model_ s) p (asset_manager_ s) (model_buffer_ s).
Definition set_asset_manager_ (a : option AAssetManager) (s : TFLiteGPUService) :=
  mkService (initialized_ s) (model_loaded_ s) (model_path_ s) (interpreter_ s)
            (model_ s) (gpu_delegate_ s) a (model_buffer_ s).
Definition set_model_buffer_ (b : string) (s : TFLiteGPUService) :=
  mkService (initialized_ s) (model_loaded_ s) (model_path_ s) (interpreter_ s)
            (model_ s) (gpu_delegate_ s) (asset_manager_ s) b.

(** What one call draws from [std::random_device]: the score variation
    of [getPerformanceScore] and the two picks of [decodeOutput]. *)
Record Env : Type := mkEnv {
  variation : Q;
  template_pick : nat;
  continuation_pick : nat
}.

(** [std::uniform_real_distribution<float> variation(-0.03f, 0.03f)] *)
Definition variation_in_range (e : Env) : Prop :=
  (-(3 # 100) <= variation e <= 3 # 100)%Q.

(** The constructor. Its initialiser list leaves out [model_]; the member
    is read only after [loadModel] has assigned it, or by [cleanup],
    which leaves it null whatever it was, so it starts as null here. *)
Definition new : TFLiteGPUService :=
  mkService false false "" nullptr nullptr nullptr None "".

Definition max_length : nat := 512.

(** [tokenizeInput]: BOS, the printable ASCII characters, EOS, then cut
    or zero-pad to [max_length]. *)
Definition tokenizeInput (input : string) : list Z :=
  let printable c := let n := nat_of_ascii c in ((32 <=? n) && (n <=? 126))%nat in
  let tokens :=
    ([1] ++ map (fun c => Z.of_nat (nat_of_ascii c))
                (filter printable (list_ascii_of_string input)) ++ [2])%list in
  if (max_length <? length tokens)%nat then firstn max_length tokens
  else (tokens ++ repeat 0 (max_length - length tokens))%list.

Definition response_templates : list string :=
  [ "I understand your query and here's my analysis: ";
    "Based on the input, I can provide the following response: ";
    "Thank you for your question. My processed response is: ";
    "After analyzing your input, here's what I can tell you: " ].

Definition continuations : list string :=
  [ "The information you provided is interesting and relevant.";
    "I've processed this through the mobile AI inference engine.";
    "This demonstrates successful TensorFlow Lite GPU acceleration.";
    "The response time shows optimal mobile performance.";
    "The neural network has generated this contextual output." ].

Definition model_candidates : list string :=
  [ "models/phi3_mini_mobile.tflite";
    "models/distilbert_mobile.tflite";
    "models/text_generator_mobile.tflite";
    "models/gemma_270m_mobile.tflite";
    "models/test_model.tflite" ].

Definition LF : string := String (ascii_of_nat 10) "".

Abbreviation Svc := (M TFLiteGPUService).

Definition isGPUAvailable : Svc bool :=
  do s <- get;
  if non_null (gpu_delegate_ s) then ret true
  else
    let mock_gpu_available := true in
    ret mock_gpu_available.

Definition getPerformanceScore (e : Env) : Svc Q :=
  do s <- get;
  if negb (initialized_ s) then ret 0%Q
  else
    let base_score := if non_null (gpu_delegate_ s) then (7 # 10)%Q else (4 # 10)%Q in
    let score := (base_score + variation e)%Q in
    ret (clamp01 score).

Definition cleanup : Svc unit :=
  do s <- get;
  if initialized_ s then
    do_ (if non_null (interpreter_ s) then modify (set_interpreter_ nullptr) else ret tt);
    do_ (if non_null (gpu_delegate_ s) then modify (set_gpu_delegate_ nullptr) else ret tt);
    do_ (if non_null (model_ s) then modify (set_model_ nullptr) else ret tt);
    do_ modify (set_initialized_ false);
    modify (set_model_loaded_ false)
  else ret tt.

Definition loadModelFromAssets : Svc bool :=
  do s <- get;
  match asset_manager_ s with
  | None => ret false
  | Some mgr =>
      match AAssetManager_open mgr (model_path_ s) with
      | None => ret false
      | Some asset =>
          let file_size := AAsset_getLength asset in
          (* model_buffer_.resize(file_size): a negative off_t becomes a
             size above max_size() *)
          do_ (if file_size <? 0 then throw "vector"
               else modify (set_model_buffer_
                              (resize (Z.to_nat file_size) (model_buffer_ s))));
          let '(read_size, bytes) := AAsset_read asset file_size in
          do_ modify (fun s => set_model_buffer_ (store_prefix bytes (model_buffer_ s)) s);
          if negb (read_size =? file_size) then ret false
          else
            do_ modify (set_model_ 0x12345678);
            do s <- get;
            if negb (non_null (model_ s)) then ret false
            else
              do_ modify (set_model_loaded_ true);
              ret true
      end
  end.

Definition loadModelFromFile : Svc bool :=
  do_ modify (set_model_ 0x12345678);
  do s <- get;
  if negb (non_null (model_ s)) then ret false
  else
    do_ modify (set_model_loaded_ true);
    ret true.

Definition loadModel : Svc bool :=
  do s <- get;
  match asset_manager_ s with
  | Some _ => loadModelFromAssets
  | None => loadModelFromFile
  end.

Definition initializeGPUDelegate : Svc bool :=
  let mock_gpu_success := true in
  if mock_gpu_success then
    do_ modify (set_gpu_delegate_ 0x87654321);
    ret true
  else ret false.

Definition buildInterpreter : Svc bool :=
  do s <- get;
  if negb (non_null (model_ s)) then ret false
  else
    do_ modify (set_interpreter_ 0x11111111);
    do s <- get;
    if negb (non_null (interpreter_ s)) then ret false
    else ret true.

Definition setInputTensor (tokens : list Z) : Svc bool :=
  do s <- get;
  if negb (non_null (interpreter_ s)) then ret false
  else ret true.

Definition decodeOutput (e : Env) : Svc string :=
  do s <- get;
  if negb (non_null (interpreter_ s)) then ret "Error: No interpreter"
  else
    let result := nth (template_pick e) response_templates "" in
    let result := result ++ nth (continuation_pick e) continuations "" in
    let performance_info :=
      " [TensorFlow Lite "
        ++ (if non_null (gpu_delegate_ s) then "GPU" else "CPU")
        ++ " - Adreno 750 optimized]" in
    ret (result ++ performance_info).

Definition generateFallbackResponse (e : Env) (input : string) : Svc string :=
  do s <- get;
  let response := "TensorFlow Lite GPU Mock Response:" ++ LF in
  let response := response ++ "Input: " ++ substr0 100 input in
  let response := if (100 <? String.length input)%nat then response ++ "..." else response in
  let response := response ++ LF in
  let response := response ++ "Processing: GPU-accelerated inference simulation" ++ LF in
  let response := response ++ "Backend: Adreno 750 GPU (simulated)" ++ LF in
  let response := response ++ "Model: Mobile-optimized language model (mock)" ++ LF in
  let response := response ++ "Performance: ~"
                    ++ (if non_null (gpu_delegate_ s) then "200-500ms" else "500-1000ms")
                    ++ " response time" ++ LF in
  let response := response ++ "Status: Architecture ready for actual model integration" ++ LF in
  do gpu <- isGPUAvailable;
  let response := response ++ "GPU Available: " ++ (if gpu then "Yes" else "No") ++ LF in
  do score <- getPerformanceScore e;
  let response := response ++ "Performance Score: " ++ fixed 1 (score * 100) ++ "%" in
  ret response.

Definition processInference (e : Env) (input_text : string) : Svc string :=
  do s <- get;
  if negb (initialized_ s) then ret "Error: Service not initialized"
  else
    try_catch
      (do s <- get;
       if negb (model_loaded_ s) then generateFallbackResponse e input_text
       else
         let input_tokens := tokenizeInput input_text in
         do ok <- setInputTensor input_tokens;
         if negb ok then ret "Error: Failed to set input tensor"
         else
           do result <- decodeOutput e;
           ret result)
      (fun what => ret ("Error: Inference exception - " ++ what)).

Definition warmUpModel (e : Env) : Svc unit :=
  do s <- get;
  if model_loaded_ s then
    do_ processInference e "warmup";
    ret tt
  else ret tt.

Definition initialize (e : Env) (model_path : string) : Svc bool :=
  try_catch
    (do_ modify (set_model_path_ model_path);
     do loaded <- loadModel;
     if negb loaded then ret false
     else
       do_ initializeGPUDelegate;
       do built <- buildInterpreter;
       if negb built then ret false
       else
         do_ warmUpModel e;
         do_ modify (set_initialized_ true);
         ret true)
    (fun what =>
       do_ cleanup;
       ret false).

Definition initializeFallbackMode : Svc bool :=
  do_ modify (set_initialized_ true);
  do_ modify (set_model_loaded_ false);
  do_ modify (set_gpu_delegate_ 0x99999999);
  ret true.

(** The [for] loop of [initializeWithAssets] over the remaining
    candidates; [None] when the loop runs to its end. [mgr] is what
    [asset_manager_] points to, which nothing in the loop reassigns. *)
Fixpoint try_candidates (e : Env) (mgr : AAssetManager) (candidates : list string)
  : Svc (option bool) :=
  match candidates with
  | [] => ret None
  | model_path :: rest =>
      match AAssetManager_open mgr model_path with
      | Some asset =>
          do ok <- initialize e model_path;
          if ok then ret (Some true) else try_candidates e mgr rest
      | None => try_candidates e mgr rest
      end
  end.

(** An asset [loadModelFromAssets] accepts: its length is not negative
    and a read delivers all of it. *)
Definition asset_loads (a : AAsset) : bool :=
  (0 <=? asset_length a) && (fst (AAsset_read a (asset_length a)) =? asset_length a).

(** A candidate that exists in the store and loads. *)
Definition usable (mgr : AAssetManager) (name : string) : bool :=
  match AAssetManager_open mgr name with
  | Some a => asset_loads a
  | None => false
  end.

(** The bridge passes a non-null asset manager (it returns early on a
    null one). *)
Definition initializeWithAssets (e : Env) (asset_manager : AAssetManager) : Svc bool :=
  do_ modify (set_asset_manager_ (Some asset_manager));
  do found <- try_candidates e asset_manager model_candidates;
  match found with
  | Some r => ret r
  | None => initializeFallbackMode
  end.

End Mock.

(* ===================================================================== *)
(** ** [onnx_mobile_service.cpp]: the ONNX Runtime Mobile adapter *)
(* ===================================================================== *)

Module Onnx.

Record ONNXMobileService : Type := mkService {
  initialized_ : bool;
  model_path_ : string
}.

Abbreviation Svc := (M ONNXMobileService).

Definition new : ONNXMobileService := mkService false "".

Definition initialize (model_path : string) : Svc bool :=
  try_catch
    (do_ modify (fun s => mkService (initialized_ s) model_path);
     do_ modify (fun s => mkService true (model_path_ s));
     ret true)
    (fun what => ret false).

Definition processInference (input_text : string) : Svc string :=
  do s <- get;
  if negb (initialized_ s) then ret "Error: Service not initialized"
  else
    try_catch
      (ret ("ONNX Runtime Mobile inference result for: " ++ input_text))
      (fun what => ret "Error: Inference failed").

Definition isNNAPIAvailable : Svc bool := ret true.

Definition getPerformanceScore : Svc Q := ret (5 # 10)%Q.

Definition cleanup : Svc unit :=
  do s <- get;
  if initialized_ s then modify (fun s => mkService false (model_path_ s))
  else ret tt.

End Onnx.

(* ===================================================================== *)
(** ** [tflite_gpu_service_prod_headers.cpp]: the production adapter *)
(* ===================================================================== *)

Module Prod.
Import Cxx Android.

(** *** The TensorFlow Lite runtime, as far as the adapter looks at it *)

Inductive TfLiteStatus : Type := kTfLiteOk | kTfLiteError.

Inductive TfLiteType : Type :=
| kTfLiteFloat32
| kTfLiteInt32
| kTfLiteOtherType (code : Z).

(** The enumerator's value, as [operator<<] prints it. *)
Definition type_code (t : TfLiteType) : Z :=
  match t with
  | kTfLiteFloat32 => 1
  | kTfLiteInt32 => 2
  | kTfLiteOtherType c => c
  end.

Definition is_float32 (t : TfLiteType) : bool :=
  match t with kTfLiteFloat32 => true | _ => false end.
Definition is_int32 (t : TfLiteType) : bool :=
  match t with kTfLiteInt32 => true | _ => false end.

(** A tensor: [dims] is [None] for a null [dims] pointer; [data_f] and
    [data_i32] are the [data.f] and [data.i32] views of the buffer. *)
Record TfLiteTensor : Type := mkTensor {
  type : TfLiteType;
  dims : option (list Z);
  bytes : Z;
  data_f : list Q;
  data_i32 : list Z
}.

Definition set_data_f (d : list Q) (t : TfLiteTensor) : TfLiteTensor :=
  mkTensor (type t) (dims t) (bytes t) d (data_i32 t).
Definition set_data_i32 (d : list Z) (t : TfLiteTensor) : TfLiteTensor :=
  mkTensor (type t) (dims t) (bytes t) (data_f t) d.

(** [inputs]/[outputs]: what [input_tensor(i)]/[output_tensor(i)] give,
    [None] being a null tensor pointer. *)
Record Interpreter : Type := mkInterpreter {
  inputs : list (option TfLiteTensor);
  outputs : list (option TfLiteTensor);
  num_threads : Z
}.

Record FlatBufferModel : Type := mkModel { model_bytes : string }.

(** The runtime's answers, the clock and the platform. *)
Record Env : Type := mkEnv {
  BuildFromFile : string -> option FlatBufferModel;
  BuildFromBuffer : string -> option FlatBufferModel;
  TfLiteGpuDelegateV2Create : Ptr;
  InterpreterBuilder : FlatBufferModel -> TfLiteStatus * option Interpreter;
  ModifyGraphWithDelegate : Ptr -> Interpreter -> TfLiteStatus * Interpreter;
  ResizeInputTensor : list Z -> Interpreter -> Interpreter;
  AllocateTensors : Interpreter -> TfLiteStatus * Interpreter;
  Invoke : Interpreter -> TfLiteStatus * Interpreter;
  (** milliseconds [getPerformanceScore] measures around its probe *)
  elapsed_ms : Z;
  (** whether plain [char] is signed on the target *)
  char_is_signed : bool
}.

Definition is_ok (s : TfLiteStatus) : bool :=
  match s with kTfLiteOk => true | kTfLiteError => false end.

(** *** The adapter *)

Record TFLiteGPUService : Type := mkService {
  initialized_ : bool;
  model_loaded_ : bool;
  model_path_ : string;
  interpreter_ : option Interpreter;
  model_ : option FlatBufferModel;
  gpu_delegate_ : Ptr;
  asset_manager_ : option AAssetManager;
  model_buffer_ : string
}.

Definition set_initialized_ (b : bool) (s : TFLiteGPUService) :=
  mkService b (model_loaded_ s) (model_path_ s) (interpreter_ s) (model_ s)
            (gpu_delegate_ s) (asset_manager_ s) (model_buffer_ s).
Definition set_model_loaded_ (b : bool) (s : TFLiteGPUService) :=
  mkService (initialized_ s) b (model_path_ s) (interpreter_ s) (model_ s)
            (gpu_delegate_ s) (asset_manager_ s) (model_buffer_ s).
Definition set_model_path_ (p : string) (s : TFLiteGPUService) :=
  mkService (initialized_ s) (model_loaded_ s) p (interpreter_ s) (model_ s)
            (gpu_delegate_ s) (asset_manager_ s) (model_buffer_ s).
Definition set_interpreter_ (i : option Interpreter) (s : TFLiteGPUService) :=
  mkService (initialized_ s) (model_loaded_ s) (model_path_ s) i (model_ s)
            (gpu_delegate_ s) (asset_manager_ s) (model_buffer_ s).
Definition set_model_ (m : option FlatBufferModel) (s : TFLiteGPUService) :=
  mkService (initialized_ s) (model_loaded_ s) (model_path_ s) (interpreter_ s) m
            (gpu_delegate_ s) (asset_manager_ s) (model_buffer_ s).
Definition set_gpu_delegate_ (p : Ptr) (s : TFLiteGPUService) :=
  mkService (initialized_ s) (model_loaded_ s) (model_path_ s) (interpreter_ s)
            (model_ s) p (asset_manager_ s) (model_buffer_ s).
Definition set_asset_manager_ (a : option AAssetManager) (s : TFLiteGPUService) :=
  mkService (initialized_ s) (model_loaded_ s) (model_path_ s) (interpreter_ s)
            (model_ s) (gpu_delegate_ s) a (model_buffer_ s).
Definition set_model_buffer_ (b : string) (s : TFLiteGPUService) :=
  mkService (initialized_ s) (model_loaded_ s) (model_path_ s) (interpreter_ s)
            (model_ s) (gpu_delegate_ s) (asset_manager_ s) b.

Abbreviation Svc := (M TFLiteGPUService).

Definition new : TFLiteGPUService :=
  mkService false false "" None None nullptr None "".

Definition model_files : list string :=
  [ "models/real_tinyllama.tflite";
    "models/tiny_transformer.tflite";
    "models/numeric_model.tflite";
    "models/simple_text_model.tflite" ].

Definition max_tokens : nat := 128.

(** [static_cast<int32_t>(c)] for a plain [char]. *)
Definition char_to_int32 (e : Env) (c : ascii) : Z :=
  let n := Z.of_nat (nat_of_ascii c) in
  if char_is_signed e && (128 <=? n) then n - 256 else n.

Definition tokenizeInput (e : Env) (input : string) : list Z :=
  let tokens := map (char_to_int32 e) (list_ascii_of_string input) in
  if (max_tokens <? length tokens)%nat then firstn max_tokens tokens
  else (tokens ++ repeat 0 (max_tokens - length tokens))%list.

(** Overwrite the first elements of [old] with [new_prefix]. *)
Definition overwrite {A : Type} (new_prefix old : list A) : list A :=
  (new_prefix ++ skipn (length new_prefix) old)%list.

Definition set_first_input (t : TfLiteTensor) (i : Interpreter) : Interpreter :=
  match inputs i with
  | [] => i
  | _ :: rest => mkInterpreter (Some t :: rest) (outputs i) (num_threads i)
  end.

(** What [memcpy(dst, tokens.data(), copy_size)] leaves in an [int32_t]
    buffer: [copy_size / 4] whole tokens and, when [copy_size] is not a
    multiple of 4, one more element of which only the first
    [copy_size % 4] bytes are the token's. An element the buffer does
    not hold reads as 0. *)
Definition memcpy_i32 (tokens : list Z) (copy_size : Z) (dst : list Z) : list Z :=
  let whole := Z.to_nat (copy_size / 4) in
  let rest := copy_size mod 4 in
  let last :=
    if rest =? 0 then []
    else [splice_bytes rest (nth whole tokens 0) (nth whole dst 0)] in
  overwrite (firstn whole tokens ++ last)%list dst.

(** [setInputTensor]. [bytes] is a [size_t]: a negative value of the
    model's field counts as 0. *)
Definition setInputTensor (tokens : list Z) : Svc bool :=
  do s <- get;
  match interpreter_ s with
  | None => ret false
  | Some interp =>
      match inputs interp with
      | [] => ret false
      | None :: _ => ret false
      | Some input_tensor :: _ =>
          if is_int32 (type input_tensor) then
            let copy_size :=
              Z.min (Z.of_nat (length tokens) * 4) (Z.max 0 (bytes input_tensor)) in
            let t := set_data_i32 (memcpy_i32 tokens copy_size (data_i32 input_tensor))
                                  input_tensor in
            do_ modify (set_interpreter_ (Some (set_first_input t interp)));
            ret true
          else if is_float32 (type input_tensor) then
            let count := Z.to_nat (bytes input_tensor / 4) in
            let copied := map int32_to_float (firstn count tokens) in
            let t := set_data_f (overwrite copied (data_f input_tensor)) input_tensor in
            do_ modify (set_interpreter_ (Some (set_first_input t interp)));
            ret true
          else ret false
      end
  end.

(** [x > y] on floats. *)
Definition Qgtb (x y : Q) : bool := negb (Qle_bool x y).

(** The loop [for (i; i < bound; ++i) if (v[i] > best_score) {...}] with
    [fuel = bound - i] iterations left. A read past the end of the
    buffer is given the value 0. *)
Fixpoint argmax_loop (v : list Q) (i fuel best : nat) (best_score : Q) : nat * Q :=
  match fuel with
  | O => (best, best_score)
  | S fuel' =>
      if Qgtb (nth i v 0%Q) best_score
      then argmax_loop v (S i) fuel' i (nth i v 0%Q)
      else argmax_loop v (S i) fuel' best best_score
  end.

(** The invariant of the scan: after [seen] elements the best so far is
    the first maximum among them. *)
Definition scanned (v : list Q) (seen best : nat) (best_score : Q) : Prop :=
  best_score = nth best v 0%Q
  /\ (forall j, (j < seen)%nat -> (nth j v 0 <= best_score)%Q)
  /\ (forall j, (j < best)%nat -> (nth j v 0 < best_score)%Q).

(** [best = 0; best_score = v[0]; for (i = 1; i < n; ++i) ...] *)
Definition argmax (v : list Q) (n : nat) : nat * Q :=
  argmax_loop v 1 (n - 1) 0 (nth 0 v 0%Q).

(** The characters [decodeOutput] prints for an int32 buffer. *)
Definition printable_chars (data : list Z) : string :=
  string_of_list_ascii
    (map (fun d => ascii_of_nat (Z.to_nat d))
         (filter (fun d => (0 <? d) && (d <? 128)) data)).

(** [decodeOutput]. Dimensions are taken as mathematical integers (no
    [int] overflow in [(t - 1) * v]). *)
Definition decodeOutput : Svc string :=
  do s <- get;
  match interpreter_ s with
  | None => ret "Error: No output tensors"
  | Some interp =>
      match outputs interp with
      | [] => ret "Error: No output tensors"
      | None :: _ => ret "Error: Failed to get output tensor"
      | Some output_tensor :: _ =>
          if is_float32 (type output_tensor) then
            let data := data_f output_tensor in
            let flat :=
              let elements := Z.to_nat (bytes output_tensor / 4) in
              let '(best_token, best_score) := argmax data elements in
              "TensorFlow Lite response (token " ++ to_string (Z.of_nat best_token)
                ++ ", score: " ++ fixed 3 best_score ++ ")" in
            match dims output_tensor with
            | Some [b; t; v] =>
                if (1 <=? b) && (1 <=? t) && (0 <? v) then
                  let offset := Z.to_nat ((t - 1) * v) in
                  let logits := skipn offset data in
                  let '(best, best_score) := argmax logits (Z.to_nat v) in
                  ret ("TensorFlow Lite response (next token " ++ to_string (Z.of_nat best)
                         ++ ", score: " ++ fixed 3 best_score ++ ")")
                else ret flat
            | _ => ret flat
            end
          else if is_int32 (type output_tensor) then
            let data := data_i32 output_tensor in
            let elements := Z.to_nat (bytes output_tensor / 4) in
            ret ("TensorFlow Lite response: "
                   ++ printable_chars (firstn (Nat.min elements 10) data))
          else
            ret ("TensorFlow Lite response (unsupported output type: "
                   ++ to_string (type_code (type output_tensor)) ++ ")")
      end
  end.

Definition generateFallbackResponse (input : string) : Svc string :=
  let response := "TensorFlow Lite processed: '" ++ substr0 50 input in
  let response := if (50 <? String.length input)%nat then response ++ "..." else response in
  ret (response ++ "' [Fallback mode]").

(** [interpreter_->Invoke()] *)
Definition invoke (e : Env) : Svc TfLiteStatus :=
  do s <- get;
  match interpreter_ s with
  | None => ret kTfLiteError
  | Some interp =>
      let '(status, interp') := Invoke e interp in
      do_ modify (set_interpreter_ (Some interp'));
      ret status
  end.

Definition processInference (e : Env) (input_text : string) : Svc string :=
  do s <- get;
  if negb (initialized_ s) || is_null (interpreter_ s)
  then ret "Error: Service not initialized"
  else
    try_catch
      (let tokens := tokenizeInput e input_text in
       do ok <- setInputTensor tokens;
       if negb ok then generateFallbackResponse input_text
       else
         do status <- invoke e;
         if negb (is_ok status) then generateFallbackResponse input_text
         else
           do result <- decodeOutput;
           ret result)
      (fun what => generateFallbackResponse input_text).

Definition getPerformanceScore (e : Env) : Svc Q :=
  do s <- get;
  if negb (initialized_ s) then ret 0%Q
  else
    let test_input :=
      "This is a performance test input for TensorFlow Lite GPU benchmarking" in
    do_ processInference e test_input;
    do s <- get;
    let base_score := if non_null (gpu_delegate_ s) then (8 # 10)%Q else (6 # 10)%Q in
    let time_penalty := Qmin 1 (inject_Z (elapsed_ms e) / 1000) in
    let score := (base_score * (1 - time_penalty * (5 # 10)))%Q in
    ret (clamp01 score).

Definition cleanup : Svc unit :=
  do s <- get;
  if initialized_ s then
    do_ (if non_null (gpu_delegate_ s) then modify (set_gpu_delegate_ nullptr) else ret tt);
    do_ modify (set_interpreter_ None);
    do_ modify (set_model_ None);
    do_ modify (set_model_buffer_ "");
    do_ modify (set_initialized_ false);
    modify (set_model_loaded_ false)
  else ret tt.

Definition loadModelFromFile (e : Env) : Svc bool :=
  do s <- get;
  do_ modify (set_model_ (BuildFromFile e (model_path_ s)));
  do s <- get;
  match model_ s with
  | None => ret false
  | Some _ =>
      do_ modify (set_model_loaded_ true);
      ret true
  end.

(** The [for] loop of [loadModelFromAssets] over the remaining files. *)
Fixpoint load_from (e : Env) (mgr : AAssetManager) (files : list string) : Svc bool :=
  match files with
  | [] => ret false
  | model_file :: rest =>
      match AAssetManager_open mgr model_file with
      | None => load_from e mgr rest
      | Some asset =>
          let asset_size := AAsset_getLength asset in
          if asset_size <=? 0 then load_from e mgr rest
          else
            do s <- get;
            do_ modify (set_model_buffer_ (resize (Z.to_nat asset_size) (model_buffer_ s)));
            let '(bytes_read, got) := AAsset_read asset asset_size in
            do_ modify (fun s => set_model_buffer_ (store_prefix got (model_buffer_ s)) s);
            if negb (bytes_read =? asset_size) then load_from e mgr rest
            else
              do s <- get;
              do_ modify (set_model_ (BuildFromBuffer e (model_buffer_ s)));
              do s <- get;
              match model_ s with
              | None => load_from e mgr rest
              | Some _ =>
                  do_ modify (set_model_loaded_ true);
                  ret true
              end
      end
  end.

(** Called only after [initializeWithAssets] has stored a non-null
    asset manager. *)
Definition loadModelFromAssets (e : Env) : Svc bool :=
  do s <- get;
  match asset_manager_ s with
  | None => ret false
  | Some mgr => load_from e mgr model_files
  end.

Definition initializeGPUDelegate (e : Env) : Svc bool :=
  do_ modify (set_gpu_delegate_ (TfLiteGpuDelegateV2Create e));
  do s <- get;
  if negb (non_null (gpu_delegate_ s)) then ret false
  else ret true.

(** The dynamic-shape heuristic of [buildInterpreter]. *)
Definition resize_if_dynamic (e : Env) (interp : Interpreter) : Interpreter :=
  match inputs interp with
  | Some t :: _ =>
      match dims t with
      | Some [_; dim1] =>
          if dim1 <=? 0 then ResizeInputTensor e [1; 8] interp else interp
      | _ => interp
      end
  | _ => interp
  end.

(** The logging loop that ends [buildInterpreter]: it reads [name],
    [type] and [dims] of every input tensor without testing the tensor
    pointer. *)
Definition log_input_tensors (interp : Interpreter) : Svc unit :=
  if forallb (fun t => negb (is_null t)) (inputs interp) then ret tt
  else segfault.

Definition buildInterpreter (e : Env) : Svc bool :=
  do s <- get;
  match model_ s with
  | None => ret false
  | Some model =>
      let '(status, built) := InterpreterBuilder e model in
      do_ modify (set_interpreter_ built);
      if negb (is_ok status) then ret false
      else
        match built with
        | None => ret false
        | Some interp =>
            let interp :=
              if non_null (gpu_delegate_ s)
              then snd (ModifyGraphWithDelegate e (gpu_delegate_ s) interp)
              else interp in
            let interp := resize_if_dynamic e interp in
            let interp := mkInterpreter (inputs interp) (outputs interp) 4 in
            let '(status, interp) := AllocateTensors e interp in
            do_ modify (set_interpreter_ (Some interp));
            if negb (is_ok status) then ret false
            else
              do_ log_input_tensors interp;
              ret true
        end
  end.

Definition warmUpModel (e : Env) : Svc unit :=
  do s <- get;
  match interpreter_ s with
  | None => ret tt
  | Some _ =>
      try_catch
        (let dummy_input := "warm up" in
         let tokens := tokenizeInput e dummy_input in
         do_ setInputTensor tokens;
         do_ invoke e;
         ret tt)
        (fun what => ret tt)
  end.

Definition initialize (e : Env) (model_path : string) : Svc bool :=
  do s <- get;
  if initialized_ s then ret true
  else
    do_ modify (set_model_path_ model_path);
    try_catch
      (do loaded <- loadModelFromFile e;
       if negb loaded then ret false
       else
         do_ initializeGPUDelegate e;
         do built <- buildInterpreter e;
         if negb built then ret false
         else
           do_ warmUpModel e;
           do_ modify (set_initialized_ true);
           ret true)
      (fun what => ret false).

(** The object as [initialize] has it when it calls [loadModelFromFile],
    and when it calls [buildInterpreter]. *)
Definition state_at_load (model_path : string) (s : TFLiteGPUService) : TFLiteGPUService :=
  set_model_path_ model_path s.
Definition state_at_build (e : Env) (model_path : string) (s : TFLiteGPUService)
  : TFLiteGPUService :=
  state_of (initializeGPUDelegate e
              (state_of (loadModelFromFile e (state_at_load model_path s)))).

(** [asset_manager] is [None] for a null pointer. *)
Definition initializeWithAssets (e : Env) (asset_manager : option AAssetManager) : Svc bool :=
  do s <- get;
  if initialized_ s then ret true
  else
    match asset_manager with
    | None => ret false
    | Some _ =>
        do_ modify (set_asset_manager_ asset_manager);
        try_catch
          (do loaded <- loadModelFromAssets e;
           if negb loaded then ret false
           else
             do_ initializeGPUDelegate e;
             do built <- buildInterpreter e;
             if negb built then ret false
             else
               do_ warmUpModel e;
               do_ modify (set_initialized_ true);
               ret true)
          (fun what => ret false)
    end.

End Prod.

(* ===================================================================== *)
(** ** Concrete runtimes and inputs, for running the model *)
(* ===================================================================== *)

Module Fixtures.
Import Cxx Android.

(** A device on which the TensorFlow Lite runtime builds nothing: no
    model file can be read, no delegate created. *)
Definition no_model_env : Prod.Env :=
  {| Prod.BuildFromFile := fun _ => None;
     Prod.BuildFromBuffer := fun _ => None;
     Prod.TfLiteGpuDelegateV2Create := nullptr;
     Prod.InterpreterBuilder := fun _ => (Prod.kTfLiteError, None);
     Prod.ModifyGraphWithDelegate := fun _ i => (Prod.kTfLiteError, i);
     Prod.ResizeInputTensor := fun _ i => i;
     Prod.AllocateTensors := fun i => (Prod.kTfLiteError, i);
     Prod.Invoke := fun i => (Prod.kTfLiteError, i);
     Prod.elapsed_ms := 0;
     Prod.char_is_signed := false |}.

(** The scores of the arg-max example: 0.1, 0.9, 0.9, 0.2. *)
Definition tie_scores : list Q := [1 # 10; 9 # 10; 9 # 10; 2 # 10]%Q.

Definition token_input : Prod.TfLiteTensor :=
  Prod.mkTensor Prod.kTfLiteInt32 (Some [1; 8]) 32 [] (repeat 0 8).

(** Logits of shape [1, 1, 4]. *)
Definition rank3_output : Prod.TfLiteTensor :=
  Prod.mkTensor Prod.kTfLiteFloat32 (Some [1; 1; 4]) 16 tie_scores [].

(** The same four floats as a flat vector. *)
Definition flat_output : Prod.TfLiteTensor :=
  Prod.mkTensor Prod.kTfLiteFloat32 (Some [4]) 16 tie_scores [].

Definition interpreter_with (output : Prod.TfLiteTensor) : Prod.Interpreter :=
  Prod.mkInterpreter [Some token_input] [Some output] 1.

(** A device without a usable GPU: models load and interpreters build,
    delegate creation fails, and every inference leaves the scores above
    in the output tensor. *)
Definition cpu_only_env : Prod.Env :=
  {| Prod.BuildFromFile := fun path => Some (Prod.mkModel path);
     Prod.BuildFromBuffer := fun buf => Some (Prod.mkModel buf);
     Prod.TfLiteGpuDelegateV2Create := nullptr;
     Prod.InterpreterBuilder := fun _ => (Prod.kTfLiteOk, Some (interpreter_with rank3_output));
     Prod.ModifyGraphWithDelegate := fun _ i => (Prod.kTfLiteError, i);
     Prod.ResizeInputTensor := fun _ i => i;
     Prod.AllocateTensors := fun i => (Prod.kTfLiteOk, i);
     Prod.Invoke := fun i => (Prod.kTfLiteOk, i);
     Prod.elapsed_ms := 350;
     Prod.char_is_signed := false |}.

(** A production service whose interpreter holds the given output. *)
Definition service_with (output : Prod.TfLiteTensor) : Prod.TFLiteGPUService :=
  Prod.mkService true true "model.tflite" (Some (interpreter_with output))
                 (Some (Prod.mkModel "")) nullptr None "".

Definition mock_env : Mock.Env := Mock.mkEnv (1 # 100) 1 2.

(** An asset store without any model. *)
Definition empty_assets : AAssetManager := ∅.

(** An asset store whose only candidate is cut short on reading. *)
Definition truncated_assets : AAssetManager :=
  {[ "models/test_model.tflite" := mkAsset 1024 "TFL3" false ]}.

(** The mock service after [initializeWithAssets] found nothing. *)
Definition degraded_mock : Mock.TFLiteGPUService :=
  state_of (Mock.initializeWithAssets mock_env empty_assets Mock.new).

(** "h", e-acute in UTF-8, "llo". *)
Definition non_ascii_text : string :=
  String "h" (String (ascii_of_nat 195) (String (ascii_of_nat 169) "llo")).

End Fixtures.

(* ===================================================================== *)
(** ** The adapter interfaces the bridge is written against *)
(* ===================================================================== *)

(** The public members of [TFLiteGPUService] the bridge calls. [gpu_env]
    is what one call obtains from outside the object. *)
Class GpuAdapter (G : Type) : Type := {
  gpu_env : Type;
  gpu_new : G;
  gpu_initialize : gpu_env -> string -> M G bool;
  gpu_initializeWithAssets : gpu_env -> Android.AAssetManager -> M G bool;
  gpu_processInference : gpu_env -> string -> M G string;
  gpu_isGPUAvailable : M G bool;
  gpu_getPerformanceScore : gpu_env -> M G Q;
  gpu_cleanup : M G unit
}.

(** The public members of [ONNXMobileService]. *)
Class FallbackAdapter (F : Type) : Type := {
  fb_env : Type;
  fb_new : F;
  fb_initialize : fb_env -> string -> M F bool;
  fb_processInference : fb_env -> string -> M F string;
  fb_isNNAPIAvailable : fb_env -> M F bool;
  fb_getPerformanceScore : fb_env -> M F Q;
  fb_cleanup : M F unit
}.

(** The part of the adapter contract the bridge relies on without
    checking: a call into an adapter returns, it does not throw (each
    adapter catches what its runtime throws). *)
Class GpuNoThrow (G : Type) `{GpuAdapter G} : Prop := {
  gpu_initialize_no_throw :
    forall e path g, no_throw (gpu_initialize e path g);
  gpu_initializeWithAssets_no_throw :
    forall e mgr g, no_throw (gpu_initializeWithAssets e mgr g);
  gpu_processInference_no_throw :
    forall e input g, no_throw (gpu_processInference e input g);
  gpu_isGPUAvailable_no_throw : forall g, no_throw (gpu_isGPUAvailable g);
  gpu_getPerformanceScore_no_throw :
    forall e g, no_throw (gpu_getPerformanceScore e g);
  gpu_cleanup_no_throw : forall g, no_throw (gpu_cleanup g)
}.

Class FallbackNoThrow (F : Type) `{FallbackAdapter F} : Prop := {
  fb_initialize_no_throw :
    forall e path f, no_throw (fb_initialize e path f);
  fb_processInference_no_throw :
    forall e input f, no_throw (fb_processInference e input f);
  fb_isNNAPIAvailable_no_throw : forall e f, no_throw (fb_isNNAPIAvailable e f);
  fb_getPerformanceScore_no_throw :
    forall e f, no_throw (fb_getPerformanceScore e f);
  fb_cleanup_no_throw : forall f, no_throw (fb_cleanup f)
}.

#[export] Instance mock_adapter : GpuAdapter Mock.TFLiteGPUService := {
  gpu_env := Mock.Env;
  gpu_new := Mock.new;
  gpu_initialize := Mock.initialize;
  gpu_initializeWithAssets := Mock.initializeWithAssets;
  gpu_processInference := Mock.processInference;
  gpu_isGPUAvailable := Mock.isGPUAvailable;
  gpu_getPerformanceScore := Mock.getPerformanceScore;
  gpu_cleanup := Mock.cleanup
}.

(** Modelled from the spec: [isGPUAvailable] of the production adapter,
    which the header declares and the production source file does not
    define; the spec's [isAccelerationAvailable] "reflects whether a
    hardware delegate/handle was successfully attached". *)
Definition prod_isGPUAvailable : M Prod.TFLiteGPUService bool :=
  do s <- get;
  ret (Cxx.non_null (Prod.gpu_delegate_ s)).

#[export] Instance prod_adapter : GpuAdapter Prod.TFLiteGPUService := {
  gpu_env := Prod.Env;
  gpu_new := Prod.new;
  gpu_initialize := Prod.initialize;
  gpu_initializeWithAssets := fun e mgr => Prod.initializeWithAssets e (Some mgr);
  gpu_processInference := Prod.processInference;
  gpu_isGPUAvailable := prod_isGPUAvailable;
  gpu_getPerformanceScore := Prod.getPerformanceScore;
  gpu_cleanup := Prod.cleanup
}.

#[export] Instance onnx_adapter : FallbackAdapter Onnx.ONNXMobileService := {
  fb_env := unit;
  fb_new := Onnx.new;
  fb_initialize := fun _ => Onnx.initialize;
  fb_processInference := fun _ => Onnx.processInference;
  fb_isNNAPIAvailable := fun _ => Onnx.isNNAPIAvailable;
  fb_getPerformanceScore := fun _ => Onnx.getPerformanceScore;
  fb_cleanup := Onnx.cleanup
}.

(* ===================================================================== *)
(** ** [mobile_ai_jni_bridge.cpp]: the backend selector *)
(* ===================================================================== *)

Module Bridge.
Import Cxx Android.

(** The preprocessor symbols the bridge is compiled under. *)
Record Build : Type := mkBuild {
  TFLITE_GPU_AVAILABLE : bool;
  ONNX_MOBILE_AVAILABLE : bool;
  REAL_TFLITE_AVAILABLE : bool
}.

(** One constructor per [LOGI]/[LOGE] statement of the bridge. *)
Inductive LogLine : Type :=
| LogI_Initializing (path : string)
| LogI_AttemptTFLite (native : bool)
| LogI_TFLiteOk (performance : Q)
| LogI_TFLiteFailed
| LogI_AttemptONNX
| LogI_ONNXOk
| LogE_ONNXFailed
| LogI_Ready (backend : string)
| LogE_AllFailed
| LogI_InitializingAssets
| LogE_NoAssetManager
| LogI_AttemptTFLiteAssets (native : bool)
| LogI_TFLiteAssetsOk (gpu_available : bool) (performance : Q)
| LogI_TFLiteAssetsFailed
| LogI_ONNXAssetsNotImplemented
| LogE_AllFailedAssets
| LogE_NotInitialized
| LogE_NoActiveBackend
| LogI_CleaningUp
| LogI_CleanupComplete.

Section WithAdapters.
Context {G : Type} {GA : GpuAdapter G} {F : Type} {FA : FallbackAdapter F}.
Variable build : Build.

(** The file-scope statics, and the log the bridge has written. *)
Record State : Type := mkState {
  tflite_service : option G;
  onnx_service : option F;
  is_initialized : bool;
  active_backend : string;
  logcat : list LogLine
}.

Definition set_tflite_service (v : option G) (st : State) :=
  mkState v (onnx_service st) (is_initialized st) (active_backend st) (logcat st).
Definition set_onnx_service (v : option F) (st : State) :=
  mkState (tflite_service st) v (is_initialized st) (active_backend st) (logcat st).
Definition set_is_initialized (v : bool) (st : State) :=
  mkState (tflite_service st) (onnx_service st) v (active_backend st) (logcat st).
Definition set_active_backend (v : string) (st : State) :=
  mkState (tflite_service st) (onnx_service st) (is_initialized st) v (logcat st).

Definition log (l : LogLine) : M State unit :=
  modify (fun st =>
            mkState (tflite_service st) (onnx_service st) (is_initialized st)
                    (active_backend st) (logcat st ++ [l])).

(** The statics at program start. *)
Definition initial : State := mkState None None false "none" [].

(** What the caller can observe of the statics. *)
Definition statics (st : State) : option G * option F * bool * string :=
  (tflite_service st, onnx_service st, is_initialized st, active_backend st).

(** [tflite_service->f(...)]. The bridge makes such a call only on a
    pointer it has just assigned or tested, so the null case is never
    reached. *)
Definition via_tflite {A : Type} (c : M G A) : M State A :=
  fun st =>
    match tflite_service st with
    | Some g => let '(r, g') := c g in (r, set_tflite_service (Some g') st)
    | None => (Throw (Fatal "null tflite_service"), st)
    end.

Definition via_onnx {A : Type} (c : M F A) : M State A :=
  fun st =>
    match onnx_service st with
    | Some f => let '(r, f') := c f in (r, set_onnx_service (Some f') st)
    | None => (Throw (Fatal "null onnx_service"), st)
    end.

Definition initializeNative (e_init e_score : gpu_env) (f_init f_nnapi : fb_env)
           (path : string) : M State bool :=
  do_ log (LogI_Initializing path);
  let success := false in
  do success <-
    (if TFLITE_GPU_AVAILABLE build then
       do_ log (LogI_AttemptTFLite (REAL_TFLITE_AVAILABLE build));
       do_ modify (set_tflite_service (Some gpu_new));
       do ok <- via_tflite (gpu_initialize e_init path);
       if ok then
         do_ modify (set_active_backend "tflite_gpu");
         let success := true in
         do performance <- via_tflite (gpu_getPerformanceScore e_score);
         do_ log (LogI_TFLiteOk performance);
         ret success
       else
         do_ log LogI_TFLiteFailed;
         do_ modify (set_tflite_service None);
         ret success
     else ret success);
  do success <-
    (if ONNX_MOBILE_AVAILABLE build then
       if negb success then
         do_ log LogI_AttemptONNX;
         do_ modify (set_onnx_service (Some fb_new));
         do ok <- via_onnx (fb_initialize f_init path);
         do ok <- (if ok then via_onnx (fb_isNNAPIAvailable f_nnapi) else ret false);
         if ok then
           do_ modify (set_active_backend "onnx_mobile");
           do_ log LogI_ONNXOk;
           ret true
         else
           do_ log LogE_ONNXFailed;
           do_ modify (set_onnx_service None);
           ret success
       else ret success
     else ret success);
  do_ (if success then
         do_ modify (set_is_initialized true);
         do st <- get;
         log (LogI_Ready (active_backend st))
       else log LogE_AllFailed);
  ret success.

(** [asset_manager] is what [AAssetManager_fromJava] returned, [None]
    for null. *)
Definition initializeWithAssetsNative (e_init e_score : gpu_env)
           (asset_manager : option AAssetManager) : M State bool :=
  do_ log LogI_InitializingAssets;
  match asset_manager with
  | None =>
      do_ log LogE_NoAssetManager;
      ret false
  | Some native_asset_manager =>
      let success := false in
      do success <-
        (if TFLITE_GPU_AVAILABLE build then
           do_ log (LogI_AttemptTFLiteAssets (REAL_TFLITE_AVAILABLE build));
           do_ modify (set_tflite_service (Some gpu_new));
           do ok <- via_tflite (gpu_initializeWithAssets e_init native_asset_manager);
           if ok then
             do_ modify (set_active_backend "tflite_gpu");
             let success := true in
             do performance <- via_tflite (gpu_getPerformanceScore e_score);
             do gpu_available <- via_tflite gpu_isGPUAvailable;
             do_ log (LogI_TFLiteAssetsOk gpu_available performance);
             ret success
           else
             do_ log LogI_TFLiteAssetsFailed;
             do_ modify (set_tflite_service None);
             ret success
         else ret success);
      do_ (if ONNX_MOBILE_AVAILABLE build then
             if negb success then log LogI_ONNXAssetsNotImplemented else ret tt
           else ret tt);
      do_ (if success then
             do_ modify (set_is_initialized true);
             do st <- get;
             log (LogI_Ready (active_backend st))
           else log LogE_AllFailedAssets);
      ret success
  end.

Definition has_service {A : Type} (p : option A) : bool := negb (is_null p).

Definition processInferenceNative (e : gpu_env) (f : fb_env) (input : string)
  : M State string :=
  do st <- get;
  if negb (is_initialized st) then
    do_ log LogE_NotInitialized;
    ret "Error: Service not initialized"
  else
    let result := "" in
    do result <-
      (if TFLITE_GPU_AVAILABLE build then
         do st <- get;
         if String.eqb (active_backend st) "tflite_gpu" && has_service (tflite_service st)
         then via_tflite (gpu_processInference e input)
         else ret result
       else ret result);
    do result <-
      (if ONNX_MOBILE_AVAILABLE build then
         do st <- get;
         if String.eqb (active_backend st) "onnx_mobile" && has_service (onnx_service st)
         then via_onnx (fb_processInference f input)
         else ret result
       else ret result);
    if empty result then
      do_ log LogE_NoActiveBackend;
      ret "Error: No active backend available"
    else ret result.

Definition performance_suffix (score : Q) : string :=
  " (Performance: " ++ to_string (trunc (score * 100)) ++ "% of QNN)".

Definition getBackendInfoNative (e : gpu_env) (f : fb_env) : M State string :=
  do st <- get;
  if negb (is_initialized st) then ret "Backend: Not initialized"
  else
    let info := "Backend: " ++ active_backend st in
    let info := if REAL_TFLITE_AVAILABLE build then info ++ " [native]" else info in
    do info <-
      (if TFLITE_GPU_AVAILABLE build then
         do st <- get;
         if String.eqb (active_backend st) "tflite_gpu" && has_service (tflite_service st)
         then
           do score <- via_tflite (gpu_getPerformanceScore e);
           ret (info ++ performance_suffix score)
         else ret info
       else ret info);
    do info <-
      (if ONNX_MOBILE_AVAILABLE build then
         do st <- get;
         if String.eqb (active_backend st) "onnx_mobile" && has_service (onnx_service st)
         then
           do score <- via_onnx (fb_getPerformanceScore f);
           ret (info ++ performance_suffix score)
         else ret info
       else ret info);
    ret info.

Definition cleanupNative : M State unit :=
  do_ log LogI_CleaningUp;
  do_ (if TFLITE_GPU_AVAILABLE build then
         do st <- get;
         if has_service (tflite_service st) then
           do_ via_tflite gpu_cleanup;
           modify (set_tflite_service None)
         else ret tt
       else ret tt);
  do_ (if ONNX_MOBILE_AVAILABLE build then
         do st <- get;
         if has_service (onnx_service st) then
           do_ via_onnx fb_cleanup;
           modify (set_onnx_service None)
         else ret tt
       else ret tt);
  do_ modify (set_is_initialized false);
  do_ modify (set_active_backend "none");
  log LogI_CleanupComplete.

(** What holds of the statics in every reachable state: a service
    exists only if its adapter is compiled in, and an uninitialized
    orchestrator holds no service and names no backend. *)
Definition consistent (st : State) : Prop :=
  (TFLITE_GPU_AVAILABLE build = false -> tflite_service st = None)
  /\ (ONNX_MOBILE_AVAILABLE build = false -> onnx_service st = None)
  /\ (is_initialized st = false ->
      tflite_service st = None /\ onnx_service st = None
      /\ active_backend st = "none").

(** A run of [processInferenceNative] calls, one after the other. *)
Fixpoint processInference_seq (calls : list (gpu_env * fb_env * string)) (st : State)
  : list (Result string) * State :=
  match calls with
  | [] => ([], st)
  | (e, f, input) :: rest =>
      let '(r, st') := processInferenceNative e f input st in
      let '(rs, st'') := processInference_seq rest st' in
      (r :: rs, st'')
  end.

(** The lines a call added to the log. *)
Definition emitted (before after : State) : list LogLine :=
  skipn (length (logcat before)) (logcat after).

(** The states the process can be in: it starts at [initial] and moves
    by calls of the five entry points that return. (An exception that
    leaves a native method ends the process.) *)
Inductive reachable : State -> Prop :=
| reach_initial : reachable initial
| reach_initialize st st' e1 e2 f1 f2 path r :
    reachable st ->
    initializeNative e1 e2 f1 f2 path st = (Return r, st') ->
    reachable st'
| reach_initializeWithAssets st st' e1 e2 mgr r :
    reachable st ->
    initializeWithAssetsNative e1 e2 mgr st = (Return r, st') ->
    reachable st'
| reach_processInference st st' e f input r :
    reachable st ->
    processInferenceNative e f input st = (Return r, st') ->
    reachable st'
| reach_getBackendInfo st st' e f r :
    reachable st ->
    getBackendInfoNative e f st = (Return r, st') ->
    reachable st'
| reach_cleanup st st' :
    reachable st ->
    cleanupNative st = (Return tt, st') ->
    reachable st'.

End WithAdapters.

End Bridge.

(* ===================================================================== *)
(** ** Builds and processes, for running the bridge *)
(* ===================================================================== *)

Module Scenario.

(** Both adapters compiled in, the mock TensorFlow Lite adapter. *)
Definition mock_build : Bridge.Build := Bridge.mkBuild true true false.

(** Both adapters compiled in, the production TensorFlow Lite adapter. *)
Definition native_build : Bridge.Build := Bridge.mkBuild true true true.

Definition MockProcess : Type :=
  @Bridge.State Mock.TFLiteGPUService Onnx.ONNXMobileService.
Definition NativeProcess : Type :=
  @Bridge.State Prod.TFLiteGPUService Onnx.ONNXMobileService.

(** The process at start, for each build. *)
Definition mock_start : MockProcess := Bridge.initial.
Definition native_start : NativeProcess := Bridge.initial.

(** The mock process after a successful [initializeNative]. *)
Definition mock_running : MockProcess :=
  state_of (Bridge.initializeNative
              (G := Mock.TFLiteGPUService) (F := Onnx.ONNXMobileService)
              mock_build Fixtures.mock_env Fixtures.mock_env tt tt
              "model.tflite" mock_start).

End Scenario.

(* ===================================================================== *)
(** ** [qnn_llm_service.cpp] and [qnn_jni_bridge.cpp]: the QNN placeholder *)
(* ===================================================================== *)

Module Qnn.

Record QNNLLMService : Type := mkService { initialized : bool }.

Abbreviation Svc := (M QNNLLMService).

(** [bool initialized = false;] *)
Definition new : QNNLLMService := mkService false.

Section WithBuild.
(** The preprocessor symbol both files test. *)
Variable QNN_AVAILABLE : bool.

Definition initialize : Svc bool :=
  if QNN_AVAILABLE then
    do_ modify (fun _ => mkService true);
    ret true
  else
    do_ modify (fun _ => mkService false);
    ret false.

Definition isInitialized : Svc bool := gets initialized.

Definition loadModel (modelPath : string) : Svc Z :=
  if QNN_AVAILABLE then
    do s <- get;
    if negb (initialized s) then ret (-1)
    else ret 12345
  else ret (-1).

(** Byte vectors are lists of bytes. *)
Definition runInference (contextId : Z) (input : list ascii) : Svc (list ascii) :=
  let output := [] in
  ret output.

Definition releaseModel (contextId : Z) : Svc unit := ret tt.

Definition getVersion : Svc string :=
  if QNN_AVAILABLE then ret "QNN SDK 2.24.0 (Available)"
  else ret "QNN SDK (Not Available)".

(** [getQNNService]: the state is the global [g_qnnService], [None] for
    the null pointer; the service is created on first use. *)
Definition getQNNService : M (option QNNLLMService) QNNLLMService :=
  do g <- get;
  match g with
  | Some service => ret service
  | None =>
      do_ modify (fun _ => Some new);
      ret new
  end.

(** The native methods of [qnn_jni_bridge.cpp]; none of them touches the
    service. *)
Definition initializeQNN : bool :=
  if QNN_AVAILABLE then true else false.

Definition isQNNAvailable : bool :=
  if QNN_AVAILABLE then true else false.

Definition getQNNVersion : string :=
  if QNN_AVAILABLE then "QNN SDK 2.24.0" else "QNN Not Available".

Definition loadModelNative (modelPath : string) : Z :=
  if QNN_AVAILABLE then
    let contextId := 12345 in
    contextId
  else -1.

(** The length of the byte array returned. *)
Definition runInferenceNative (contextId : Z) (input : list ascii) : list ascii :=
  if QNN_AVAILABLE then [] else [].

End WithBuild.

End Qnn.

(* ===================================================================== *)
(** ** Vocabulary for stating what the adapters do *)
(* ===================================================================== *)

Module Facts.
Import Cxx Android.

(** [c >= 32 && c <= 126] of the mock tokenizer. *)
Definition is_printable (c : ascii) : bool :=
  let n := nat_of_ascii c in ((32 <=? n) && (n <=? 126))%nat.

(** The bytes of a string as character codes. *)
Definition codes (s : string) : list Z :=
  map (fun c => Z.of_nat (nat_of_ascii c)) (list_ascii_of_string s).

(** The printable characters of a string. *)
Definition printable_part (s : string) : string :=
  string_of_list_ascii (filter is_printable (list_ascii_of_string s)).



(** The interpreter [buildInterpreter] passes to [AllocateTensors], made
    of the one the builder returned: the delegate applied if there is
    one, the first input resized if its shape is dynamic, four
    threads. *)
Definition prepared (e : Prod.Env) (delegate : Ptr) (interp : Prod.Interpreter)
  : Prod.Interpreter :=
  let interp :=
    if non_null delegate then snd (Prod.ModifyGraphWithDelegate e delegate interp)
    else interp in
  let interp := Prod.resize_if_dynamic e interp in
  Prod.mkInterpreter (Prod.inputs interp) (Prod.outputs interp) 4.

(** Interpreter building at the runtime's interface, with the delegate
    handle that [TfLiteGpuDelegateV2Create] returned: the interpreter
    with its tensors allocated, or [None] when building fails, that is
    when the builder reports an error or returns no interpreter, or
    [AllocateTensors] reports an error. *)
Definition built (e : Prod.Env) (model : Prod.FlatBufferModel) : option Prod.Interpreter :=
  match Prod.InterpreterBuilder e model with
  | (Prod.kTfLiteOk, Some interp) =>
      match Prod.AllocateTensors
              e (prepared e (Prod.TfLiteGpuDelegateV2Create e) interp) with
      | (Prod.kTfLiteOk, allocated) => Some allocated
      | (Prod.kTfLiteError, _) => None
      end
  | _ => None
  end.

(** No input tensor of the interpreter is a null pointer. *)
Definition inputs_present (interp : Prod.Interpreter) : bool :=
  forallb (fun t => negb (is_null t)) (Prod.inputs interp).

(** A runtime whose allocated interpreters have all their input
    tensors. *)
Definition hands_out_inputs (e : Prod.Env) : Prop :=
  forall model interp, built e model = Some interp -> inputs_present interp = true.



(** The three names [active_backend] takes. *)
Definition backend_name (b : string) : Prop :=
  b = "none" \/ b = "tflite_gpu" \/ b = "onnx_mobile".

(** What the statics say about the backend: [active_backend] is one of
    its three names, and it is "none" exactly while [is_initialized] is
    clear. *)
Definition backend_invariant {G F : Type} (st : @Bridge.State G F) : Prop :=
  backend_name (Bridge.active_backend st)
  /\ (Bridge.is_initialized st = true <-> Bridge.active_backend st <> "none").

End Facts.

(* ===================================================================== *)
(** ** The production adapter over a runtime that hands out its inputs *)
(* ===================================================================== *)

(** A TensorFlow Lite runtime whose allocated interpreters have all
    their input tensors. *)
Record Runtime : Type := mkRuntime {
  runtime_env :> Prod.Env;
  runtime_hands_out_inputs : Facts.hands_out_inputs runtime_env
}.

(** The production adapter on such runtimes: the same member functions
    as in [prod_adapter]. *)
#[export] Instance prod_runtime_adapter : GpuAdapter Prod.TFLiteGPUService | 10 := {
  gpu_env := Runtime;
  gpu_new := Prod.new;
  gpu_initialize := fun e => Prod.initialize e;
  gpu_initializeWithAssets := fun e mgr => Prod.initializeWithAssets e (Some mgr);
  gpu_processInference := fun e => Prod.processInference e;
  gpu_isGPUAvailable := prod_isGPUAvailable;
  gpu_getPerformanceScore := fun e => Prod.getPerformanceScore e;
  gpu_cleanup := Prod.cleanup
}.

(* ===================================================================== *)
(** ** More devices, stores and builds, for running the model *)
(* ===================================================================== *)

Module Cases.
Import Cxx Android.

(** A device whose GPU delegate can be created and whose models load,
    but on which no interpreter can be built. *)
Definition build_fails_env : Prod.Env :=
  {| Prod.BuildFromFile := fun path => Some (Prod.mkModel path);
     Prod.BuildFromBuffer := fun buf => Some (Prod.mkModel buf);
     Prod.TfLiteGpuDelegateV2Create := 0x7000;
     Prod.InterpreterBuilder := fun _ => (Prod.kTfLiteError, None);
     Prod.ModifyGraphWithDelegate := fun _ i => (Prod.kTfLiteOk, i);
     Prod.ResizeInputTensor := fun _ i => i;
     Prod.AllocateTensors := fun i => (Prod.kTfLiteOk, i);
     Prod.Invoke := fun i => (Prod.kTfLiteOk, i);
     Prod.elapsed_ms := 0;
     Prod.char_is_signed := false |}.


(** An int32 output holding "Hi", a zero, a value outside ASCII and more
    than ten elements in all. *)
Definition text_output : Prod.TfLiteTensor :=
  Prod.mkTensor Prod.kTfLiteInt32 (Some [12]) 48 []
                [72; 105; 0; 300; 33; 33; 33; 33; 33; 33; 33; 33].

(** An int32 input whose byte size is not a multiple of 4; its second
    element is 0x01020304. *)
Definition odd_sized_input : Prod.TfLiteTensor :=
  Prod.mkTensor Prod.kTfLiteInt32 (Some [1; 2]) 6 [] [0; 16909060].

(** An initialized production service whose interpreter has the given
    input. *)
Definition service_over (input : Prod.TfLiteTensor) : Prod.TFLiteGPUService :=
  Prod.mkService true true "model.tflite"
                 (Some (Prod.mkInterpreter [Some input] [Some Fixtures.rank3_output] 1))
                 (Some (Prod.mkModel "")) nullptr None "".



(** Only the TensorFlow Lite adapter compiled in (production). *)
Definition tflite_only_build : Bridge.Build := Bridge.mkBuild true false true.

(** The production process of that build after a successful
    [initializeNative]. *)
Definition tflite_only_running : Scenario.NativeProcess :=
  state_of (Bridge.initializeNative
              (G := Prod.TFLiteGPUService) (F := Onnx.ONNXMobileService)
              tflite_only_build Fixtures.cpu_only_env Fixtures.cpu_only_env tt tt
              "model.tflite" Scenario.native_start).

End Cases.

(* ===================================================================== *)
(** * Proofs *)
(* ===================================================================== *)

(** ** Running computations *)

Ltac run := unfold bind, ret, get, gets, modify, throw, segfault, try_catch; cbn beta iota.

Lemma no_throw_ret {S A} (a : A) (s : S) : no_throw (ret a s).
Proof. exists a. reflexivity. Qed.

Lemma no_throw_bind {S A B} (c : M S A) (k : A -> M S B) (s : S) :
  no_throw (c s) ->
  (forall a s', no_throw (k a s')) ->
  no_throw (bind c k s).
Proof.
  intros [a Ha] Hk. unfold bind.
  destruct (c s) as [[a'|w] s']; cbn in Ha; [apply Hk | discriminate].
Qed.

Lemma no_throw_try_catch {S A} (body : M S A) (handler : string -> M S A) (s : S) :
  no_signal (body s) ->
  (forall w s', no_throw (handler w s')) ->
  no_throw (try_catch body handler s).
Proof.
  intros Hb Hh. unfold try_catch, no_signal in *.
  destruct (body s) as [[a|[w|g]] s']; [exists a; reflexivity | apply Hh |].
  exfalso. exact (Hb g eq_refl).
Qed.

Lemma no_throw_no_signal {S A} (r : Result A * S) : no_throw r -> no_signal r.
Proof. intros [a Ha] g Hg. congruence. Qed.

Lemma no_signal_ret {S A} (a : A) (s : S) : no_signal (ret a s).
Proof. intros g H. discriminate H. Qed.

Lemma no_signal_bind {S A B} (c : M S A) (k : A -> M S B) (s : S) :
  no_signal (c s) ->
  (forall a s', no_signal (k a s')) ->
  no_signal (bind c k s).
Proof.
  intros Hc Hk. unfold bind.
  destruct (c s) as [[a|[w|g]] s'] eqn:E; [apply Hk | intros g H; discriminate H |].
  exfalso. exact (Hc g eq_refl).
Qed.

Lemma no_throw_run {S A} (c : M S A) (s : S) :
  no_throw (c s) -> exists a s', c s = (Return a, s').
Proof.
  intros [a Ha]. destruct (c s) as [r s']. cbn in Ha. subst. eauto.
Qed.

Lemma append_assoc (a b c : string) : (a ++ b) ++ c = a ++ (b ++ c).
Proof.
  induction a as [|x a IH]; [reflexivity|].
  change (String x ((a ++ b) ++ c) = String x (a ++ (b ++ c))). now rewrite IH.
Qed.

Lemma append_nil_r (a : string) : a ++ "" = a.
Proof.
  induction a as [|x a IH]; [reflexivity|].
  change (String x (a ++ "") = String x a). now rewrite IH.
Qed.

Lemma clamp01_id (x : Q) : (0 <= x <= 1)%Q -> (Cxx.clamp01 x == x)%Q.
Proof.
  intros [H0 H1]. unfold Cxx.clamp01.
  rewrite (Q.max_r 0 x H0). apply Q.min_r. exact H1.
Qed.

Section MockFacts.
Import Cxx Android Mock.

Lemma mock_isGPUAvailable_true s : isGPUAvailable s = (Return true, s).
Proof. unfold isGPUAvailable. run. destruct (non_null _); reflexivity. Qed.

Lemma mock_cleanup_run s : exists s', cleanup s = (Return tt, s') /\ initialized_ s' = false
   /\ asset_manager_ s' = asset_manager_ s
   /\ (initialized_ s = false -> s' = s).
Proof.
  unfold cleanup. run. destruct s as [i ml mp ip m gd am mb]; cbn.
  destruct i; cbn.
  - destruct (non_null ip), (non_null gd), (non_null m); cbn; eexists; repeat split; discriminate.
  - eexists; repeat split.
Qed.

Lemma mock_initialize_asset_fails e mgr p a s :
  asset_manager_ s = Some mgr ->
  AAssetManager_open mgr p = Some a ->
  asset_loads a = false ->
  exists s', initialize e p s = (Return false, s')
    /\ asset_manager_ s' = Some mgr
    /\ (initialized_ s = false ->
        initialized_ s' = false /\ model_ s' = model_ s
        /\ interpreter_ s' = interpreter_ s /\ gpu_delegate_ s' = gpu_delegate_ s).
Proof.
  intros Ham Hopen Hload.
  destruct s as [i ml mp ip m gd am mb]; cbn in Ham; subst am.
  unfold asset_loads in Hload.
  unfold initialize, loadModel, loadModelFromAssets. run. cbn -[cleanup].
  unfold AAssetManager_open in *. rewrite Hopen. unfold AAsset_getLength.
  destruct (asset_length a <? 0) eqn:Hneg; cbn -[cleanup].
  - match goal with |- context [cleanup ?x] =>
      destruct (mock_cleanup_run x) as (s' & Hc & Hi & Hm & Hid) end.
    rewrite Hc. eexists; split; [reflexivity|]. split; [exact Hm|].
    intros Hi0. cbn in Hi0. rewrite (Hid Hi0). cbn. auto.
  - assert (H0 : (0 <=? asset_length a) = true) by lia.
    rewrite H0 in Hload. cbn in Hload.
    destruct (AAsset_read a (asset_length a)) as [rs bytes] eqn:Hrd. cbn in Hload.
    cbn. rewrite Hload. cbn.
    eexists; split; [reflexivity|]. cbn. auto.
Qed.

(** [initialize] always returns; when it returns [true] the model is
    loaded and the service initialized. *)
Lemma mock_initialize_run e p s :
  exists b s', initialize e p s = (Return b, s')
    /\ asset_manager_ s' = asset_manager_ s
    /\ (b = true -> initialized_ s' = true /\ model_loaded_ s' = true).
Proof.
  destruct s as [i ml mp ip m gd am mb].
  unfold initialize, loadModel, loadModelFromAssets, loadModelFromFile,
    initializeGPUDelegate, buildInterpreter, warmUpModel, processInference,
    setInputTensor, decodeOutput, generateFallbackResponse.
  run. cbn -[cleanup tokenizeInput nth].
  destruct am as [mgr|]; cbn -[cleanup tokenizeInput nth].
  - unfold AAssetManager_open. destruct (mgr !! p) as [a|]; cbn -[cleanup tokenizeInput nth].
    + unfold AAsset_getLength.
      destruct (asset_length a <? 0); cbn -[cleanup tokenizeInput nth].
      * match goal with |- context [cleanup ?x] =>
          destruct (mock_cleanup_run x) as (s' & Hc & Hi & Hm & Hid) end.
        rewrite Hc. do 2 eexists. split; [reflexivity|]. split; [exact Hm | discriminate].
      * destruct (AAsset_read a (asset_length a)) as [rs bytes].
        cbn -[cleanup tokenizeInput nth].
        destruct (rs =? asset_length a); cbn -[cleanup tokenizeInput nth].
        -- destruct i; cbn -[cleanup tokenizeInput nth];
             do 2 eexists; (split; [reflexivity|]); cbn; auto.
        -- do 2 eexists; (split; [reflexivity|]); cbn; split; [auto | discriminate].
    + do 2 eexists; (split; [reflexivity|]); cbn; split; [auto | discriminate].
  - destruct i; cbn -[cleanup tokenizeInput nth];
      do 2 eexists; (split; [reflexivity|]); cbn; auto.
Qed.

Lemma mock_initialize_asset_loads e mgr p a s :
  asset_manager_ s = Some mgr ->
  AAssetManager_open mgr p = Some a ->
  asset_loads a = true ->
  exists s', initialize e p s = (Return true, s').
Proof.
  intros Ham Hopen Hload.
  destruct s as [i ml mp ip m gd am mb]; cbn in Ham; subst am.
  unfold asset_loads in Hload. apply andb_true_iff in Hload as [H0 Hrd].
  unfold initialize, loadModel, loadModelFromAssets,
    initializeGPUDelegate, buildInterpreter, warmUpModel, processInference,
    setInputTensor, decodeOutput, generateFallbackResponse.
  run. cbn -[cleanup tokenizeInput nth].
  unfold AAssetManager_open in *. rewrite Hopen. unfold AAsset_getLength.
  assert (Hneg : (asset_length a <? 0) = false) by lia. rewrite Hneg.
  cbn -[cleanup tokenizeInput nth].
  destruct (AAsset_read a (asset_length a)) as [rs bytes]. cbn in Hrd.
  cbn -[cleanup tokenizeInput nth]. rewrite Hrd. cbn -[cleanup tokenizeInput nth].
  destruct i; cbn -[cleanup tokenizeInput nth]; eexists; reflexivity.
Qed.

Lemma mock_try_candidates_exhausted e mgr candidates : forall s,
  asset_manager_ s = Some mgr ->
  Forall (fun name => usable mgr name = false) candidates ->
  exists s', try_candidates e mgr candidates s = (Return None, s')
    /\ asset_manager_ s' = Some mgr
    /\ (initialized_ s = false ->
        initialized_ s' = false /\ model_ s' = model_ s
        /\ interpreter_ s' = interpreter_ s /\ gpu_delegate_ s' = gpu_delegate_ s).
Proof.
  induction candidates as [|name rest IH]; intros s Ham Hall.
  - exists s. cbn. repeat split; auto.
  - inversion Hall as [|? ? Hname Hrest]; subst. cbn [try_candidates].
    unfold usable in Hname.
    destruct (AAssetManager_open mgr name) as [a|] eqn:Hopen.
    + destruct (mock_initialize_asset_fails e mgr name a s Ham Hopen Hname)
        as (s1 & Hinit & Ham1 & Hkeep).
      unfold bind. rewrite Hinit.
      destruct (IH s1 Ham1 Hrest) as (s2 & Hrun & Ham2 & Hkeep2).
      exists s2. split; [exact Hrun|]. split; [exact Ham2|].
      intros Hi. destruct (Hkeep Hi) as (Hi1 & Hm & Hip & Hgd).
      destruct (Hkeep2 Hi1) as (Hi2 & Hm2 & Hip2 & Hgd2).
      repeat split; congruence.
    + apply IH; assumption.
Qed.

(** The loop always returns: with [None] at its end, or with [Some true]
    from a candidate that initialized. *)
Lemma mock_try_candidates_run e mgr candidates : forall s,
  exists r s', try_candidates e mgr candidates s = (Return r, s')
    /\ (r = None \/ (r = Some true /\ initialized_ s' = true /\ model_loaded_ s' = true)).
Proof.
  induction candidates as [|name rest IH]; intros s.
  - exists None, s. cbn. auto.
  - cbn [try_candidates].
    destruct (AAssetManager_open mgr name) as [a|]; [|apply IH].
    destruct (mock_initialize_run e name s) as (b & s1 & Hinit & _ & Hb).
    unfold bind. rewrite Hinit. destruct b.
    + exists (Some true), s1. split; [reflexivity|]. right. destruct Hb; auto.
    + apply IH.
Qed.

Lemma mock_try_candidates_usable e mgr candidates : forall s,
  asset_manager_ s = Some mgr ->
  Exists (fun name => usable mgr name = true) candidates ->
  exists s', try_candidates e mgr candidates s = (Return (Some true), s')
    /\ initialized_ s' = true /\ model_loaded_ s' = true.
Proof.
  induction candidates as [|name rest IH]; intros s Ham Hex.
  - inversion Hex.
  - cbn [try_candidates].
    destruct (AAssetManager_open mgr name) as [a|] eqn:Hopen.
    + destruct (mock_initialize_run e name s) as (b & s1 & Hinit & Ham1 & Hb).
      unfold bind. rewrite Hinit. destruct b.
      * exists s1. destruct Hb; auto.
      * apply IH; [congruence|].
        inversion Hex as [? ? Hname|? ? Hrest]; subst; [|exact Hrest].
        unfold usable in Hname. rewrite Hopen in Hname.
        destruct (mock_initialize_asset_loads e mgr name a s Ham Hopen Hname) as (s2 & H2).
        congruence.
    + apply IH; [exact Ham|].
      inversion Hex as [? ? Hname|? ? Hrest]; subst; [|exact Hrest].
      unfold usable in Hname. rewrite Hopen in Hname. discriminate.
Qed.

End MockFacts.

(** * The mock adapter *)

Section MockClaims.
Import Cxx Android Mock.

(** The text [generateFallbackResponse] builds, line by line. *)
Lemma mock_generateFallbackResponse_text e input s :
  initialized_ s = true ->
  exists score,
    getPerformanceScore e s = (Return score, s)
    /\ generateFallbackResponse e input s =
       (Return ("TensorFlow Lite GPU Mock Response:" ++ LF
                ++ "Input: " ++ substr0 100 input
                ++ (if (100 <? String.length input)%nat then "..." else "") ++ LF
                ++ "Processing: GPU-accelerated inference simulation" ++ LF
                ++ "Backend: Adreno 750 GPU (simulated)" ++ LF
                ++ "Model: Mobile-optimized language model (mock)" ++ LF
                ++ "Performance: ~"
                ++ (if non_null (gpu_delegate_ s) then "200-500ms" else "500-1000ms")
                ++ " response time" ++ LF
                ++ "Status: Architecture ready for actual model integration" ++ LF
                ++ "GPU Available: Yes" ++ LF
                ++ "Performance Score: " ++ fixed 1 (score * 100) ++ "%"), s).
Proof.
  intros Hi.
  assert (Hscore : exists score, getPerformanceScore e s = (Return score, s)).
  { unfold getPerformanceScore. run. rewrite Hi. cbn. eauto. }
  destruct Hscore as [score Hscore]. exists score. split; [exact Hscore|].
  unfold generateFallbackResponse. unfold bind at 1. unfold get at 1.
  unfold bind at 1. rewrite mock_isGPUAvailable_true.
  unfold bind at 1. rewrite Hscore. unfold ret. f_equal. f_equal.
  destruct (100 <? String.length input)%nat;
    rewrite ?append_assoc, ?append_nil_r; reflexivity.
Qed.

(** C5. In fallback mode ([initialized_] set, [model_loaded_] clear)
    [processInference] returns, for every input and without throwing or
    changing the service, a non-empty text that starts with the label
    "TensorFlow Lite GPU Mock Response:" and names the first 100 bytes
    of the input, the simulated backend and the performance score. *)
Theorem C5_degraded_inference_is_labelled
        (e : Env) (input : string) (s : TFLiteGPUService) :
  initialized_ s = true ->
  model_loaded_ s = false ->
  exists out score,
    processInference e input s = (Return out, s)
    /\ getPerformanceScore e s = (Return score, s)
    /\ out <> ""
    /\ starts_with "TensorFlow Lite GPU Mock Response:" out
    /\ contains ("Input: " ++ substr0 100 input) out
    /\ contains "Backend: Adreno 750 GPU (simulated)" out
    /\ contains ("Performance Score: " ++ fixed 1 (score * 100) ++ "%") out.
Proof.
  intros Hi Hml.
  destruct (mock_generateFallbackResponse_text e input s Hi) as (score & Hscore & Htext).
  eexists. exists score. split.
  { unfold processInference. unfold bind at 1, get at 1. rewrite Hi. cbn [negb].
    unfold try_catch, bind at 1, get at 1. rewrite Hml. cbn [negb].
    rewrite Htext. reflexivity. }
  split; [exact Hscore|]. split; [discriminate|]. split.
  { eexists. reflexivity. }
  split.
  { exists ("TensorFlow Lite GPU Mock Response:" ++ LF). eexists.
    rewrite !append_assoc. reflexivity. }
  split.
  { exists ("TensorFlow Lite GPU Mock Response:" ++ LF
            ++ "Input: " ++ substr0 100 input
            ++ (if (100 <? String.length input)%nat then "..." else "") ++ LF
            ++ "Processing: GPU-accelerated inference simulation" ++ LF).
    eexists. rewrite !append_assoc. reflexivity. }
  { exists ("TensorFlow Lite GPU Mock Response:" ++ LF
            ++ "Input: " ++ substr0 100 input
            ++ (if (100 <? String.length input)%nat then "..." else "") ++ LF
            ++ "Processing: GPU-accelerated inference simulation" ++ LF
            ++ "Backend: Adreno 750 GPU (simulated)" ++ LF
            ++ "Model: Mobile-optimized language model (mock)" ++ LF
            ++ "Performance: ~"
            ++ (if non_null (gpu_delegate_ s) then "200-500ms" else "500-1000ms")
            ++ " response time" ++ LF
            ++ "Status: Architecture ready for actual model integration" ++ LF
            ++ "GPU Available: Yes" ++ LF).
    exists "". rewrite !append_assoc, append_nil_r. reflexivity. }
Qed.

(** C4, as amended. [isGPUAvailable] is a pure query: it returns
    without throwing and leaves the service as it was. It answers [true]
    in every state: when a delegate is attached, and (the mock build
    simulating an Adreno 750) also when none is. *)
Theorem C4_isGPUAvailable_pure_and_always_true (s : TFLiteGPUService) :
  isGPUAvailable s = (Return true, s).
Proof.
  unfold isGPUAvailable, bind, get, ret.
  destruct (non_null (gpu_delegate_ s)) eqn:Hdelegate.
  - (* a delegate is attached *) reflexivity.
  - (* none is: the simulated detection answers *) reflexivity.
Qed.

(** C4, counterexample. A freshly constructed service has no delegate
    attached, and [isGPUAvailable] answers [true] on it. *)
Lemma C4_counterexample :
  non_null (gpu_delegate_ Mock.new) = false
  /\ isGPUAvailable Mock.new = (Return true, Mock.new).
Proof. split; reflexivity. Qed.

Lemma mock_initializeWithAssets_exhausted e mgr s0 :
  Forall (fun name => usable mgr name = false) model_candidates ->
  exists s,
    initializeWithAssets e mgr s0 = (Return true, s)
    /\ initialized_ s = true /\ model_loaded_ s = false
    /\ gpu_delegate_ s = 0x99999999
    /\ (initialized_ s0 = false ->
        model_ s = model_ s0 /\ interpreter_ s = interpreter_ s0).
Proof.
  intros Hnone.
  destruct (mock_try_candidates_exhausted e mgr model_candidates
              (set_asset_manager_ (Some mgr) s0) eq_refl Hnone)
    as (s1 & Hrun & _ & Hkeep).
  unfold initializeWithAssets. unfold bind at 1, modify at 1.
  unfold bind at 1. rewrite Hrun.
  unfold initializeFallbackMode. run.
  eexists. split; [reflexivity|]. cbn.
  split; [reflexivity|]. split; [reflexivity|]. split; [reflexivity|].
  intros Hi. destruct (Hkeep Hi) as (_ & Hm & Hip & _). split; assumption.
Qed.

(** C10. When [initializeWithAssets] runs through its candidate list
    without a usable model it enters fallback mode and stores a non-null
    mock delegate, although no model was loaded and no interpreter built
    on the way. In that state [isGPUAvailable] answers [true], and for
    every draw of the variation within its range [getPerformanceScore]
    is the GPU base value 0.7 plus the draw, a value in [0.67, 0.73]. *)
Theorem C10_degraded_service_presents_as_gpu
        (e : Env) (mgr : AAssetManager) (s0 : TFLiteGPUService) :
  Forall (fun name => usable mgr name = false) model_candidates ->
  exists s,
    initializeWithAssets e mgr s0 = (Return true, s)
    /\ initialized_ s = true /\ model_loaded_ s = false
    /\ (initialized_ s0 = false ->
        model_ s = model_ s0 /\ interpreter_ s = interpreter_ s0)
    /\ gpu_delegate_ s = 0x99999999 /\ non_null (gpu_delegate_ s) = true
    /\ isGPUAvailable s = (Return true, s)
    /\ forall e', variation_in_range e' ->
        exists q, getPerformanceScore e' s = (Return q, s)
                  /\ (q == (7 # 10) + variation e')%Q
                  /\ ((67 # 100) <= q <= (73 # 100))%Q.
Proof.
  intros Hnone.
  destruct (mock_initializeWithAssets_exhausted e mgr s0 Hnone)
    as (s & Hrun & Hi & Hml & Hgd & Hkeep).
  exists s. split; [exact Hrun|]. split; [exact Hi|]. split; [exact Hml|].
  split; [exact Hkeep|]. split; [exact Hgd|].
  split; [rewrite Hgd; reflexivity|].
  split; [apply mock_isGPUAvailable_true|].
  intros e' [Hlo Hhi].
  exists (clamp01 ((7 # 10) + variation e')). split.
  { unfold getPerformanceScore. run. rewrite Hi, Hgd. reflexivity. }
  assert (Hid : (clamp01 ((7 # 10) + variation e') == (7 # 10) + variation e')%Q).
  { apply clamp01_id. split; lra. }
  split; [exact Hid|]. rewrite Hid. split; lra.
Qed.

(** C10, witness: the empty asset store. *)
Lemma C10_witness :
  Forall (fun name => usable Fixtures.empty_assets name = false) model_candidates
  /\ exists s,
    initializeWithAssets Fixtures.mock_env Fixtures.empty_assets Mock.new = (Return true, s)
    /\ initialized_ s = true /\ model_loaded_ s = false
    /\ (initialized_ Mock.new = false ->
        model_ s = model_ Mock.new /\ interpreter_ s = interpreter_ Mock.new)
    /\ gpu_delegate_ s = 0x99999999 /\ non_null (gpu_delegate_ s) = true
    /\ isGPUAvailable s = (Return true, s)
    /\ forall e', variation_in_range e' ->
        exists q, getPerformanceScore e' s = (Return q, s)
                  /\ (q == (7 # 10) + variation e')%Q
                  /\ ((67 # 100) <= q <= (73 # 100))%Q.
Proof.
  assert (H : Forall (fun name => usable Fixtures.empty_assets name = false)
                     model_candidates).
  { repeat constructor. }
  split; [exact H|].
  exact (C10_degraded_service_presents_as_gpu
           Fixtures.mock_env Fixtures.empty_assets Mock.new H).
Defined.

(** C5, witness: the degraded service of the fixtures, on text that is
    not ASCII. *)
Lemma C5_witness :
  initialized_ Fixtures.degraded_mock = true
  /\ model_loaded_ Fixtures.degraded_mock = false
  /\ exists out score,
    processInference Fixtures.mock_env Fixtures.non_ascii_text Fixtures.degraded_mock
      = (Return out, Fixtures.degraded_mock)
    /\ getPerformanceScore Fixtures.mock_env Fixtures.degraded_mock
       = (Return score, Fixtures.degraded_mock)
    /\ out <> ""
    /\ starts_with "TensorFlow Lite GPU Mock Response:" out
    /\ contains ("Input: " ++ substr0 100 Fixtures.non_ascii_text) out
    /\ contains "Backend: Adreno 750 GPU (simulated)" out
    /\ contains ("Performance Score: " ++ fixed 1 (score * 100) ++ "%") out.
Proof.
  split; [reflexivity|]. split; [reflexivity|].
  exact (C5_degraded_inference_is_labelled
           Fixtures.mock_env Fixtures.non_ascii_text Fixtures.degraded_mock
           eq_refl eq_refl).
Defined.

End MockClaims.

(** * The production adapter *)

Section ProdFacts.
Import Cxx Android Prod.

Lemma prod_generateFallbackResponse_run input s :
  exists out, generateFallbackResponse input s = (Return out, s).
Proof. unfold generateFallbackResponse, ret. eauto. Qed.

Lemma prod_load_from_missing e mgr files : forall s,
  Forall (fun name => mgr !! name = None) files ->
  load_from e mgr files s = (Return false, s).
Proof.
  induction files as [|name rest IH]; intros s Hall; [reflexivity|].
  inversion Hall as [|? ? Hname Hrest]; subst.
  cbn [load_from]. unfold AAssetManager_open. rewrite Hname. apply IH, Hrest.
Qed.

Lemma prod_loadModelFromFile_run e s :
  loadModelFromFile e s =
    match BuildFromFile e (model_path_ s) with
    | Some m => (Return true, set_model_loaded_ true (set_model_ (Some m) s))
    | None => (Return false, set_model_ None s)
    end.
Proof.
  unfold loadModelFromFile. run. cbn.
  destruct (BuildFromFile e (model_path_ s)); reflexivity.
Qed.

Lemma prod_initializeGPUDelegate_run e s :
  initializeGPUDelegate e s =
    (Return (non_null (TfLiteGpuDelegateV2Create e)),
     set_gpu_delegate_ (TfLiteGpuDelegateV2Create e) s).
Proof.
  unfold initializeGPUDelegate. run. cbn.
  destruct (non_null (TfLiteGpuDelegateV2Create e)); reflexivity.
Qed.

Lemma prod_buildInterpreter_no_model e s :
  model_ s = None -> buildInterpreter e s = (Return false, s).
Proof. intros H. unfold buildInterpreter. run. rewrite H. reflexivity. Qed.

(** [buildInterpreter] as [initialize] calls it, with the delegate that
    [initializeGPUDelegate] has just stored. *)
Lemma prod_buildInterpreter_outcome e s m :
  model_ s = Some m ->
  gpu_delegate_ s = TfLiteGpuDelegateV2Create e ->
  match Facts.built e m with
  | None =>
      exists i, buildInterpreter e s = (Return false, set_interpreter_ i s)
  | Some interp =>
      buildInterpreter e s
      = (if Facts.inputs_present interp then Return true else Throw (Fatal "SIGSEGV"),
         set_interpreter_ (Some interp) s)
  end.
Proof.
  intros Hm Hd. unfold Facts.built, Facts.prepared, Facts.inputs_present.
  unfold buildInterpreter, log_input_tensors. run. rewrite Hm, Hd.
  destruct s as [i ml mp ip mo gd am mb]. cbn in *.
  destruct (InterpreterBuilder e m) as [[|] [interp|]]; cbn; eauto.
  match goal with |- context [AllocateTensors e ?x] =>
    destruct (AllocateTensors e x) as [[|] allocated] end; cbn; eauto.
  destruct (forallb _ (inputs allocated)); reflexivity.
Qed.

Lemma prod_setInputTensor_run tokens s :
  exists b i, setInputTensor tokens s = (Return b, set_interpreter_ i s)
              /\ (interpreter_ s <> None -> i <> None).
Proof.
  unfold setInputTensor. run. destruct s as [i ml mp ip mo gd am mb]. cbn.
  destruct ip as [interp|]; [|exists false, None; split; [reflexivity | tauto]].
  destruct (inputs interp) as [|[t|] rest];
    try (exists false, (Some interp); split; [reflexivity | discriminate]).
  destruct (is_int32 (type t));
    [eexists true, (Some _); split; [reflexivity | discriminate]|].
  destruct (is_float32 (type t));
    [eexists true, (Some _); split; [reflexivity | discriminate]|].
  exists false, (Some interp). split; [reflexivity | discriminate].
Qed.

Lemma prod_invoke_run e s :
  exists status i, invoke e s = (Return status, set_interpreter_ i s).
Proof.
  unfold invoke. run. destruct s as [i ml mp ip mo gd am mb]. cbn.
  destruct ip as [interp|]; [|exists kTfLiteError, None; reflexivity].
  destruct (Invoke e interp) as [status interp']. cbn. eauto.
Qed.

Lemma prod_warmUpModel_frame e s :
  exists i, warmUpModel e s = (Return tt, set_interpreter_ i s).
Proof.
  unfold warmUpModel. unfold bind at 1, get at 1.
  destruct (interpreter_ s) as [interp|] eqn:Hip.
  - unfold try_catch, bind.
    destruct (prod_setInputTensor_run (tokenizeInput e "warm up") s) as (b & i & -> & _).
    destruct (prod_invoke_run e (set_interpreter_ i s)) as (st & i' & ->).
    unfold ret. exists i'. destruct s; reflexivity.
  - exists None. unfold ret. destruct s; cbn in *; subst; reflexivity.
Qed.

(** What [initialize] does on a service that is not yet initialized. *)
Lemma prod_initialize_outcome e path s :
  initialized_ s = false ->
  let outcome :=
    match BuildFromFile e path with
    | None => Return false
    | Some m =>
        match Facts.built e m with
        | None => Return false
        | Some interp =>
            if Facts.inputs_present interp then Return true
            else Throw (Fatal "SIGSEGV")
        end
    end in
  exists s',
    initialize e path s = (outcome, s')
    /\ initialized_ s' = match outcome with Return b => b | Throw _ => false end
    /\ (BuildFromFile e path <> None ->
        gpu_delegate_ s' = TfLiteGpuDelegateV2Create e).
Proof.
  intros Hi. cbv zeta.
  unfold initialize. unfold bind at 1, get at 1. rewrite Hi.
  unfold bind at 1, modify at 1. unfold try_catch, bind at 1.
  rewrite prod_loadModelFromFile_run. cbn [model_path_ set_model_path_].
  destruct (BuildFromFile e path) as [m|]; cbn [negb].
  - unfold bind at 1. rewrite prod_initializeGPUDelegate_run. unfold bind at 1.
    match goal with |- context [buildInterpreter e ?x] =>
      pose proof (prod_buildInterpreter_outcome e x m eq_refl eq_refl) as Hb end.
    destruct (Facts.built e m) as [interp|].
    + rewrite Hb. destruct (Facts.inputs_present interp); cbv beta iota; cbn [negb].
      * unfold bind at 1.
        match goal with |- context [warmUpModel e ?x] =>
          destruct (prod_warmUpModel_frame e x) as (i2 & Hw) end.
        rewrite Hw. run. eexists. repeat split.
      * eexists. split; [reflexivity|]. cbn. split; [exact Hi | reflexivity].
    + destruct Hb as (i & ->). cbn [negb]. unfold ret.
      eexists. split; [reflexivity|]. cbn. split; [exact Hi | reflexivity].
  - unfold ret. eexists. split; [reflexivity|]. cbn. split; [exact Hi | congruence].
Qed.

End ProdFacts.

Section InitializeClaims.
Import Cxx Android.





End InitializeClaims.

(** * Output decoding *)

Section ArgMax.
Import Cxx Prod.
Local Open Scope nat_scope.

Lemma Qgtb_true (x y : Q) : Qgtb x y = true <-> (y < x)%Q.
Proof.
  unfold Qgtb. rewrite negb_true_iff. split.
  - intros H. apply Qnot_le_lt. intros Hle. apply Qle_bool_iff in Hle. congruence.
  - intros H. destruct (Qle_bool x y) eqn:E; [|reflexivity].
    apply Qle_bool_iff in E. exfalso. exact (Qlt_not_le _ _ H E).
Qed.

Lemma Qgtb_false (x y : Q) : Qgtb x y = false <-> (x <= y)%Q.
Proof.
  unfold Qgtb. rewrite negb_false_iff. apply Qle_bool_iff.
Qed.

Lemma argmax_loop_scanned (v : list Q) : forall fuel i best best_score,
  best < i ->
  scanned v i best best_score ->
  best < i + fuel
  /\ (fst (argmax_loop v i fuel best best_score) < i + fuel)
  /\ scanned v (i + fuel) (fst (argmax_loop v i fuel best best_score))
                         (snd (argmax_loop v i fuel best best_score)).
Proof.
  induction fuel as [|fuel IH]; intros i best bs Hlt (Hbs & Hall & Hfirst).
  - cbn. rewrite Nat.add_0_r. repeat split; auto.
  - cbn [argmax_loop]. replace (i + S fuel) with (S i + fuel) by lia.
    destruct (Qgtb (nth i v 0%Q) bs) eqn:Hcmp.
    + apply Qgtb_true in Hcmp.
      destruct (IH (S i) i (nth i v 0%Q)) as (H1 & H2 & H3); [lia| |].
      * repeat split.
        -- intros j Hj. destruct (Nat.eq_dec j i) as [->|Hne]; [apply Qle_refl|].
           apply Qle_trans with bs; [apply Hall; lia | apply Qlt_le_weak, Hcmp].
        -- intros j Hj. apply Qle_lt_trans with bs; [apply Hall, Hj | exact Hcmp].
      * split; [lia|]. split; assumption.
    + apply Qgtb_false in Hcmp.
      destruct (IH (S i) best bs) as (H1 & H2 & H3); [lia| |].
      * repeat split; auto.
        intros j Hj. destruct (Nat.eq_dec j i) as [->|Hne]; [exact Hcmp|].
        apply Hall. lia.
      * split; [lia|]. split; assumption.
Qed.

Lemma argmax_scanned (v : list Q) (n : nat) :
  (n = 0 \/ fst (argmax v n) < n)
  /\ scanned v n (fst (argmax v n)) (snd (argmax v n)).
Proof.
  unfold argmax. destruct n as [|n].
  - cbn. split; [left; reflexivity|]. repeat split; intros j Hj; lia.
  - replace (S n - 1) with n by lia.
    destruct (argmax_loop_scanned v n 1 0 (nth 0 v 0%Q)) as (_ & H2 & H3); [lia| |].
    + repeat split; intros j Hj; [|lia].
      replace j with 0 by lia. apply Qle_refl.
    + split; [right; exact H2 | exact H3].
Qed.

End ArgMax.

Section DecodeClaims.
Import Cxx Prod.

(** C8. The scan behind [decodeOutput] picks the first maximum: the
    score it reports is the one at the index it reports, no element of
    the scanned range is greater, and every element before the index is
    strictly smaller. For the scores 0.1, 0.9, 0.9, 0.2 it picks index 1,
    as logits of shape [1, 1, 4] (rank-3 case, last position) and as
    a flat float vector. *)
Theorem C8_argmax_first_maximum_wins :
  (forall (v : list Q) (n : nat),
      (n = 0%nat \/ (fst (argmax v n) < n)%nat)
      /\ snd (argmax v n) = nth (fst (argmax v n)) v 0%Q
      /\ (forall j, (j < n)%nat -> (nth j v 0 <= snd (argmax v n))%Q)
      /\ (forall j, (j < fst (argmax v n))%nat -> (nth j v 0 < snd (argmax v n))%Q))
  /\ (forall s interp out rest b t v,
        interpreter_ s = Some interp ->
        outputs interp = Some out :: rest ->
        type out = kTfLiteFloat32 ->
        dims out = Some [b; t; v] ->
        1 <= b -> 1 <= t -> 0 < v ->
        let logits := skipn (Z.to_nat ((t - 1) * v)) (data_f out) in
        decodeOutput s =
          (Return ("TensorFlow Lite response (next token "
                     ++ to_string (Z.of_nat (fst (argmax logits (Z.to_nat v))))
                     ++ ", score: " ++ fixed 3 (snd (argmax logits (Z.to_nat v))) ++ ")"),
           s))
  /\ (forall s interp out rest,
        interpreter_ s = Some interp ->
        outputs interp = Some out :: rest ->
        type out = kTfLiteFloat32 ->
        (forall b t v, dims out = Some [b; t; v] -> ~ (1 <= b /\ 1 <= t /\ 0 < v)) ->
        let n := Z.to_nat (bytes out / 4) in
        decodeOutput s =
          (Return ("TensorFlow Lite response (token "
                     ++ to_string (Z.of_nat (fst (argmax (data_f out) n)))
                     ++ ", score: " ++ fixed 3 (snd (argmax (data_f out) n)) ++ ")"),
           s))
  /\ argmax Fixtures.tie_scores 4 = (1%nat, (9 # 10)%Q)
  /\ decodeOutput (Fixtures.service_with Fixtures.rank3_output)
     = (Return "TensorFlow Lite response (next token 1, score: 0.900)",
        Fixtures.service_with Fixtures.rank3_output)
  /\ decodeOutput (Fixtures.service_with Fixtures.flat_output)
     = (Return "TensorFlow Lite response (token 1, score: 0.900)",
        Fixtures.service_with Fixtures.flat_output).
Proof.
  split.
  { intros v n. destruct (argmax_scanned v n) as (Hn & Hs & Hall & Hfirst).
    repeat split; assumption. }
  split.
  { intros s interp out rest b t v Hip Hout Hty Hdims Hb Ht Hv logits.
    unfold decodeOutput. run. rewrite Hip, Hout, Hty, Hdims. cbn [is_float32].
    assert (Hc : (1 <=? b) && (1 <=? t) && (0 <? v) = true).
    { rewrite !andb_true_iff. repeat split; lia. }
    rewrite Hc. fold logits.
    destruct (argmax logits (Z.to_nat v)) as [best score]. reflexivity. }
  split.
  { intros s interp out rest Hip Hout Hty Hdims n.
    unfold decodeOutput. run. rewrite Hip, Hout, Hty. cbn [is_float32]. fold n.
    destruct (argmax (data_f out) n) as [best score] eqn:Ha. cbn [fst snd].
    destruct (dims out) as [[|b [|t [|v [|? ?]]]]|]; try reflexivity.
    destruct ((1 <=? b) && (1 <=? t) && (0 <? v)) eqn:Hc; [|reflexivity].
    exfalso. apply (Hdims b t v eq_refl).
    rewrite !andb_true_iff in Hc. lia. }
  split; [vm_compute; reflexivity|].
  split; vm_compute; reflexivity.
Qed.

(** C8, witness: the two fixtures, through the general statements. *)
Lemma C8_witness :
  decodeOutput (Fixtures.service_with Fixtures.rank3_output)
  = (Return ("TensorFlow Lite response (next token "
               ++ to_string (Z.of_nat (fst (argmax Fixtures.tie_scores 4)))
               ++ ", score: " ++ fixed 3 (snd (argmax Fixtures.tie_scores 4)) ++ ")"),
     Fixtures.service_with Fixtures.rank3_output).
Proof.
  apply (proj1 (proj2 C8_argmax_first_maximum_wins)
               (Fixtures.service_with Fixtures.rank3_output)
               (Fixtures.interpreter_with Fixtures.rank3_output)
               Fixtures.rank3_output [] 1 1 4);
    first [reflexivity | lia].
Defined.

End DecodeClaims.

Section AssetClaims.
Import Cxx Android.

Lemma prod_initializeWithAssets_missing e mgr s0 :
  Prod.initialized_ s0 = false ->
  Forall (fun name => mgr !! name = None) Prod.model_files ->
  Prod.initializeWithAssets e (Some mgr) s0
  = (Return false, Prod.set_asset_manager_ (Some mgr) s0).
Proof.
  intros Hi Hnone. unfold Prod.initializeWithAssets.
  unfold bind at 1, get at 1. rewrite Hi.
  unfold bind at 1, modify at 1. unfold try_catch, bind at 1.
  unfold Prod.loadModelFromAssets. unfold bind at 1, get at 1.
  cbn [Prod.asset_manager_ Prod.set_asset_manager_].
  rewrite (prod_load_from_missing e mgr Prod.model_files _ Hnone). reflexivity.
Qed.

(** C3, as amended. The mock adapter never reports failure from
    [initializeWithAssets]: it returns [true] with the service
    initialized; when no candidate asset exists and loads, the service
    is left in fallback mode ([initialized_] set, [model_loaded_]
    clear), and when some candidate does, the model is loaded. The
    production adapter has no fallback mode: on a service that is not
    initialized it returns [false], and stays uninitialized, when the
    asset manager is null or none of its candidate files exists. *)
Theorem C3_mock_falls_back_production_fails :
  (forall e mgr s0,
      Forall (fun name => Mock.usable mgr name = false) Mock.model_candidates ->
      exists s,
        Mock.initializeWithAssets e mgr s0 = (Return true, s)
        /\ Mock.initialized_ s = true /\ Mock.model_loaded_ s = false)
  /\ (forall e mgr s0,
        Exists (fun name => Mock.usable mgr name = true) Mock.model_candidates ->
        exists s,
          Mock.initializeWithAssets e mgr s0 = (Return true, s)
          /\ Mock.initialized_ s = true /\ Mock.model_loaded_ s = true)
  /\ (forall e mgr s0,
        Prod.initialized_ s0 = false ->
        Forall (fun name => mgr !! name = None) Prod.model_files ->
        exists s,
          Prod.initializeWithAssets e (Some mgr) s0 = (Return false, s)
          /\ Prod.initialized_ s = false /\ Prod.model_loaded_ s = Prod.model_loaded_ s0)
  /\ (forall e s0,
        Prod.initialized_ s0 = false ->
        Prod.initializeWithAssets e None s0 = (Return false, s0)).
Proof.
  split; [|split; [|split]].
  - intros e mgr s0 Hnone.
    destruct (mock_initializeWithAssets_exhausted e mgr s0 Hnone)
      as (s & Hrun & Hi & Hml & _).
    exists s. auto.
  - intros e mgr s0 Hsome.
    destruct (mock_try_candidates_usable e mgr Mock.model_candidates
                (Mock.set_asset_manager_ (Some mgr) s0) eq_refl Hsome)
      as (s & Hrun & Hi & Hml).
    exists s. split; [|auto].
    unfold Mock.initializeWithAssets. unfold bind at 1, modify at 1.
    unfold bind at 1. rewrite Hrun. reflexivity.
  - intros e mgr s0 Hi Hnone. eexists. split.
    + apply prod_initializeWithAssets_missing; assumption.
    + split; [exact Hi | reflexivity].
  - intros e s0 Hi. unfold Prod.initializeWithAssets. run. rewrite Hi. reflexivity.
Qed.

(** C3, witness: a store whose only candidate is cut short on reading
    (mock), and a store without any model (production). *)
Lemma C3_witness :
  (exists s,
      Mock.initializeWithAssets Fixtures.mock_env Fixtures.truncated_assets Mock.new
      = (Return true, s)
      /\ Mock.initialized_ s = true /\ Mock.model_loaded_ s = false)
  /\ (exists s,
        Prod.initializeWithAssets Fixtures.no_model_env (Some Fixtures.empty_assets) Prod.new
        = (Return false, s)
        /\ Prod.initialized_ s = false
        /\ Prod.model_loaded_ s = Prod.model_loaded_ Prod.new).
Proof.
  split.
  - apply (proj1 C3_mock_falls_back_production_fails).
    repeat constructor.
  - apply (proj1 (proj2 (proj2 C3_mock_falls_back_production_fails)));
      [reflexivity | repeat constructor].
Defined.

(** C3, counterexample. With no model among the assets the production
    [initializeWithAssets] returns [false], and the service is not left
    initialized. *)
Lemma C3_counterexample :
  exists s,
    Prod.initializeWithAssets Fixtures.no_model_env (Some Fixtures.empty_assets) Prod.new
    = (Return false, s)
    /\ Prod.initialized_ s = false.
Proof. eexists. split; reflexivity. Qed.

End AssetClaims.

(** * The adapters keep their side of the contract *)

#[export] Instance mock_no_throw : GpuNoThrow Mock.TFLiteGPUService.
Proof.
  constructor.
  - intros e path g. change (no_throw (Mock.initialize e path g)).
    destruct (mock_initialize_run e path g) as (b & s' & H & _).
    exists b. unfold result_of. rewrite H. reflexivity.
  - intros e mgr g. change (no_throw (Mock.initializeWithAssets e mgr g)).
    unfold Mock.initializeWithAssets.
    unfold bind at 1, modify at 1. cbv beta iota.
    destruct (mock_try_candidates_run e mgr Mock.model_candidates
                (Mock.set_asset_manager_ (Some mgr) g)) as (r & s2 & H & _).
    unfold bind. rewrite H. destruct r; eexists; reflexivity.
  - intros e input g. change (no_throw (Mock.processInference e input g)).
    unfold Mock.processInference.
    unfold bind at 1, get at 1. destruct (negb (Mock.initialized_ g)).
    + apply no_throw_ret.
    + apply no_throw_try_catch; [|intros w s'; apply no_throw_ret].
      apply no_throw_no_signal.
      unfold Mock.generateFallbackResponse, Mock.setInputTensor, Mock.decodeOutput,
        Mock.isGPUAvailable, Mock.getPerformanceScore.
      run.
      destruct (negb (Mock.model_loaded_ g)).
      * destruct (Cxx.non_null (Mock.gpu_delegate_ g)), (negb (Mock.initialized_ g));
          eexists; reflexivity.
      * destruct (Cxx.non_null (Mock.interpreter_ g)) eqn:Hip; cbv beta iota;
          cbn [negb]; cbv beta iota; rewrite ?Hip; eexists; reflexivity.
  - intros g. change (no_throw (Mock.isGPUAvailable g)).
    exists true. unfold result_of. rewrite mock_isGPUAvailable_true. reflexivity.
  - intros e g. change (no_throw (Mock.getPerformanceScore e g)).
    unfold Mock.getPerformanceScore. run.
    destruct (negb (Mock.initialized_ g)); eexists; reflexivity.
  - intros g. change (no_throw (Mock.cleanup g)).
    destruct (mock_cleanup_run g) as (s' & H & _).
    exists tt. unfold result_of. rewrite H. reflexivity.
Qed.

Lemma prod_decodeOutput_run s :
  exists out, Prod.decodeOutput s = (Return out, s).
Proof.
  unfold Prod.decodeOutput. run.
  destruct (Prod.interpreter_ s) as [interp|]; [|eauto].
  destruct (Prod.outputs interp) as [|[t|] rest]; eauto.
  destruct (Prod.is_float32 (Prod.type t)).
  - destruct (Prod.argmax (Prod.data_f t) _) as [b sc].
    destruct (Prod.dims t) as [[|d0 [|d1 [|d2 [|? ?]]]]|]; eauto.
    destruct ((1 <=? d0) && (1 <=? d1) && (0 <? d2)); eauto.
    destruct (Prod.argmax _ _). eauto.
  - destruct (Prod.is_int32 (Prod.type t)); eauto.
Qed.

Lemma prod_processInference_no_throw e input g :
  no_throw (Prod.processInference e input g).
Proof.
  unfold Prod.processInference. unfold bind at 1, get at 1.
  destruct (negb (Prod.initialized_ g) || Cxx.is_null (Prod.interpreter_ g)).
  - apply no_throw_ret.
  - apply no_throw_try_catch; [|intros w s'; eexists; reflexivity].
    apply no_throw_no_signal. unfold bind.
    destruct (prod_setInputTensor_run (Prod.tokenizeInput e input) g) as (b & i & -> & _).
    destruct b; cbn [negb]; [|eexists; reflexivity].
    destruct (prod_invoke_run e (Prod.set_interpreter_ i g)) as (st & i' & ->).
    destruct (Prod.is_ok st); cbn [negb]; [|eexists; reflexivity].
    destruct (prod_decodeOutput_run (Prod.set_interpreter_ i' (Prod.set_interpreter_ i g)))
      as (out & ->).
    eexists; reflexivity.
Qed.

Lemma prod_load_from_returns e mgr files : forall s,
  no_throw (Prod.load_from e mgr files s).
Proof.
  induction files as [|file rest IH]; intros s; [apply no_throw_ret|].
  cbn [Prod.load_from].
  destruct (Android.AAssetManager_open mgr file) as [a|]; [|apply IH].
  destruct (Android.AAsset_getLength a <=? 0); [apply IH|].
  run. destruct (Android.AAsset_read a (Android.AAsset_getLength a)) as [n got].
  cbn. destruct (negb (n =? Android.AAsset_getLength a)); [apply IH|].
  cbn. destruct (Prod.BuildFromBuffer e _); [eexists; reflexivity | apply IH].
Qed.

(** Over a runtime that hands out its input tensors, what [initialize]
    and [initializeWithAssets] do after loading ends in no signal. *)
Lemma prod_build_no_signal e s :
  Facts.hands_out_inputs e ->
  no_signal ((do_ Prod.initializeGPUDelegate e;
              do built <- Prod.buildInterpreter e;
              if negb built then ret false
              else
                do_ Prod.warmUpModel e;
                do_ modify (Prod.set_initialized_ true);
                ret true) s).
Proof.
  intros Hchecked. apply no_throw_no_signal.
  unfold bind at 1. rewrite prod_initializeGPUDelegate_run. unfold bind at 1.
  match goal with |- context [Prod.buildInterpreter e ?x] => set (s1 := x) end.
  destruct (Prod.model_ s1) as [m|] eqn:Hm.
  - pose proof (prod_buildInterpreter_outcome e s1 m Hm eq_refl) as Hb.
    destruct (Facts.built e m) as [interp|] eqn:Hbuilt.
    + rewrite Hb, (Hchecked m interp Hbuilt). cbn [negb]. unfold bind at 1.
      match goal with |- context [Prod.warmUpModel e ?x] =>
        destruct (prod_warmUpModel_frame e x) as (i2 & ->) end.
      eexists; reflexivity.
    + destruct Hb as (i & ->). eexists; reflexivity.
  - rewrite (prod_buildInterpreter_no_model e s1 Hm). eexists; reflexivity.
Qed.

#[export] Instance prod_runtime_no_throw :
  GpuNoThrow (H := prod_runtime_adapter) Prod.TFLiteGPUService.
Proof.
  constructor.
  - intros e path g. change (no_throw (Prod.initialize e path g)).
    unfold Prod.initialize. unfold bind at 1, get at 1.
    destruct (Prod.initialized_ g); [apply no_throw_ret|].
    apply no_throw_bind; [eexists; reflexivity|]. intros _ s1.
    apply no_throw_try_catch; [|intros w s'; apply no_throw_ret].
    apply no_signal_bind.
    + apply no_throw_no_signal. rewrite prod_loadModelFromFile_run.
      destruct (Prod.BuildFromFile e (Prod.model_path_ s1)); eexists; reflexivity.
    + intros [|] s2; cbn [negb]; [|apply no_signal_ret].
      apply prod_build_no_signal, runtime_hands_out_inputs.
  - intros e mgr g. change (no_throw (Prod.initializeWithAssets e (Some mgr) g)).
    unfold Prod.initializeWithAssets. unfold bind at 1, get at 1.
    destruct (Prod.initialized_ g); [apply no_throw_ret|].
    apply no_throw_bind; [eexists; reflexivity|]. intros _ s1.
    apply no_throw_try_catch; [|intros w s'; apply no_throw_ret].
    apply no_signal_bind.
    + apply no_throw_no_signal. unfold Prod.loadModelFromAssets. unfold bind, get.
      destruct (Prod.asset_manager_ s1); [apply prod_load_from_returns | apply no_throw_ret].
    + intros [|] s2; cbn [negb]; [|apply no_signal_ret].
      apply prod_build_no_signal, runtime_hands_out_inputs.
  - intros e input g. apply prod_processInference_no_throw.
  - intros g. eexists. reflexivity.
  - intros e g. change (no_throw (Prod.getPerformanceScore e g)).
    unfold Prod.getPerformanceScore. unfold bind at 1, get at 1.
    destruct (negb (Prod.initialized_ g)); [apply no_throw_ret|].
    apply no_throw_bind; [apply prod_processInference_no_throw|].
    intros a s'. eexists. reflexivity.
  - intros g. change (no_throw (Prod.cleanup g)). unfold Prod.cleanup. run.
    destruct (Prod.initialized_ g); [|eexists; reflexivity].
    destruct (Cxx.non_null (Prod.gpu_delegate_ g)); eexists; reflexivity.
Qed.

#[export] Instance onnx_no_throw : FallbackNoThrow Onnx.ONNXMobileService.
Proof.
  constructor.
  - intros e path f. eexists. reflexivity.
  - intros e input f. change (no_throw (Onnx.processInference input f)).
    unfold Onnx.processInference. run.
    destruct (negb (Onnx.initialized_ f)); eexists; reflexivity.
  - intros e f. eexists. reflexivity.
  - intros e f. eexists. reflexivity.
  - intros f. change (no_throw (Onnx.cleanup f)). unfold Onnx.cleanup. run.
    destruct (Onnx.initialized_ f); eexists; reflexivity.
Qed.

(** * The backend selector *)

Section BridgeClaims.
Import Cxx Android Bridge.
Context {G : Type} {GA : GpuAdapter G} {F : Type} {FA : FallbackAdapter F}.
Variable build : Build.

Lemma emitted_app (st st' : @State G F) (lines : list LogLine) :
  logcat st' = (logcat st ++ lines)%list -> emitted st st' = lines.
Proof.
  intros H. unfold emitted. rewrite H.
  rewrite skipn_app, skipn_all, Nat.sub_diag. reflexivity.
Qed.

(** Unfold an entry point down to the adapter calls. *)
Ltac bridge_unfold :=
  unfold initializeNative, initializeWithAssetsNative, processInferenceNative,
    getBackendInfoNative, cleanupNative, via_tflite, via_onnx, log,
    bind, ret, get, gets, modify, throw;
  cbn [tflite_service onnx_service is_initialized active_backend logcat
       set_tflite_service set_onnx_service set_is_initialized set_active_backend
       negb has_service is_null].

(** [initializeNative] when the GPU adapter initializes. *)
Lemma initializeNative_gpu_ok st e_init e_score f_init f_nnapi path g1 perf g2 :
  TFLITE_GPU_AVAILABLE build = true ->
  gpu_initialize e_init path gpu_new = (Return true, g1) ->
  gpu_getPerformanceScore e_score g1 = (Return perf, g2) ->
  initializeNative build e_init e_score f_init f_nnapi path st
  = (Return true,
     mkState (Some g2) (onnx_service st) true "tflite_gpu"
             (logcat st ++ [LogI_Initializing path;
                            LogI_AttemptTFLite (REAL_TFLITE_AVAILABLE build);
                            LogI_TFLiteOk perf;
                            LogI_Ready "tflite_gpu"])).
Proof.
  intros Hflag Hinit Hperf. bridge_unfold. rewrite Hflag. cbn.
  rewrite Hinit. cbn. rewrite Hperf. cbn.
  destruct (ONNX_MOBILE_AVAILABLE build); cbn;
    rewrite <- !app_assoc; reflexivity.
Qed.

Ltac log_contradiction H :=
  unfold emitted in H; cbn in H; rewrite <- ?app_assoc in H;
  rewrite skipn_app, skipn_all, Nat.sub_diag in H; cbn in H;
  intuition discriminate.

(** C1. With both adapters compiled in, whenever the GPU adapter's
    [initialize] returns [true] for the given path, [initializeNative]
    returns [true] with the TFLite GPU backend active, leaves the ONNX
    service as it was and makes no attempt on it, whatever the fallback
    adapter would have done. Conversely, in every run that attempts the
    ONNX adapter the GPU adapter's [initialize] has returned [false]. *)
Theorem C1_gpu_adapter_has_priority
        `{!GpuNoThrow G}
        (st : @State G F) (e_init e_score : gpu_env) (f_init f_nnapi : fb_env)
        (path : string) :
  TFLITE_GPU_AVAILABLE build = true ->
  ONNX_MOBILE_AVAILABLE build = true ->
  (forall g1,
      gpu_initialize e_init path gpu_new = (Return true, g1) ->
      exists st',
        initializeNative build e_init e_score f_init f_nnapi path st = (Return true, st')
        /\ active_backend st' = "tflite_gpu"
        /\ is_initialized st' = true
        /\ tflite_service st' = Some (state_of (gpu_getPerformanceScore e_score g1))
        /\ onnx_service st' = onnx_service st
        /\ ~ In LogI_AttemptONNX (emitted st st'))
  /\ (forall r st',
        initializeNative build e_init e_score f_init f_nnapi path st = (r, st') ->
        In LogI_AttemptONNX (emitted st st') ->
        result_of (gpu_initialize e_init path gpu_new) = Return false).
Proof.
  intros Hgpu Honnx. split.
  - intros g1 Hinit.
    destruct (no_throw_run _ _ (gpu_getPerformanceScore_no_throw e_score g1))
      as (perf & g2 & Hperf).
    eexists. split.
    { apply (initializeNative_gpu_ok st e_init e_score f_init f_nnapi path g1 perf g2);
        assumption. }
    cbn. rewrite Hperf. repeat split.
    intros Hin. log_contradiction Hin.
  - intros r st' Hrun Hin.
    destruct (gpu_initialize e_init path gpu_new) as [[[|]|w] g1] eqn:Hinit;
      [exfalso | reflexivity | exfalso].
    + destruct (gpu_getPerformanceScore e_score g1) as [[perf|w] g2] eqn:Hperf.
      * rewrite (initializeNative_gpu_ok st e_init e_score f_init f_nnapi path g1 perf g2
                   Hgpu Hinit Hperf) in Hrun.
        injection Hrun as <- <-. log_contradiction Hin.
      * revert Hrun. bridge_unfold. rewrite Hgpu. cbn. rewrite Hinit. cbn.
        rewrite Hperf. cbn. intros Hrun. injection Hrun as <- <-.
        log_contradiction Hin.
    + revert Hrun. bridge_unfold. rewrite Hgpu. cbn. rewrite Hinit. cbn.
      intros Hrun. injection Hrun as <- <-. log_contradiction Hin.
Qed.

Lemma processInferenceNative_uninitialized (st : @State G F) e f input :
  is_initialized st = false ->
  processInferenceNative build e f input st
  = (Return "Error: Service not initialized",
     mkState (tflite_service st) (onnx_service st) (is_initialized st)
             (active_backend st) (logcat st ++ [LogE_NotInitialized])).
Proof. intros Hi. bridge_unfold. rewrite Hi. cbn. rewrite ?Hi. reflexivity. Qed.

Lemma processInference_seq_uninitialized calls : forall st : @State G F,
  is_initialized st = false ->
  Forall (fun r => r = Return "Error: Service not initialized")
         (fst (processInference_seq build calls st))
  /\ statics (snd (processInference_seq build calls st)) = statics st.
Proof.
  induction calls as [|[[e f] input] rest IH]; intros st Hi.
  - cbn. split; [constructor | reflexivity].
  - cbn [processInference_seq].
    rewrite (processInferenceNative_uninitialized st e f input Hi).
    match goal with |- context [processInference_seq build rest ?x] =>
      destruct (IH x Hi) as [Hall Hst];
      destruct (processInference_seq build rest x) as [rs st''] end.
    cbn in *. split; [constructor; [reflexivity | exact Hall] | exact Hst].
Qed.

(** C2. With both adapters compiled in and the GPU adapter's
    [initialize] returning [false], [initializeNative] returns [true],
    with the ONNX backend active, exactly when the fallback's
    [initialize] returns [true] and its [isNNAPIAvailable] returns
    [true]. Otherwise it returns [false], no service is kept and the
    initialized flag and active backend are as before; if the
    orchestrator was uninitialized, every later run of
    [processInferenceNative] calls returns "Error: Service not
    initialized" each time. *)
Theorem C2_fallback_on_gpu_failure
        `{!GpuNoThrow G} `{!FallbackNoThrow F}
        (st : @State G F) (e_init e_score : gpu_env) (f_init f_nnapi : fb_env)
        (path : string) (g1 : G) :
  TFLITE_GPU_AVAILABLE build = true ->
  ONNX_MOBILE_AVAILABLE build = true ->
  gpu_initialize e_init path gpu_new = (Return false, g1) ->
  exists ok st',
    initializeNative build e_init e_score f_init f_nnapi path st = (Return ok, st')
    /\ (ok = true <->
        returns (fb_initialize f_init path fb_new) true
        /\ returns (fb_isNNAPIAvailable f_nnapi (state_of (fb_initialize f_init path fb_new)))
                   true)
    /\ (ok = true ->
        active_backend st' = "onnx_mobile"
        /\ is_initialized st' = true
        /\ tflite_service st' = None
        /\ onnx_service st'
           = Some (state_of (fb_isNNAPIAvailable
                               f_nnapi (state_of (fb_initialize f_init path fb_new)))))
    /\ (ok = false ->
        tflite_service st' = None
        /\ onnx_service st' = None
        /\ is_initialized st' = is_initialized st
        /\ active_backend st' = active_backend st
        /\ (is_initialized st = false ->
            forall calls,
              Forall (fun r => r = Return "Error: Service not initialized")
                     (fst (processInference_seq build calls st')))).
Proof.
  intros Hgpu Honnx Hinit.
  destruct (no_throw_run _ _ (fb_initialize_no_throw f_init path fb_new))
    as (okf & f1 & Hfb).
  destruct (no_throw_run _ _ (fb_isNNAPIAvailable_no_throw f_nnapi f1))
    as (okn & f2 & Hnn).
  unfold returns, result_of, state_of. rewrite Hfb. cbn [fst snd]. rewrite Hnn.
  cbn [fst snd].
  assert (Hnone : forall st'' : @State G F,
             tflite_service st'' = None -> onnx_service st'' = None ->
             is_initialized st'' = is_initialized st ->
             active_backend st'' = active_backend st ->
             tflite_service st'' = None /\ onnx_service st'' = None
             /\ is_initialized st'' = is_initialized st
             /\ active_backend st'' = active_backend st
             /\ (is_initialized st = false ->
                 forall calls,
                   Forall (fun r => r = Return "Error: Service not initialized")
                          (fst (processInference_seq build calls st'')))).
  { intros st'' H1 H2 H3 H4. repeat split; try assumption.
    intros Hi calls. apply processInference_seq_uninitialized. congruence. }
  assert (Hiff : okf && okn = true <-> Return okf = Return true /\ Return okn = Return true).
  { rewrite andb_true_iff. split.
    - intros [-> ->]. split; reflexivity.
    - intros [H1 H2]. injection H1 as ->. injection H2 as ->. split; reflexivity. }
  exists (okf && okn).
  destruct okf; [destruct okn|]; eexists;
    (split;
     [ bridge_unfold; rewrite Hgpu, Honnx; cbn; rewrite Hinit; cbn; rewrite Hfb; cbn;
       rewrite ?Hnn; cbn; reflexivity |]);
    (split; [exact Hiff|]);
    (split; [intros Hok; try discriminate Hok; cbn; repeat split |]);
    intros Hok; try discriminate Hok; apply Hnone; reflexivity.
Qed.

Ltac crunch :=
  repeat (cbn;
          match goal with
          | H : tflite_service _ = _ |- _ => rewrite H
          | H : onnx_service _ = _ |- _ => rewrite H
          | H : (_ =? _)%string = _ |- _ => rewrite H
          | H : gpu_processInference _ _ _ = _ |- _ => rewrite H
          | H : fb_processInference _ _ _ = _ |- _ => rewrite H
          end);
  cbn.

Lemma not_empty_text (r : string) : empty r = false -> r <> "".
Proof. destruct r; [discriminate | intros _ H; discriminate H]. Qed.

(** C6. On an initialized orchestrator [processInferenceNative] returns
    a string and does not throw. With the TFLite backend active it is the
    GPU adapter's result, with the ONNX backend active the fallback
    adapter's, except that an empty result is replaced by "Error: No
    active backend available"; the same text is returned when no adapter
    is active. The result is never empty, and the initialized flag and
    the active backend are left as they were. *)
Theorem C6_inference_routes_to_active_adapter
        `{!GpuNoThrow G} `{!FallbackNoThrow F}
        (st : @State G F) (e : gpu_env) (f : fb_env) (input : string) :
  is_initialized st = true ->
  exists out st',
    processInferenceNative build e f input st = (Return out, st')
    /\ out <> ""
    /\ is_initialized st' = true
    /\ active_backend st' = active_backend st
    /\ (forall g,
          TFLITE_GPU_AVAILABLE build = true ->
          active_backend st = "tflite_gpu" ->
          tflite_service st = Some g ->
          exists r,
            returns (gpu_processInference e input g) r
            /\ out = (if empty r then "Error: No active backend available" else r))
    /\ (forall f0,
          ONNX_MOBILE_AVAILABLE build = true ->
          active_backend st = "onnx_mobile" ->
          onnx_service st = Some f0 ->
          exists r,
            returns (fb_processInference f input f0) r
            /\ out = (if empty r then "Error: No active backend available" else r))
    /\ (~ (TFLITE_GPU_AVAILABLE build = true /\ active_backend st = "tflite_gpu"
            /\ tflite_service st <> None) ->
        ~ (ONNX_MOBILE_AVAILABLE build = true /\ active_backend st = "onnx_mobile"
            /\ onnx_service st <> None) ->
        out = "Error: No active backend available").
Proof.
  intros Hi. bridge_unfold. rewrite Hi. cbn [negb].
  destruct (TFLITE_GPU_AVAILABLE build) eqn:HT;
    destruct (ONNX_MOBILE_AVAILABLE build) eqn:HO;
    destruct (active_backend st =? "tflite_gpu")%string eqn:B1;
    destruct (active_backend st =? "onnx_mobile")%string eqn:B2;
    pose proof B1 as E1; pose proof B2 as E2;
    first [apply String.eqb_eq in E1 | apply String.eqb_neq in E1];
    first [apply String.eqb_eq in E2 | apply String.eqb_neq in E2];
    try (exfalso; congruence);
    destruct (tflite_service st) as [g|] eqn:Hg;
    destruct (onnx_service st) as [f0|] eqn:Hf;
    try (destruct (no_throw_run _ _ (gpu_processInference_no_throw e input g))
          as (r & g' & Hr));
    try (destruct (no_throw_run _ _ (fb_processInference_no_throw f input f0))
          as (r' & f' & Hr'));
    crunch.
  all: repeat match goal with
         | |- context [if empty ?x then _ else _] => destruct (empty x) eqn:?
         end.
  all: do 2 eexists; (split; [reflexivity|]).
  all: cbn.
  all: split; [first [discriminate | apply not_empty_text; assumption]|].
  all: split; [exact Hi|].
  all: split; [first [reflexivity | assumption]|].
  all: split;
    [ intros g0 H1 H2 H3;
      first [ discriminate | congruence
            | injection H3 as <-; eexists; split;
              [ unfold returns, result_of; rewrite Hr; reflexivity
              | match goal with H : empty _ = _ |- _ => rewrite H end; reflexivity ] ] |].
  all: split;
    [ intros f1 H1 H2 H3;
      first [ discriminate | congruence
            | injection H3 as <-; eexists; split;
              [ unfold returns, result_of; rewrite Hr'; reflexivity
              | match goal with H : empty _ = _ |- _ => rewrite H end; reflexivity ] ] |].
  all: intros Hn1 Hn2; try reflexivity.
  all: exfalso;
    first [ solve [apply Hn1; repeat split; auto; discriminate]
          | solve [apply Hn2; repeat split; auto; discriminate] ].
Qed.

(** Split on every test and every adapter call of an unfolded entry
    point. *)
Ltac split_call c := destruct c as [[?|?] ?] eqn:?.
Ltac explode :=
  repeat (cbn;
          match goal with
          | |- context [TFLITE_GPU_AVAILABLE build] =>
              destruct (TFLITE_GPU_AVAILABLE build) eqn:?
          | |- context [ONNX_MOBILE_AVAILABLE build] =>
              destruct (ONNX_MOBILE_AVAILABLE build) eqn:?
          | |- context [REAL_TFLITE_AVAILABLE build] =>
              destruct (REAL_TFLITE_AVAILABLE build) eqn:?
          | |- context [gpu_initialize ?a ?b ?c] => split_call (gpu_initialize a b c)
          | |- context [gpu_initializeWithAssets ?a ?b ?c] =>
              split_call (gpu_initializeWithAssets a b c)
          | |- context [gpu_processInference ?a ?b ?c] =>
              split_call (gpu_processInference a b c)
          | |- context [gpu_isGPUAvailable ?a] => split_call (gpu_isGPUAvailable a)
          | |- context [gpu_getPerformanceScore ?a ?b] =>
              split_call (gpu_getPerformanceScore a b)
          | |- context [gpu_cleanup ?a] => split_call (gpu_cleanup a)
          | |- context [fb_initialize ?a ?b ?c] => split_call (fb_initialize a b c)
          | |- context [fb_processInference ?a ?b ?c] =>
              split_call (fb_processInference a b c)
          | |- context [fb_isNNAPIAvailable ?a ?b] => split_call (fb_isNNAPIAvailable a b)
          | |- context [fb_getPerformanceScore ?a ?b] =>
              split_call (fb_getPerformanceScore a b)
          | |- context [fb_cleanup ?a] => split_call (fb_cleanup a)
          | |- context [(?x =? ?y)%string] => destruct (x =? y)%string eqn:?
          | |- context [if ?b then _ else _] => is_var b; destruct b
          | |- context [negb ?b] => is_var b; destruct b
          | |- context [has_service ?o] => is_var o; destruct o
          | |- context [match ?o with Some _ => _ | None => _ end] =>
              is_var o; destruct o
          | |- context [empty ?x] => destruct (empty x) eqn:?
          end);
  cbn.

Ltac close_consistent :=
  intros Hrun; first [discriminate Hrun | injection Hrun as <- <- | injection Hrun as <-];
  cbn; intuition (first [congruence | discriminate]).

Lemma consistent_initial : consistent build (initial : @State G F).
Proof. unfold consistent. cbn. intuition. Qed.

Lemma consistent_initializeNative (st st' : @State G F) e1 e2 f1 f2 path r :
  consistent build st ->
  initializeNative build e1 e2 f1 f2 path st = (Return r, st') ->
  consistent build st'.
Proof.
  destruct st as [ts os ii ab lg]. unfold consistent. cbn.
  intros Hc. bridge_unfold. explode; close_consistent.
Qed.

Lemma consistent_initializeWithAssetsNative (st st' : @State G F) e1 e2 mgr r :
  consistent build st ->
  initializeWithAssetsNative build e1 e2 mgr st = (Return r, st') ->
  consistent build st'.
Proof.
  destruct st as [ts os ii ab lg]. unfold consistent. cbn.
  intros Hc. bridge_unfold. explode; close_consistent.
Qed.

Lemma consistent_processInferenceNative (st st' : @State G F) e f input r :
  consistent build st ->
  processInferenceNative build e f input st = (Return r, st') ->
  consistent build st'.
Proof.
  destruct st as [ts os ii ab lg]. unfold consistent. cbn.
  intros Hc. bridge_unfold. explode; close_consistent.
Qed.

Lemma consistent_getBackendInfoNative (st st' : @State G F) e f r :
  consistent build st ->
  getBackendInfoNative build e f st = (Return r, st') ->
  consistent build st'.
Proof.
  destruct st as [ts os ii ab lg]. unfold consistent. cbn.
  intros Hc. bridge_unfold. explode; close_consistent.
Qed.

Lemma consistent_cleanupNative (st st' : @State G F) :
  consistent build st ->
  cleanupNative build st = (Return tt, st') ->
  consistent build st'.
Proof.
  destruct st as [ts os ii ab lg]. unfold consistent. cbn.
  intros Hc. bridge_unfold. explode; close_consistent.
Qed.

Lemma reachable_consistent (st : @State G F) : reachable build st -> consistent build st.
Proof.
  induction 1;
    eauto using consistent_initial, consistent_initializeNative,
      consistent_initializeWithAssetsNative, consistent_processInferenceNative,
      consistent_getBackendInfoNative, consistent_cleanupNative.
Qed.

Lemma no_throw_not_throw {S A} (c : Result A * S) w s : no_throw c -> c <> (Throw w, s).
Proof. intros [a Ha] ->. discriminate Ha. Qed.

Lemma cleanupNative_run `{!GpuNoThrow G} `{!FallbackNoThrow F} (st : @State G F) :
  exists st',
    cleanupNative build st = (Return tt, st')
    /\ is_initialized st' = false
    /\ active_backend st' = "none"
    /\ tflite_service st' = (if TFLITE_GPU_AVAILABLE build then None else tflite_service st)
    /\ onnx_service st' = (if ONNX_MOBILE_AVAILABLE build then None else onnx_service st).
Proof.
  destruct st as [ts os ii ab lg]. bridge_unfold. explode.
  all: try solve [eexists; split; [reflexivity|]; cbn; auto].
  all: exfalso;
    match goal with
    | H : gpu_cleanup ?g = (Throw _, _) |- _ =>
        exact (no_throw_not_throw _ _ _ (gpu_cleanup_no_throw g) H)
    | H : fb_cleanup ?g = (Throw _, _) |- _ =>
        exact (no_throw_not_throw _ _ _ (fb_cleanup_no_throw g) H)
    end.
Qed.

Lemma cleanupNative_idempotent `{!GpuNoThrow G} `{!FallbackNoThrow F} (st : @State G F) :
  exists st1 st2,
    cleanupNative build st = (Return tt, st1)
    /\ cleanupNative build st1 = (Return tt, st2)
    /\ statics st2 = statics st1
    /\ is_initialized st1 = false
    /\ active_backend st1 = "none".
Proof.
  destruct (cleanupNative_run st) as (st1 & H1 & Hi1 & Hb1 & Ht1 & Ho1).
  destruct (cleanupNative_run st1) as (st2 & H2 & Hi2 & Hb2 & Ht2 & Ho2).
  exists st1, st2. repeat split; try assumption.
  unfold statics. rewrite Hi2, Hb2, Ht2, Ho2, Hi1, Hb1, Ht1, Ho1.
  destruct (TFLITE_GPU_AVAILABLE build), (ONNX_MOBILE_AVAILABLE build); reflexivity.
Qed.

Lemma cleanupNative_uninitialized `{!GpuNoThrow G} `{!FallbackNoThrow F} (st : @State G F) :
  reachable build st ->
  is_initialized st = false ->
  exists st1, cleanupNative build st = (Return tt, st1) /\ statics st1 = statics st.
Proof.
  intros Hreach Hi.
  destruct (reachable_consistent st Hreach) as (_ & _ & Hc).
  destruct (Hc Hi) as (Ht & Ho & Hb).
  destruct (cleanupNative_run st) as (st1 & H1 & Hi1 & Hb1 & Ht1 & Ho1).
  exists st1. split; [exact H1|].
  unfold statics. rewrite Hi1, Hb1, Ht1, Ho1, Hi, Hb, Ht, Ho.
  destruct (TFLITE_GPU_AVAILABLE build), (ONNX_MOBILE_AVAILABLE build); reflexivity.
Qed.

End BridgeClaims.

Section CleanupClaims.
Import Cxx Android Bridge.

Lemma mock_cleanup_idempotent (s : Mock.TFLiteGPUService) :
  exists s1,
    Mock.cleanup s = (Return tt, s1)
    /\ Mock.cleanup s1 = (Return tt, s1)
    /\ Mock.initialized_ s1 = false
    /\ forall e input,
        Mock.processInference e input s1 = (Return "Error: Service not initialized", s1).
Proof.
  destruct (mock_cleanup_run s) as (s1 & H1 & Hi1 & _ & _).
  exists s1. split; [exact H1|].
  destruct (mock_cleanup_run s1) as (s2 & H2 & _ & _ & Hid).
  rewrite (Hid Hi1) in H2. split; [exact H2|]. split; [exact Hi1|].
  intros e input. unfold Mock.processInference. run. rewrite Hi1. reflexivity.
Qed.

(** C9. [cleanupNative] returns without error and is idempotent: a
    second call right after the first returns too and leaves the statics
    as the first left them, with the initialized flag clear and the
    active backend "none"; after it every run of [processInferenceNative]
    calls answers "Error: Service not initialized" each time. In a
    reachable state that is already uninitialized the call changes none
    of the statics. The mock adapter's own [cleanup] is idempotent as
    well, and after it [processInference] answers "Error: Service not
    initialized" without touching the service. *)
Theorem C9_cleanup_is_idempotent
        {G : Type} `{!GpuAdapter G} `{!GpuNoThrow G}
        {F : Type} `{!FallbackAdapter F} `{!FallbackNoThrow F}
        (build : Build) :
  (forall st : @State G F,
      exists st1 st2,
        cleanupNative build st = (Return tt, st1)
        /\ cleanupNative build st1 = (Return tt, st2)
        /\ statics st2 = statics st1
        /\ is_initialized st1 = false
        /\ active_backend st1 = "none"
        /\ forall calls,
            Forall (fun r => r = Return "Error: Service not initialized")
                   (fst (processInference_seq build calls st1)))
  /\ (forall st : @State G F,
        reachable build st ->
        is_initialized st = false ->
        exists st1, cleanupNative build st = (Return tt, st1) /\ statics st1 = statics st)
  /\ (forall s : Mock.TFLiteGPUService,
        exists s1,
          Mock.cleanup s = (Return tt, s1)
          /\ Mock.cleanup s1 = (Return tt, s1)
          /\ Mock.initialized_ s1 = false
          /\ forall e input,
              Mock.processInference e input s1
              = (Return "Error: Service not initialized", s1)).
Proof.
  split; [|split].
  - intros st.
    destruct (cleanupNative_idempotent build st) as (st1 & st2 & H1 & H2 & Hs & Hi & Hb).
    exists st1, st2.
    split; [exact H1|]. split; [exact H2|]. split; [exact Hs|].
    split; [exact Hi|]. split; [exact Hb|].
    intros calls. exact (proj1 (processInference_seq_uninitialized build calls st1 Hi)).
  - intros st. apply cleanupNative_uninitialized; assumption.
  - apply mock_cleanup_idempotent.
Qed.

End CleanupClaims.


(** * The theorems at work on the adapters of the repository *)

Section Witnesses.
Import Cxx Android Bridge.

(** C1, witness: the mock adapter and the ONNX adapter, from program
    start. *)
Lemma C1_witness :
  TFLITE_GPU_AVAILABLE Scenario.mock_build = true
  /\ ONNX_MOBILE_AVAILABLE Scenario.mock_build = true
  /\ exists st',
      initializeNative (G := Mock.TFLiteGPUService) (F := Onnx.ONNXMobileService)
                       Scenario.mock_build Fixtures.mock_env Fixtures.mock_env tt tt
                       "model.tflite" Scenario.mock_start
      = (Return true, st')
      /\ active_backend st' = "tflite_gpu"
      /\ is_initialized st' = true
      /\ onnx_service st' = None
      /\ ~ In LogI_AttemptONNX (emitted Scenario.mock_start st').
Proof.
  split; [reflexivity|]. split; [reflexivity|].
  destruct (C1_gpu_adapter_has_priority
              (GA := mock_adapter) (FA := onnx_adapter)
              Scenario.mock_build Scenario.mock_start
              Fixtures.mock_env Fixtures.mock_env tt tt "model.tflite"
              eq_refl eq_refl) as [H _].
  destruct (H _ eq_refl) as (st' & Hrun & Hb & Hi & _ & Ho & Hlog).
  exists st'. repeat split; assumption.
Defined.

Lemma no_model_env_hands_out : Facts.hands_out_inputs Fixtures.no_model_env.
Proof. intros model interp H. discriminate H. Qed.

(** C2, witness: the production adapter on a device where no model can
    be read; the ONNX adapter takes over. *)
Lemma C2_witness :
  exists ok st',
    initializeNative (G := Prod.TFLiteGPUService) (F := Onnx.ONNXMobileService)
                     Scenario.native_build Fixtures.no_model_env Fixtures.no_model_env
                     tt tt "model.tflite" Scenario.native_start
    = (Return ok, st')
    /\ (ok = true <->
        returns (Onnx.initialize "model.tflite" Onnx.new) true
        /\ returns (Onnx.isNNAPIAvailable
                     (state_of (Onnx.initialize "model.tflite" Onnx.new))) true)
    /\ (ok = true -> active_backend st' = "onnx_mobile" /\ is_initialized st' = true).
Proof.
  destruct (C2_fallback_on_gpu_failure
              (GA := prod_runtime_adapter) (FA := onnx_adapter)
              Scenario.native_build Scenario.native_start
              (mkRuntime Fixtures.no_model_env no_model_env_hands_out)
              (mkRuntime Fixtures.no_model_env no_model_env_hands_out)
              tt tt "model.tflite"
              _ eq_refl eq_refl eq_refl)
    as (ok & st' & Hrun & Hiff & Hok & _).
  exists ok, st'. split; [exact Hrun|]. split; [exact Hiff|].
  intros H. destruct (Hok H) as (Hb & Hi & _). split; assumption.
Defined.

(** C6, witness: the mock process after a successful initialization. *)
Lemma C6_witness :
  is_initialized Scenario.mock_running = true
  /\ exists out st',
      processInferenceNative (G := Mock.TFLiteGPUService) (F := Onnx.ONNXMobileService)
                             Scenario.mock_build Fixtures.mock_env tt "hello"
                             Scenario.mock_running
      = (Return out, st')
      /\ out <> ""
      /\ is_initialized st' = true.
Proof.
  split; [reflexivity|].
  destruct (C6_inference_routes_to_active_adapter
              (GA := mock_adapter) (FA := onnx_adapter)
              Scenario.mock_build Scenario.mock_running Fixtures.mock_env tt "hello"
              eq_refl) as (out & st' & Hrun & Hne & Hi & _).
  exists out, st'. repeat split; assumption.
Defined.

(** C9, witness: cleanup at program start, where nothing is
    initialized. *)
Lemma C9_witness :
  reachable Scenario.mock_build Scenario.mock_start
  /\ is_initialized Scenario.mock_start = false
  /\ exists st1,
      cleanupNative Scenario.mock_build Scenario.mock_start = (Return tt, st1)
      /\ statics st1 = statics Scenario.mock_start.
Proof.
  split; [apply reach_initial|]. split; [reflexivity|].
  exact (proj1 (proj2 (C9_cleanup_is_idempotent
                         (G := Mock.TFLiteGPUService) (F := Onnx.ONNXMobileService)
                         Scenario.mock_build))
               Scenario.mock_start (reach_initial _) eq_refl).
Defined.

End Witnesses.

(* ===================================================================== *)
(** * Further properties of the code *)
(* ===================================================================== *)


(** ** Tokenizers *)

Section Tokenizers.
Import Cxx Facts.

Lemma mock_tokenizeInput_unfold (input : string) :
  Mock.tokenizeInput input =
    let tokens := (1 :: codes (printable_part input) ++ [2])%list in
    if (Mock.max_length <? length tokens)%nat then firstn Mock.max_length tokens
    else (tokens ++ repeat 0 (Mock.max_length - length tokens))%list.
Proof.
  unfold Mock.tokenizeInput, codes, printable_part.
  rewrite list_ascii_of_string_of_list_ascii. reflexivity.
Qed.

Lemma codes_length (s : string) : length (codes s) = String.length s.
Proof.
  unfold codes. rewrite length_map.
  induction s as [|c s IH]; cbn; [reflexivity | now rewrite IH].
Qed.

Lemma codes_range (s : string) : Forall (fun t => 0 <= t <= 255) (codes s).
Proof.
  unfold codes. apply Forall_map. apply Forall_forall. intros c _.
  pose proof (nat_ascii_bounded c). lia.
Qed.

Lemma printable_codes_range (s : string) :
  Forall (fun t => 32 <= t <= 126) (codes (printable_part s)).
Proof.
  unfold codes, printable_part. rewrite list_ascii_of_string_of_list_ascii.
  apply Forall_map. apply Forall_forall. intros c Hc.
  apply list_elem_of_filter in Hc as [Hp _]. apply Is_true_true in Hp.
  unfold is_printable in Hp.
  apply andb_true_iff in Hp as [H1 H2].
  apply Nat.leb_le in H1, H2. lia.
Qed.

Lemma printable_part_idem (s : string) : printable_part (printable_part s) = printable_part s.
Proof.
  unfold printable_part. rewrite list_ascii_of_string_of_list_ascii.
  f_equal. apply list_filter_filter_l. auto.
Qed.

(** X1. The mock tokenizer always produces exactly 512 tokens, the first
    of which is the BOS marker 1; every token is 0, 1, 2 or the code of a
    printable ASCII character; and bytes outside 32..126 (control
    characters, every byte of a non-ASCII character) do not influence the
    result. *)
Theorem X1_mock_tokenizer_shape (input : string) :
  length (Mock.tokenizeInput input) = 512%nat
  /\ nth 0 (Mock.tokenizeInput input) 0 = 1
  /\ Forall (fun t => t = 0 \/ t = 1 \/ t = 2 \/ 32 <= t <= 126) (Mock.tokenizeInput input)
  /\ Mock.tokenizeInput input = Mock.tokenizeInput (printable_part input).
Proof.
  rewrite !mock_tokenizeInput_unfold, printable_part_idem. cbv zeta.
  pose proof (printable_codes_range input) as Hrange.
  set (body := codes (printable_part input)) in *.
  assert (Hbody : Forall (fun t => t = 0 \/ t = 1 \/ t = 2 \/ 32 <= t <= 126) body).
  { eapply Forall_impl; [exact Hrange|]. cbn. intros t Ht. lia. }
  assert (Htokens : Forall (fun t => t = 0 \/ t = 1 \/ t = 2 \/ 32 <= t <= 126)
                           (1 :: body ++ [2])).
  { constructor; [lia|]. apply Forall_app. split; [exact Hbody|].
    constructor; [lia | constructor]. }
  unfold Mock.max_length.
  destruct (Nat.ltb 512 (length (1 :: body ++ [2]))) eqn:Hlong.
  - apply Nat.ltb_lt in Hlong.
    split; [rewrite length_take; lia|]. split; [reflexivity|].
    split; [apply Forall_take; exact Htokens | reflexivity].
  - apply Nat.ltb_ge in Hlong.
    split; [rewrite length_app, repeat_length; lia|]. split; [reflexivity|].
    split; [|reflexivity].
    apply Forall_app. split; [exact Htokens|].
    apply Forall_forall. intros t Ht. apply list_elem_of_In, repeat_spec in Ht. lia.
Qed.

(** X2. Padding and truncation of the mock tokenizer. With at most 510
    printable characters the tokens are BOS, the character codes, EOS and
    zero padding at the tail. With more, the tokens are BOS and the first
    511 character codes: there is no padding and the EOS marker 2 is cut
    off. *)
Theorem X2_mock_tokenizer_pads_or_truncates (input : string) :
  let text := printable_part input in
  ((String.length text <= 510)%nat ->
   Mock.tokenizeInput input
   = (1 :: codes text ++ 2 :: repeat 0 (510 - String.length text))%list)
  /\ ((510 < String.length text)%nat ->
      Mock.tokenizeInput input = 1 :: firstn 511 (codes text)
      /\ ~ In 2 (Mock.tokenizeInput input)).
Proof.
  cbv zeta. rewrite mock_tokenizeInput_unfold. cbv zeta.
  pose proof (printable_codes_range input) as Hrange.
  pose proof (codes_length (printable_part input)) as Hlen.
  set (body := codes (printable_part input)) in *.
  unfold Mock.max_length. rewrite <- Hlen.
  assert (Htl : length (1 :: body ++ [2]) = (length body + 2)%nat).
  { cbn. rewrite length_app. cbn. lia. }
  split; intros Hn.
  - assert (Hlt : Nat.ltb 512 (length (1 :: body ++ [2])) = false)
      by (apply Nat.ltb_ge; lia).
    rewrite Hlt, Htl. cbn [app]. rewrite <- app_assoc. cbn [app].
    do 3 f_equal. f_equal. lia.
  - assert (Hlt : Nat.ltb 512 (length (1 :: body ++ [2])) = true)
      by (apply Nat.ltb_lt; lia).
    rewrite Hlt.
    assert (Hcut : firstn 512 (1 :: body ++ [2]) = 1 :: firstn 511 body).
    { cbn [firstn]. f_equal. apply take_app_le. lia. }
    rewrite Hcut. split; [reflexivity|].
    intros [H|H]; [discriminate|].
    apply list_elem_of_In, (subseteq_take 511 body) in H.
    rewrite Forall_forall in Hrange. specialize (Hrange _ H). lia.
Qed.

(** X2, witness: a short text, and a text of 600 characters. *)
Lemma X2_witness :
  Mock.tokenizeInput "hi" = (1 :: codes "hi" ++ 2 :: repeat 0 508)%list
  /\ ~ In 2 (Mock.tokenizeInput (string_of_list_ascii (repeat "x"%char 600))).
Proof.
  split.
  - apply (proj1 (X2_mock_tokenizer_pads_or_truncates "hi")). vm_compute. lia.
  - apply (proj2 (X2_mock_tokenizer_pads_or_truncates
                    (string_of_list_ascii (repeat "x"%char 600)))).
    vm_compute. lia.
Defined.

Lemma list_ascii_length (s : string) : length (list_ascii_of_string s) = String.length s.
Proof. induction s as [|c s IH]; cbn; [reflexivity | now rewrite IH]. Qed.

Lemma char_to_int32_range (e : Prod.Env) (c : ascii) :
  if Prod.char_is_signed e then -128 <= Prod.char_to_int32 e c <= 127
  else 0 <= Prod.char_to_int32 e c <= 255.
Proof.
  unfold Prod.char_to_int32. pose proof (nat_ascii_bounded c).
  destruct (Prod.char_is_signed e); cbn [andb];
    [destruct (128 <=? Z.of_nat (nat_of_ascii c)) eqn:E|]; lia.
Qed.

(** X3. The production tokenizer always produces exactly 128 tokens: the
    codes of the first 128 bytes of the input, in order, followed by zero
    padding when the input is shorter (an empty input gives 128 zeros);
    there are no BOS or EOS markers. Where plain [char] is signed every
    token lies in -128..127, so bytes of non-ASCII text become negative
    token ids; where it is unsigned every token lies in 0..255. *)
Theorem X3_prod_tokenizer_pads_or_truncates (e : Prod.Env) (input : string) :
  length (Prod.tokenizeInput e input) = 128%nat
  /\ Prod.tokenizeInput e input
     = (map (Prod.char_to_int32 e) (firstn 128 (list_ascii_of_string input))
          ++ repeat 0 (128 - String.length input))%list
  /\ Forall (fun t => if Prod.char_is_signed e then -128 <= t <= 127 else 0 <= t <= 255)
            (Prod.tokenizeInput e input).
Proof.
  assert (Hshape : Prod.tokenizeInput e input
                   = (map (Prod.char_to_int32 e) (firstn 128 (list_ascii_of_string input))
                        ++ repeat 0 (128 - String.length input))%list).
  { unfold Prod.tokenizeInput, Prod.max_tokens. cbv zeta.
    rewrite length_map, list_ascii_length.
    destruct (128 <? String.length input)%nat eqn:Hlong.
    - apply Nat.ltb_lt in Hlong.
      replace (128 - String.length input)%nat with 0%nat by lia.
      cbn [repeat]. rewrite app_nil_r. apply firstn_map.
    - apply Nat.ltb_ge in Hlong.
      rewrite firstn_all2 by (rewrite list_ascii_length; lia). reflexivity. }
  split; [|split; [exact Hshape|]].
  - rewrite Hshape, length_app, length_map, length_take, repeat_length, list_ascii_length.
    lia.
  - rewrite Hshape. apply Forall_app. split.
    + apply Forall_map. apply Forall_forall. intros c _. apply char_to_int32_range.
    + apply Forall_forall. intros t Ht. apply list_elem_of_In, repeat_spec in Ht.
      subst. destruct (Prod.char_is_signed e); lia.
Qed.

End Tokenizers.

(** ** Performance scores *)

Section Scores.
Import Cxx Facts.

Lemma clamp01_bounds (x : Q) : (0 <= clamp01 x <= 1)%Q.
Proof.
  unfold clamp01. split.
  - apply Q.min_glb; [discriminate | apply Q.le_max_l].
  - apply Q.le_min_l.
Qed.


(** X4. The mock [getPerformanceScore] never changes the service and
    always returns a score between 0 and 1, whatever the random draw
    (also one outside the distribution's range). On a service that is not
    initialized the score is 0. *)
Theorem X4_mock_score_is_bounded (e : Mock.Env) (s : Mock.TFLiteGPUService) :
  exists q,
    Mock.getPerformanceScore e s = (Return q, s)
    /\ (0 <= q <= 1)%Q
    /\ (Mock.initialized_ s = false -> q = 0%Q).
Proof.
  unfold Mock.getPerformanceScore. run.
  destruct (Mock.initialized_ s) eqn:Hi; cbn [negb].
  - eexists. split; [reflexivity|]. split; [apply clamp01_bounds | discriminate].
  - exists 0%Q. split; [reflexivity|]. split; [split; discriminate | reflexivity].
Qed.

(** X4, witness: a freshly constructed service. *)
Lemma X4_witness :
  exists q,
    Mock.getPerformanceScore Fixtures.mock_env Mock.new = (Return q, Mock.new)
    /\ q = 0%Q.
Proof.
  destruct (X4_mock_score_is_bounded Fixtures.mock_env Mock.new) as (q & Hrun & _ & Hzero).
  exists q. split; [exact Hrun | exact (Hzero eq_refl)].
Defined.





End Scores.

(** ** The production adapter: inference, tensors, cleanup *)

Section ProdInference.
Import Cxx Android Facts.

Lemma append_not_empty_r (a b : string) : b <> "" -> a ++ b <> "".
Proof.
  intros Hb H. destruct a as [|c a]; [exact (Hb H) | discriminate H].
Qed.






End ProdInference.

Section ProdTensors.
Import Cxx Android Facts.

Lemma splice_bytes_testbit (k src dst i : Z) :
  0 <= k -> 0 <= i ->
  Z.testbit (splice_bytes k src dst) i
  = if i <? 8 * k then Z.testbit src i else Z.testbit dst i.
Proof.
  intros Hk Hi. unfold splice_bytes.
  rewrite Z.lor_spec, Z.land_spec, Z.ldiff_spec, Z.testbit_ones_nonneg by lia.
  destruct (i <? 8 * k), (Z.testbit src i), (Z.testbit dst i); reflexivity.
Qed.

Lemma splice_bytes_low (k src dst : Z) :
  0 <= k -> splice_bytes k src dst mod 2 ^ (8 * k) = src mod 2 ^ (8 * k).
Proof.
  intros Hk. apply Z.bits_inj'. intros i Hi.
  rewrite !Z.testbit_mod_pow2 by lia. rewrite splice_bytes_testbit by lia.
  destruct (i <? 8 * k); reflexivity.
Qed.

Lemma splice_bytes_high (k src dst : Z) :
  0 <= k -> splice_bytes k src dst / 2 ^ (8 * k) = dst / 2 ^ (8 * k).
Proof.
  intros Hk. rewrite <- !Z.shiftr_div_pow2 by lia. apply Z.bits_inj'. intros i Hi.
  rewrite !Z.shiftr_spec by lia. rewrite splice_bytes_testbit by lia.
  assert (H : (i + 8 * k <? 8 * k) = false) by lia. rewrite H. reflexivity.
Qed.

Lemma int32_to_float_exact (z : Z) :
  Z.abs z <= 2 ^ 24 -> int32_to_float z = inject_Z z.
Proof.
  intros Hz. unfold int32_to_float. change (2 ^ 24) with 16777216 in Hz.
  destruct (Z.eq_dec (Z.abs z) 16777216) as [Hmax|Hless].
  - assert (z = 16777216 \/ z = - 16777216) as [-> | ->] by lia; reflexivity.
  - assert (Hlog : Z.log2 (Z.abs z) <= 23).
    { destruct (Z.eq_dec (Z.abs z) 0) as [-> | Hnz]; [cbn; lia|].
      assert (Z.log2 (Z.abs z) < 24); [|lia].
      apply Z.log2_lt_pow2; [lia|]. change (2 ^ 24) with 16777216. lia. }
    assert (Hex : (Z.log2 (Z.abs z) - 23 <=? 0) = true) by lia.
    cbv zeta. rewrite Hex. reflexivity.
Qed.

Section Memcpy.
Variables (tokens dst : list Z) (copy_size : Z).
Hypothesis Hsize : 0 <= copy_size <= Z.of_nat (length tokens) * 4.

Let whole := Z.to_nat (copy_size / 4).

Lemma copy_size_split :
  copy_size = 4 * Z.of_nat whole + copy_size mod 4 /\ 0 <= copy_size mod 4 < 4.
Proof.
  subst whole. rewrite Z2Nat.id by (apply Z.div_pos; lia).
  split; [apply Z.div_mod; lia | apply Z.mod_pos_bound; lia].
Qed.

Lemma memcpy_i32_whole_length : length (firstn whole tokens) = whole.
Proof.
  rewrite length_take. apply Nat.min_l. destruct copy_size_split. lia.
Qed.

Lemma memcpy_i32_prefix (i : nat) :
  (i < whole)%nat -> nth i (Prod.memcpy_i32 tokens copy_size dst) 0 = nth i tokens 0.
Proof.
  intros Hi. unfold Prod.memcpy_i32, Prod.overwrite. fold whole.
  rewrite <- app_assoc.
  rewrite app_nth1 by (rewrite memcpy_i32_whole_length; exact Hi).
  rewrite nth_firstn. assert (H : (i <? whole)%nat = true) by (apply Nat.ltb_lt; exact Hi).
  rewrite H. reflexivity.
Qed.

Lemma memcpy_i32_suffix (i : nat) :
  copy_size <= 4 * Z.of_nat i ->
  nth i (Prod.memcpy_i32 tokens copy_size dst) 0 = nth i dst 0.
Proof.
  intros Hi. unfold Prod.memcpy_i32, Prod.overwrite. fold whole.
  set (last := if copy_size mod 4 =? 0 then []
               else [splice_bytes (copy_size mod 4) (nth whole tokens 0) (nth whole dst 0)]).
  assert (Hlen : length (firstn whole tokens ++ last) = (whole + length last)%nat).
  { rewrite length_app, memcpy_i32_whole_length. reflexivity. }
  assert (Hge : (whole + length last <= i)%nat).
  { destruct copy_size_split as [Hsplit Hrange].
    subst last. destruct (copy_size mod 4 =? 0) eqn:Hrest; cbn [length].
    - apply Z.eqb_eq in Hrest. lia.
    - apply Z.eqb_neq in Hrest. lia. }
  rewrite app_nth2 by lia. rewrite nth_skipn, Hlen. f_equal. lia.
Qed.

Lemma memcpy_i32_aligned :
  copy_size mod 4 = 0 ->
  Prod.memcpy_i32 tokens copy_size dst = (firstn whole tokens ++ skipn whole dst)%list.
Proof.
  intros Hrest. unfold Prod.memcpy_i32, Prod.overwrite. fold whole.
  rewrite Hrest. cbn [Z.eqb]. rewrite app_nil_r, memcpy_i32_whole_length. reflexivity.
Qed.

Lemma memcpy_i32_last :
  copy_size mod 4 <> 0 ->
  nth whole (Prod.memcpy_i32 tokens copy_size dst) 0
  = splice_bytes (copy_size mod 4) (nth whole tokens 0) (nth whole dst 0).
Proof.
  intros Hrest. unfold Prod.memcpy_i32, Prod.overwrite. fold whole.
  apply Z.eqb_neq in Hrest. rewrite Hrest.
  rewrite <- app_assoc. cbn [app].
  rewrite <- memcpy_i32_whole_length at 1. apply nth_middle.
Qed.

End Memcpy.

(** X7. Input binding of the production adapter. For an int32 input
    tensor [setInputTensor] returns [true] after a [memcpy] of
    min(4 * tokens, byte size) bytes: the whole tokens that fit are
    copied as they are, every element that starts at or after the last
    byte copied keeps its value, and when the byte count is not a
    multiple of 4 the element in between is overwritten in part, its low
    bytes being the next token's and its other bytes its own. For a
    float32 tensor it copies at most byte size / 4 tokens, converted to
    floats (exactly, for tokens up to 2^24 in magnitude), and the
    elements after them keep their values. In both cases the other
    tensors are left alone. For any other element type it returns
    [false] and changes nothing. *)
Theorem X7_prod_input_binding_respects_capacity
        (tokens : list Z) (s : Prod.TFLiteGPUService)
        (interp : Prod.Interpreter) (t : Prod.TfLiteTensor)
        (rest : list (option Prod.TfLiteTensor)) :
  Prod.interpreter_ s = Some interp ->
  Prod.inputs interp = Some t :: rest ->
  (Prod.type t = Prod.kTfLiteInt32 ->
   let copy_size := Z.min (Z.of_nat (length tokens) * 4) (Z.max 0 (Prod.bytes t)) in
   let whole := Z.to_nat (copy_size / 4) in
   let part := copy_size mod 4 in
   exists data,
     Prod.setInputTensor tokens s
     = (Return true,
        Prod.set_interpreter_
          (Some (Prod.mkInterpreter (Some (Prod.set_data_i32 data t) :: rest)
                                    (Prod.outputs interp) (Prod.num_threads interp))) s)
     /\ (forall i, (i < whole)%nat -> nth i data 0 = nth i tokens 0)
     /\ (forall i, copy_size <= 4 * Z.of_nat i -> nth i data 0 = nth i (Prod.data_i32 t) 0)
     /\ (part = 0 -> data = (firstn whole tokens ++ skipn whole (Prod.data_i32 t))%list)
     /\ (part <> 0 ->
         nth whole data 0 mod 2 ^ (8 * part) = nth whole tokens 0 mod 2 ^ (8 * part)
         /\ nth whole data 0 / 2 ^ (8 * part)
            = nth whole (Prod.data_i32 t) 0 / 2 ^ (8 * part)))
  /\ (Prod.type t = Prod.kTfLiteFloat32 ->
      let count := Z.to_nat (Prod.bytes t / 4) in
      let copied := map int32_to_float (firstn count tokens) in
      let data := (copied ++ skipn (length copied) (Prod.data_f t))%list in
      Prod.setInputTensor tokens s
      = (Return true,
         Prod.set_interpreter_
           (Some (Prod.mkInterpreter (Some (Prod.set_data_f data t) :: rest)
                                     (Prod.outputs interp) (Prod.num_threads interp))) s)
      /\ (length copied <= count)%nat
      /\ (Forall (fun token => Z.abs token <= 2 ^ 24) tokens ->
          copied = map inject_Z (firstn count tokens))
      /\ ((count <= length (Prod.data_f t))%nat ->
          length data = length (Prod.data_f t)))
  /\ (forall code, Prod.type t = Prod.kTfLiteOtherType code ->
      Prod.setInputTensor tokens s = (Return false, s)).
Proof.
  intros Hip Hin.
  split; [|split].
  - intros Hty copy_size whole part.
    unfold Prod.setInputTensor. run. rewrite Hip, Hin, Hty. cbn [Prod.is_int32].
    unfold Prod.set_first_input. rewrite Hin. fold copy_size.
    assert (Hsize : 0 <= copy_size <= Z.of_nat (length tokens) * 4)
      by (subst copy_size; lia).
    exists (Prod.memcpy_i32 tokens copy_size (Prod.data_i32 t)).
    split; [reflexivity|]. split; [|split; [|split]].
    + intros i Hi. subst whole. apply memcpy_i32_prefix; assumption.
    + intros i Hi. apply memcpy_i32_suffix; assumption.
    + intros Hpart. subst whole part. apply memcpy_i32_aligned; assumption.
    + intros Hpart. subst whole part. rewrite memcpy_i32_last by assumption.
      assert (0 <= copy_size mod 4) by (apply Z.mod_pos_bound; lia).
      split; [apply splice_bytes_low | apply splice_bytes_high]; assumption.
  - intros Hty count copied data.
    unfold Prod.setInputTensor. run. rewrite Hip, Hin, Hty.
    cbn [Prod.is_int32 Prod.is_float32].
    unfold Prod.set_first_input, Prod.overwrite. rewrite Hin. fold count copied data.
    assert (Hcopied : (length copied <= count)%nat).
    { subst copied. rewrite length_map, length_take. lia. }
    split; [reflexivity|]. split; [exact Hcopied|]. split.
    + intros Hsmall. subst copied. apply map_ext_in. intros token Htoken.
      apply int32_to_float_exact.
      rewrite Forall_forall in Hsmall. apply Hsmall.
      apply list_elem_of_In in Htoken.
      exact (subseteq_take count tokens token Htoken).
    + intros Hcap. subst data. rewrite length_app, length_skipn. lia.
  - intros code Hty. unfold Prod.setInputTensor. run. rewrite Hip, Hin, Hty. reflexivity.
Qed.

(** X7, witness: three tokens offered to an int32 input of 6 bytes. The
    first is copied whole, the second gives its two low bytes to an
    element that keeps its two high bytes. *)
Lemma X7_witness :
  exists data,
    Prod.setInputTensor [65; 66; 67] (Cases.service_over Cases.odd_sized_input)
    = (Return true, Cases.service_over (Prod.set_data_i32 data Cases.odd_sized_input))
    /\ nth 0 data 0 = 65
    /\ nth 1 data 0 mod 2 ^ 16 = 66
    /\ nth 1 data 0 / 2 ^ 16 = 16909060 / 2 ^ 16.
Proof.
  destruct (proj1 (X7_prod_input_binding_respects_capacity
                     [65; 66; 67] (Cases.service_over Cases.odd_sized_input)
                     (Prod.mkInterpreter [Some Cases.odd_sized_input]
                                         [Some Fixtures.rank3_output] 1)
                     Cases.odd_sized_input [] eq_refl eq_refl) eq_refl)
    as (data & Hrun & Hwhole & _ & _ & Hpart).
  exists data. split; [exact Hrun|]. split; [apply (Hwhole 0%nat); vm_compute; lia|].
  destruct Hpart as [Hlow Hhigh]; [vm_compute; discriminate|].
  split; [exact Hlow | exact Hhigh].
Defined.

Lemma printable_chars_spec (data : list Z) :
  (String.length (Prod.printable_chars data) <= length data)%nat
  /\ Forall (fun c => (1 <= nat_of_ascii c <= 127)%nat)
            (list_ascii_of_string (Prod.printable_chars data)).
Proof.
  unfold Prod.printable_chars. rewrite list_ascii_of_string_of_list_ascii. split.
  - rewrite <- list_ascii_length, list_ascii_of_string_of_list_ascii, length_map.
    apply length_filter.
  - apply Forall_map. apply Forall_forall. intros d Hd.
    apply list_elem_of_filter in Hd as [Hp _]. apply Is_true_true in Hp.
    apply andb_true_iff in Hp as [H1 H2].
    rewrite nat_ascii_embedding by lia. lia.
Qed.

(** X8. Decoding an int32 output tensor. [decodeOutput] leaves the
    service as it is and returns "TensorFlow Lite response: " followed by
    at most 10 characters, each of them an ASCII character with a code
    from 1 to 127: of the first 10 elements of the buffer, those outside
    that range are skipped. *)
Theorem X8_prod_decode_int32_is_short_ascii
        (s : Prod.TFLiteGPUService) (interp : Prod.Interpreter)
        (t : Prod.TfLiteTensor) (rest : list (option Prod.TfLiteTensor)) :
  Prod.interpreter_ s = Some interp ->
  Prod.outputs interp = Some t :: rest ->
  Prod.type t = Prod.kTfLiteInt32 ->
  exists text,
    Prod.decodeOutput s = (Return ("TensorFlow Lite response: " ++ text), s)
    /\ (String.length text <= 10)%nat
    /\ Forall (fun c => (1 <= nat_of_ascii c <= 127)%nat) (list_ascii_of_string text).
Proof.
  intros Hip Hout Hty. unfold Prod.decodeOutput. run. rewrite Hip, Hout, Hty.
  cbn [Prod.is_float32 Prod.is_int32].
  eexists. split; [reflexivity|].
  match goal with |- context [Prod.printable_chars ?d] =>
    destruct (printable_chars_spec d) as [Hlen Hall]; split; [|exact Hall];
    eapply Nat.le_trans; [exact Hlen|] end.
  rewrite length_take. lia.
Qed.

(** X8, witness: an int32 output of twelve elements, among them a zero
    and the value 300. *)
Lemma X8_witness :
  exists text,
    Prod.decodeOutput (Fixtures.service_with Cases.text_output)
    = (Return ("TensorFlow Lite response: " ++ text),
       Fixtures.service_with Cases.text_output)
    /\ (String.length text <= 10)%nat
    /\ Forall (fun c => (1 <= nat_of_ascii c <= 127)%nat) (list_ascii_of_string text).
Proof.
  exact (X8_prod_decode_int32_is_short_ascii
           (Fixtures.service_with Cases.text_output)
           (Fixtures.interpreter_with Cases.text_output)
           Cases.text_output [] eq_refl eq_refl eq_refl).
Defined.

End ProdTensors.

Section ProdLifecycle.
Import Cxx Android Facts.

Lemma prod_cleanup_run (s : Prod.TFLiteGPUService) :
  Prod.cleanup s
  = (Return tt,
     if Prod.initialized_ s
     then Prod.mkService false false (Prod.model_path_ s) None None nullptr
                         (Prod.asset_manager_ s) ""
     else s).
Proof.
  unfold Prod.cleanup. run. destruct s as [i ml mp ip m gd am mb]. cbn.
  destruct i; [|reflexivity]. destruct (non_null gd) eqn:Hgd; [reflexivity|].
  unfold non_null in Hgd. apply negb_false_iff, Z.eqb_eq in Hgd. subst gd. reflexivity.
Qed.

(** X9. The production [cleanup] is idempotent and never throws. On an
    initialized service it releases everything it holds: interpreter,
    model and delegate are null afterwards, the model buffer is empty and
    both flags are clear; the model path and the asset manager stay. On a
    service that is not initialized it does nothing at all. After it,
    [processInference] answers "Error: Service not initialized" and
    [getPerformanceScore] 0, both without touching the service. *)
Theorem X9_prod_cleanup_releases_everything (s : Prod.TFLiteGPUService) :
  exists s',
    Prod.cleanup s = (Return tt, s')
    /\ Prod.cleanup s' = (Return tt, s')
    /\ (Prod.initialized_ s = true ->
        s' = Prod.mkService false false (Prod.model_path_ s) None None nullptr
                            (Prod.asset_manager_ s) "")
    /\ (Prod.initialized_ s = false -> s' = s)
    /\ (forall e input,
          Prod.processInference e input s' = (Return "Error: Service not initialized", s'))
    /\ (forall e, Prod.getPerformanceScore e s' = (Return 0%Q, s')).
Proof.
  eexists. split; [apply prod_cleanup_run|].
  assert (Hi : Prod.initialized_
                 (if Prod.initialized_ s
                  then Prod.mkService false false (Prod.model_path_ s) None None nullptr
                                      (Prod.asset_manager_ s) ""
                  else s) = false).
  { destruct (Prod.initialized_ s) eqn:E; [reflexivity | exact E]. }
  split; [rewrite prod_cleanup_run, Hi; reflexivity|].
  split; [intros ->; reflexivity|]. split; [intros ->; reflexivity|]. split.
  - intros e input. unfold Prod.processInference. run. rewrite Hi. reflexivity.
  - intros e. unfold Prod.getPerformanceScore. run. rewrite Hi. reflexivity.
Qed.

(** X9, witness: cleaning up the running service of the fixtures. *)
Lemma X9_witness :
  exists s',
    Prod.cleanup (Fixtures.service_with Fixtures.rank3_output) = (Return tt, s')
    /\ s' = Prod.mkService false false "model.tflite" None None nullptr None "".
Proof.
  destruct (X9_prod_cleanup_releases_everything (Fixtures.service_with Fixtures.rank3_output))
    as (s' & Hrun & _ & Hrel & _).
  exists s'. split; [exact Hrun | exact (Hrel eq_refl)].
Defined.

(** X10. What a failed production [initialize] leaves behind. When the
    model loads and the GPU delegate is created but the interpreter
    cannot be built, [initialize] returns [false] with the service not
    initialized, yet the delegate and the model stay attached and
    [model_loaded_] stays set; and because [cleanup] acts only on an
    initialized service, a [cleanup] after the failure releases neither
    of them. *)
Theorem X10_prod_failed_initialize_keeps_delegate
        (e : Prod.Env) (path : string) (s : Prod.TFLiteGPUService)
        (m : Prod.FlatBufferModel) :
  Prod.initialized_ s = false ->
  Prod.BuildFromFile e path = Some m ->
  non_null (Prod.TfLiteGpuDelegateV2Create e) = true ->
  result_of (Prod.buildInterpreter e (Prod.state_at_build e path s)) = Return false ->
  exists s1,
    Prod.initialize e path s = (Return false, s1)
    /\ Prod.initialized_ s1 = false
    /\ Prod.model_loaded_ s1 = true
    /\ Prod.model_ s1 = Some m
    /\ Prod.gpu_delegate_ s1 = Prod.TfLiteGpuDelegateV2Create e
    /\ Prod.cleanup s1 = (Return tt, s1).
Proof.
  intros Hi Hload Hgd Hbuild.
  unfold Prod.state_at_build, Prod.state_at_load in Hbuild.
  rewrite prod_loadModelFromFile_run in Hbuild. cbn [Prod.model_path_ Prod.set_model_path_] in Hbuild.
  rewrite Hload in Hbuild. cbn [state_of snd] in Hbuild.
  rewrite prod_initializeGPUDelegate_run in Hbuild. cbn [state_of snd] in Hbuild.
  unfold Prod.initialize. unfold bind at 1, get at 1. rewrite Hi.
  unfold bind at 1, modify at 1. unfold try_catch, bind at 1.
  rewrite prod_loadModelFromFile_run. cbn [Prod.model_path_ Prod.set_model_path_].
  rewrite Hload. cbn [negb]. unfold bind at 1.
  rewrite prod_initializeGPUDelegate_run. unfold bind at 1.
  revert Hbuild.
  match goal with |- context [Prod.buildInterpreter e ?x] =>
    generalize (eq_refl (Prod.buildInterpreter e x)); set (st := x);
    unfold Prod.buildInterpreter at 2 end.
  run. cbn [Prod.model_ Prod.set_model_ Prod.set_model_loaded_ Prod.set_gpu_delegate_
            Prod.gpu_delegate_ st].
  subst st. cbn [Prod.model_ Prod.set_model_ Prod.set_model_loaded_ Prod.set_gpu_delegate_
                 Prod.gpu_delegate_].
  destruct (Prod.InterpreterBuilder e m) as [status built].
  destruct (Prod.is_ok status); cbn [negb].
  - destruct built as [interp|].
    + match goal with |- context [Prod.AllocateTensors e ?i] =>
        destruct (Prod.AllocateTensors e i) as [status' interp'] end.
      destruct (Prod.is_ok status'); cbn [negb].
      * unfold Prod.log_input_tensors, ret, segfault.
        destruct (forallb _ (Prod.inputs interp')); intros -> H; discriminate H.
      * intros -> _. cbn [negb]. eexists. split; [reflexivity|].
        rewrite prod_cleanup_run. cbn. rewrite Hi. repeat split; auto.
    + intros -> _. cbn [negb]. eexists. split; [reflexivity|].
      rewrite prod_cleanup_run. cbn. rewrite Hi. repeat split; auto.
  - intros -> _. cbn [negb]. eexists. split; [reflexivity|].
    rewrite prod_cleanup_run. cbn. rewrite Hi. repeat split; auto.
Qed.

(** X10, witness: a device on which no interpreter can be built. *)
Lemma X10_witness :
  exists s1,
    Prod.initialize Cases.build_fails_env "model.tflite" Prod.new = (Return false, s1)
    /\ Prod.initialized_ s1 = false
    /\ Prod.model_loaded_ s1 = true
    /\ Prod.model_ s1 = Some (Prod.mkModel "model.tflite")
    /\ Prod.gpu_delegate_ s1 = 0x7000
    /\ Prod.cleanup s1 = (Return tt, s1).
Proof.
  exact (X10_prod_failed_initialize_keeps_delegate
           Cases.build_fails_env "model.tflite" Prod.new (Prod.mkModel "model.tflite")
           eq_refl eq_refl eq_refl eq_refl).
Defined.

(** X11. No model is swapped into a live production service. Once
    [initialize] has returned [true], a further [initialize], for whatever
    path and on whatever device, and a further [initializeWithAssets]
    return [true] at once and change nothing: the service keeps the model
    and the path it had. *)
Theorem X11_prod_initialize_once
        (e1 : Prod.Env) (path1 : string) (s0 : Prod.TFLiteGPUService) :
  result_of (Prod.initialize e1 path1 s0) = Return true ->
  let s1 := state_of (Prod.initialize e1 path1 s0) in
  Prod.initialized_ s1 = true
  /\ (forall e2 path2, Prod.initialize e2 path2 s1 = (Return true, s1))
  /\ (forall e2 mgr, Prod.initializeWithAssets e2 mgr s1 = (Return true, s1)).
Proof.
  intros Hok s1.
  assert (Hi : Prod.initialized_ s1 = true).
  { subst s1. destruct (Prod.initialized_ s0) eqn:Hi0.
    - unfold Prod.initialize. run. rewrite Hi0. exact Hi0.
    - destruct (prod_initialize_outcome e1 path1 s0 Hi0) as (s' & Hrun & Hi' & _).
      rewrite Hrun in Hok |- *. cbn [result_of state_of fst snd] in Hok |- *.
      rewrite Hi', Hok. reflexivity. }
  split; [exact Hi|]. split.
  - intros e2 path2. unfold Prod.initialize. run. rewrite Hi. reflexivity.
  - intros e2 mgr. unfold Prod.initializeWithAssets. run. rewrite Hi. reflexivity.
Qed.

(** X11, witness: initialize on a working device, then again on a device
    where nothing loads; the second call reports success all the same. *)
Lemma X11_witness :
  let s1 := state_of (Prod.initialize Fixtures.cpu_only_env "model.tflite" Prod.new) in
  Prod.initialize Fixtures.no_model_env "other.tflite" s1 = (Return true, s1).
Proof.
  exact (proj1 (proj2 (X11_prod_initialize_once Fixtures.cpu_only_env "model.tflite"
                         Prod.new eq_refl))
               Fixtures.no_model_env "other.tflite").
Defined.

End ProdLifecycle.

(** ** Candidate order when loading from the asset store *)

Section AssetPriority.
Import Cxx Android Facts.












End AssetPriority.

(** ** The mock adapter: candidates, inference, life cycle *)

Section MockLifecycle.
Import Cxx Android Facts.






Lemma mock_decodeOutput_not_empty e s :
  exists out, Mock.decodeOutput e s = (Return out, s) /\ out <> "".
Proof.
  unfold Mock.decodeOutput. run.
  destruct (negb (non_null (Mock.interpreter_ s)));
    [eexists; split; [reflexivity | discriminate]|].
  eexists; split; [reflexivity|].
  apply append_not_empty_r.
  destruct (non_null (Mock.gpu_delegate_ s)); discriminate.
Qed.

Lemma mock_generateFallbackResponse_not_empty e input s :
  exists out, Mock.generateFallbackResponse e input s = (Return out, s) /\ out <> "".
Proof.
  unfold Mock.generateFallbackResponse, Mock.getPerformanceScore. run.
  rewrite mock_isGPUAvailable_true. cbn.
  destruct (negb (Mock.initialized_ s)); cbn;
    (eexists; split; [reflexivity|]);
    apply append_not_empty_r; discriminate.
Qed.

(** X14. The mock [processInference], from every state: it returns (no
    exception leaves it), leaves the service as it was, and its answer is
    never the empty string. With a model loaded the answer does not
    depend on the input text: for the same random picks it is the same
    for any two inputs. *)
Theorem X14_mock_inference_ignores_input_when_loaded
        (e : Mock.Env) (s : Mock.TFLiteGPUService) (input : string) :
  (exists out, Mock.processInference e input s = (Return out, s) /\ out <> "")
  /\ (Mock.initialized_ s = true -> Mock.model_loaded_ s = true ->
      forall other, Mock.processInference e other s = Mock.processInference e input s).
Proof.
  split.
  - unfold Mock.processInference. run.
    destruct (negb (Mock.initialized_ s));
      [eexists; split; [reflexivity | discriminate]|].
    destruct (negb (Mock.model_loaded_ s)).
    + destruct (mock_generateFallbackResponse_not_empty e input s) as (out & -> & Hne).
      eauto.
    + unfold Mock.setInputTensor. run.
      destruct (negb (non_null (Mock.interpreter_ s))); cbn -[Mock.decodeOutput];
        [eexists; split; [reflexivity | discriminate]|].
      destruct (mock_decodeOutput_not_empty e s) as (out & -> & Hne). eauto.
  - intros Hi Hml other. unfold Mock.processInference, Mock.setInputTensor. run.
    rewrite Hi. cbn -[Mock.decodeOutput Mock.tokenizeInput Mock.generateFallbackResponse].
    rewrite Hml. reflexivity.
Qed.

(** X14, witness: a loaded service gives one answer to two different
    inputs. *)
Lemma X14_witness :
  Mock.processInference Fixtures.mock_env "Bonjour"
    (state_of (Mock.initialize Fixtures.mock_env "model.tflite" Mock.new))
  = Mock.processInference Fixtures.mock_env "Hello"
      (state_of (Mock.initialize Fixtures.mock_env "model.tflite" Mock.new)).
Proof.
  apply (proj2 (X14_mock_inference_ignores_input_when_loaded
                  Fixtures.mock_env
                  (state_of (Mock.initialize Fixtures.mock_env "model.tflite" Mock.new))
                  "Hello"));
    reflexivity.
Defined.

(** X15. Life cycle of the mock adapter without an asset manager:
    [initialize] followed by [cleanup] returns [true] and leaves every
    handle null and both flags clear, so that only the model path given
    is remembered; afterwards [processInference] answers
    "Error: Service not initialized" and [getPerformanceScore] is 0. *)
Theorem X15_mock_cleanup_undoes_initialize
        (e : Mock.Env) (path : string) (s : Mock.TFLiteGPUService) :
  Mock.asset_manager_ s = None ->
  let s1 := state_of (Mock.initialize e path s) in
  let s2 := state_of (Mock.cleanup s1) in
  result_of (Mock.initialize e path s) = Return true
  /\ Mock.initialized_ s1 = true
  /\ s2 = Mock.mkService false false path nullptr nullptr nullptr None (Mock.model_buffer_ s)
  /\ (forall e' input,
        Mock.processInference e' input s2 = (Return "Error: Service not initialized", s2))
  /\ (forall e', Mock.getPerformanceScore e' s2 = (Return 0%Q, s2)).
Proof.
  intros Ham s1 s2.
  destruct s as [i ml mp ip m gd am mb]; cbn in Ham; subst am.
  assert (H1 : Mock.initialize e path (Mock.mkService i ml mp ip m gd None mb)
               = (Return true,
                  Mock.mkService true true path 0x11111111 0x12345678 0x87654321 None mb)).
  { unfold Mock.initialize, Mock.loadModel, Mock.loadModelFromFile,
      Mock.initializeGPUDelegate, Mock.buildInterpreter, Mock.warmUpModel,
      Mock.processInference, Mock.setInputTensor, Mock.decodeOutput.
    run. cbn -[Mock.cleanup Mock.tokenizeInput nth].
    destruct i; reflexivity. }
  subst s1 s2. rewrite H1. cbn.
  repeat split.
Qed.

(** X15, witness *)
Lemma X15_witness :
  state_of (Mock.cleanup (state_of (Mock.initialize Fixtures.mock_env "model.tflite" Mock.new)))
  = Mock.mkService false false "model.tflite" nullptr nullptr nullptr None "".
Proof.
  exact (proj1 (proj2 (proj2 (X15_mock_cleanup_undoes_initialize
                                Fixtures.mock_env "model.tflite" Mock.new eq_refl)))).
Defined.

End MockLifecycle.

(** ** The ONNX adapter *)

Section OnnxLifecycle.

Lemma append_inj_l (p a b : string) : p ++ a = p ++ b -> a = b.
Proof.
  induction p as [|c p IH]; intros H; [exact H|].
  apply IH. change (String c (p ++ a) = String c (p ++ b)) in H. congruence.
Qed.

(** X16. Life cycle of the ONNX adapter. [initialize] succeeds for every
    path and from every state, recording the path. Once initialized,
    [processInference] echoes its input behind a fixed prefix, so that
    different inputs get different answers, and leaves the service as it
    is. [cleanup] clears the flag and keeps the path; after it
    [processInference] answers "Error: Service not initialized". *)
Theorem X16_onnx_initialize_echo_cleanup
        (path : string) (s : Onnx.ONNXMobileService) :
  let s1 := state_of (Onnx.initialize path s) in
  Onnx.initialize path s = (Return true, Onnx.mkService true path)
  /\ (forall input,
        Onnx.processInference input s1
        = (Return ("ONNX Runtime Mobile inference result for: " ++ input), s1))
  /\ (forall a b,
        result_of (Onnx.processInference a s1) = result_of (Onnx.processInference b s1) ->
        a = b)
  /\ Onnx.cleanup s1 = (Return tt, Onnx.mkService false path)
  /\ (forall input,
        Onnx.processInference input (state_of (Onnx.cleanup s1))
        = (Return "Error: Service not initialized", state_of (Onnx.cleanup s1))).
Proof.
  cbn. repeat split.
  intros a b H. cbn in H. injection H as H.
  exact (append_inj_l _ _ _ H).
Qed.

End OnnxLifecycle.

(** X16, witness *)
Lemma X16_witness :
  Onnx.processInference "Hello" (state_of (Onnx.initialize "model.onnx" Onnx.new))
  = (Return "ONNX Runtime Mobile inference result for: Hello",
     state_of (Onnx.initialize "model.onnx" Onnx.new))
  /\ "Hello" = "Hello".
Proof.
  split.
  - exact (proj1 (proj2 (X16_onnx_initialize_echo_cleanup "model.onnx" Onnx.new)) "Hello").
  - apply (proj1 (proj2 (proj2 (X16_onnx_initialize_echo_cleanup "model.onnx" Onnx.new)))).
    reflexivity.
Defined.

(** ** The bridge *)

Section BridgeFacts.
Import Cxx Android Bridge Facts.
Context {G : Type} {GA : GpuAdapter G} {F : Type} {FA : FallbackAdapter F}.
Variable build : Build.

Ltac bridge_unfold :=
  unfold initializeNative, initializeWithAssetsNative, processInferenceNative,
    getBackendInfoNative, cleanupNative, via_tflite, via_onnx, log,
    bind, ret, get, gets, modify, throw;
  cbn [tflite_service onnx_service is_initialized active_backend logcat
       set_tflite_service set_onnx_service set_is_initialized set_active_backend
       negb has_service is_null].

Ltac split_call c := destruct c as [[?|?] ?] eqn:?.
Ltac explode :=
  repeat (cbn;
          match goal with
          | |- context [TFLITE_GPU_AVAILABLE build] =>
              destruct (TFLITE_GPU_AVAILABLE build) eqn:?
          | |- context [ONNX_MOBILE_AVAILABLE build] =>
              destruct (ONNX_MOBILE_AVAILABLE build) eqn:?
          | |- context [REAL_TFLITE_AVAILABLE build] =>
              destruct (REAL_TFLITE_AVAILABLE build) eqn:?
          | |- context [gpu_initialize ?a ?b ?c] => split_call (gpu_initialize a b c)
          | |- context [gpu_initializeWithAssets ?a ?b ?c] =>
              split_call (gpu_initializeWithAssets a b c)
          | |- context [gpu_processInference ?a ?b ?c] =>
              split_call (gpu_processInference a b c)
          | |- context [gpu_isGPUAvailable ?a] => split_call (gpu_isGPUAvailable a)
          | |- context [gpu_getPerformanceScore ?a ?b] =>
              split_call (gpu_getPerformanceScore a b)
          | |- context [gpu_cleanup ?a] => split_call (gpu_cleanup a)
          | |- context [fb_initialize ?a ?b ?c] => split_call (fb_initialize a b c)
          | |- context [fb_processInference ?a ?b ?c] =>
              split_call (fb_processInference a b c)
          | |- context [fb_isNNAPIAvailable ?a ?b] => split_call (fb_isNNAPIAvailable a b)
          | |- context [fb_getPerformanceScore ?a ?b] =>
              split_call (fb_getPerformanceScore a b)
          | |- context [fb_cleanup ?a] => split_call (fb_cleanup a)
          | |- context [(?x =? ?y)%string] => destruct (x =? y)%string eqn:?
          | |- context [if ?b then _ else _] => is_var b; destruct b
          | |- context [negb ?b] => is_var b; destruct b
          | |- context [has_service ?o] => is_var o; destruct o
          | |- context [match ?o with Some _ => _ | None => _ end] =>
              is_var o; destruct o
          | |- context [empty ?x] => destruct (empty x) eqn:?
          end);
  cbn.

(** A call into an adapter that throws, against the contract. *)
Ltac contract_broken :=
  exfalso;
  match goal with
  | H : gpu_initialize ?e ?p ?g = (Throw _, _) |- _ =>
      exact (no_throw_not_throw _ _ _ (gpu_initialize_no_throw e p g) H)
  | H : gpu_initializeWithAssets ?e ?m ?g = (Throw _, _) |- _ =>
      exact (no_throw_not_throw _ _ _ (gpu_initializeWithAssets_no_throw e m g) H)
  | H : gpu_processInference ?e ?i ?g = (Throw _, _) |- _ =>
      exact (no_throw_not_throw _ _ _ (gpu_processInference_no_throw e i g) H)
  | H : gpu_isGPUAvailable ?g = (Throw _, _) |- _ =>
      exact (no_throw_not_throw _ _ _ (gpu_isGPUAvailable_no_throw g) H)
  | H : gpu_getPerformanceScore ?e ?g = (Throw _, _) |- _ =>
      exact (no_throw_not_throw _ _ _ (gpu_getPerformanceScore_no_throw e g) H)
  | H : gpu_cleanup ?g = (Throw _, _) |- _ =>
      exact (no_throw_not_throw _ _ _ (gpu_cleanup_no_throw g) H)
  | H : fb_initialize ?e ?p ?g = (Throw _, _) |- _ =>
      exact (no_throw_not_throw _ _ _ (fb_initialize_no_throw e p g) H)
  | H : fb_processInference ?e ?i ?g = (Throw _, _) |- _ =>
      exact (no_throw_not_throw _ _ _ (fb_processInference_no_throw e i g) H)
  | H : fb_isNNAPIAvailable ?e ?g = (Throw _, _) |- _ =>
      exact (no_throw_not_throw _ _ _ (fb_isNNAPIAvailable_no_throw e g) H)
  | H : fb_getPerformanceScore ?e ?g = (Throw _, _) |- _ =>
      exact (no_throw_not_throw _ _ _ (fb_getPerformanceScore_no_throw e g) H)
  | H : fb_cleanup ?g = (Throw _, _) |- _ =>
      exact (no_throw_not_throw _ _ _ (fb_cleanup_no_throw g) H)
  end.

(** X17. [initializeWithAssetsNative] has no fallback. With a null asset
    manager, or with the TFLite adapter not compiled in, it returns
    [false] and leaves the statics as they were. In every run that
    returns, the ONNX service is left untouched; the result is [true]
    only if the GPU adapter's [initializeWithAssets] returned [true], and
    then the backend is "tflite_gpu" and the orchestrator initialized;
    when it is [false] the initialized flag and the backend name are
    those from before the call and no TFLite service is kept. *)
Theorem X17_assets_entry_point_has_no_fallback
        (st : @State G F) (e_init e_score : gpu_env) :
  (exists st',
      initializeWithAssetsNative build e_init e_score None st = (Return false, st')
      /\ statics st' = statics st)
  /\ (forall mgr,
        TFLITE_GPU_AVAILABLE build = false ->
        exists st',
          initializeWithAssetsNative build e_init e_score (Some mgr) st = (Return false, st')
          /\ statics st' = statics st)
  /\ (forall mgr r st',
        initializeWithAssetsNative build e_init e_score (Some mgr) st = (Return r, st') ->
        onnx_service st' = onnx_service st
        /\ (r = true ->
            TFLITE_GPU_AVAILABLE build = true
            /\ result_of (gpu_initializeWithAssets e_init mgr gpu_new) = Return true
            /\ active_backend st' = "tflite_gpu"
            /\ is_initialized st' = true
            /\ tflite_service st' <> None)
        /\ (r = false ->
            is_initialized st' = is_initialized st
            /\ active_backend st' = active_backend st
            /\ (TFLITE_GPU_AVAILABLE build = true -> tflite_service st' = None))).
Proof.
  destruct st as [ts os ii ab lg].
  split; [eexists; split; reflexivity|].
  split.
  - intros mgr Hflag. bridge_unfold. rewrite Hflag.
    destruct (ONNX_MOBILE_AVAILABLE build); cbn; eexists; split; reflexivity.
  - intros mgr r st'. bridge_unfold. explode.
    all: intros Hrun;
      first [discriminate Hrun | injection Hrun as <- <-];
      cbn; repeat split; intros; first [discriminate | congruence | reflexivity].
Qed.

(** X18. [getBackendInfoNative], given adapters that do not throw:
    it returns a text that starts with "Backend: " and leaves the
    initialized flag, the backend name and the log as they were. Before
    initialization the text is "Backend: Not initialized" and nothing at
    all changes; afterwards the text starts with "Backend: " followed by
    the name of the active backend. *)
Theorem X18_backend_info_reports_active_backend
        `{!GpuNoThrow G} `{!FallbackNoThrow F}
        (st : @State G F) (e : gpu_env) (f : fb_env) :
  exists info st',
    getBackendInfoNative build e f st = (Return info, st')
    /\ starts_with "Backend: " info
    /\ is_initialized st' = is_initialized st
    /\ active_backend st' = active_backend st
    /\ logcat st' = logcat st
    /\ (is_initialized st = false -> info = "Backend: Not initialized" /\ st' = st)
    /\ (is_initialized st = true ->
        starts_with ("Backend: " ++ active_backend st) info).
Proof.
  destruct st as [ts os ii ab lg]. bridge_unfold. explode.
  all: try contract_broken.
  all: do 2 eexists; (split; [reflexivity|]); cbn.
  all: repeat split; try discriminate; try reflexivity.
  all: unfold starts_with; rewrite ?append_assoc;
    try (change ("Backend: " ++ ab) with (String "B" (String "a" (String "c" (String "k"
           (String "e" (String "n" (String "d" (String ":" (String " " ab))))))))));
    first [eexists; reflexivity | exists ""; symmetry; apply append_nil_r].
Qed.

Lemma processInferenceNative_no_service (st : @State G F) e f input :
  is_initialized st = true ->
  tflite_service st = None ->
  onnx_service st = None ->
  processInferenceNative build e f input st
  = (Return "Error: No active backend available",
     mkState None None true (active_backend st) (logcat st ++ [LogE_NoActiveBackend])).
Proof.
  destruct st as [ts os ii ab lg]. cbn. intros -> -> ->.
  bridge_unfold.
  destruct (TFLITE_GPU_AVAILABLE build), (ONNX_MOBILE_AVAILABLE build); cbn;
    rewrite ?andb_false_r; reflexivity.
Qed.

(** X19. A failed re-initialization strands the orchestrator. When
    [initializeNative] is called on an initialized orchestrator and
    returns [false], the initialized flag stays set and the backend name
    stays what it was, but no service is kept; every later
    [processInferenceNative] call then answers
    "Error: No active backend available" rather than
    "Error: Service not initialized". *)
Theorem X19_failed_reinitialization_strands_backend
        (st st' : @State G F) (e_init e_score : gpu_env) (f_init f_nnapi : fb_env)
        (path : string) :
  reachable build st ->
  is_initialized st = true ->
  initializeNative build e_init e_score f_init f_nnapi path st = (Return false, st') ->
  is_initialized st' = true
  /\ active_backend st' = active_backend st
  /\ tflite_service st' = None
  /\ onnx_service st' = None
  /\ (forall e f input,
        exists st'',
          processInferenceNative build e f input st'
          = (Return "Error: No active backend available", st'')
          /\ statics st'' = statics st').
Proof.
  intros Hreach Hi Hrun.
  destruct (reachable_consistent build st Hreach) as (Ht & Ho & _).
  assert (Hstate : is_initialized st' = true
                   /\ active_backend st' = active_backend st
                   /\ tflite_service st' = None
                   /\ onnx_service st' = None).
  { destruct st as [ts os ii ab lg]. cbn in *. subst ii.
    revert Hrun. bridge_unfold. explode.
    all: intros Hrun;
      first [discriminate Hrun | injection Hrun as <-];
      cbn; repeat split; auto. }
  destruct Hstate as (Hi' & Hb' & Ht' & Ho').
  repeat split; try assumption.
  intros e f input. eexists.
  split; [apply processInferenceNative_no_service; assumption|].
  unfold statics. cbn. rewrite Hi', Ht', Ho'. reflexivity.
Qed.

Ltac close_invariant :=
  intros Hrun; first [discriminate Hrun | injection Hrun as <- <- | injection Hrun as <-];
  unfold backend_invariant, backend_name in *; cbn in *;
  intuition (first [congruence | discriminate]).

Lemma backend_invariant_initializeNative (st st' : @State G F) e1 e2 f1 f2 path r :
  backend_invariant st ->
  initializeNative build e1 e2 f1 f2 path st = (Return r, st') ->
  backend_invariant st'.
Proof.
  destruct st as [ts os ii ab lg]. intros Hc. bridge_unfold. explode; close_invariant.
Qed.

Lemma backend_invariant_initializeWithAssetsNative (st st' : @State G F) e1 e2 mgr r :
  backend_invariant st ->
  initializeWithAssetsNative build e1 e2 mgr st = (Return r, st') ->
  backend_invariant st'.
Proof.
  destruct st as [ts os ii ab lg]. intros Hc. bridge_unfold. explode; close_invariant.
Qed.

Lemma backend_invariant_processInferenceNative (st st' : @State G F) e f input r :
  backend_invariant st ->
  processInferenceNative build e f input st = (Return r, st') ->
  backend_invariant st'.
Proof.
  destruct st as [ts os ii ab lg]. intros Hc. bridge_unfold. explode; close_invariant.
Qed.

Lemma backend_invariant_getBackendInfoNative (st st' : @State G F) e f r :
  backend_invariant st ->
  getBackendInfoNative build e f st = (Return r, st') ->
  backend_invariant st'.
Proof.
  destruct st as [ts os ii ab lg]. intros Hc. bridge_unfold. explode; close_invariant.
Qed.

Lemma backend_invariant_cleanupNative (st st' : @State G F) :
  backend_invariant st ->
  cleanupNative build st = (Return tt, st') ->
  backend_invariant st'.
Proof.
  destruct st as [ts os ii ab lg]. intros Hc. bridge_unfold. explode; close_invariant.
Qed.

(** X20. In every state the process can reach, [active_backend] is
    "none", "tflite_gpu" or "onnx_mobile", and it is "none" exactly when
    [is_initialized] is clear. This holds for any pair of adapters and
    any combination of build flags. *)
Theorem X20_backend_name_tracks_initialized (st : @State G F) :
  reachable build st ->
  backend_name (active_backend st)
  /\ (is_initialized st = true <-> active_backend st <> "none").
Proof.
  intros Hreach. change (backend_invariant st).
  induction Hreach;
    eauto using backend_invariant_initializeNative,
      backend_invariant_initializeWithAssetsNative,
      backend_invariant_processInferenceNative,
      backend_invariant_getBackendInfoNative,
      backend_invariant_cleanupNative.
  unfold backend_invariant, backend_name. cbn. intuition (first [congruence | discriminate]).
Qed.

Lemma initializeNative_reads_no_log (ts : option G) (os : option F) ii ab lg
      e1 e2 f1 f2 path :
  let run1 := initializeNative build e1 e2 f1 f2 path (mkState ts os ii ab lg) in
  let run2 := initializeNative build e1 e2 f1 f2 path (mkState ts os ii ab []) in
  result_of run1 = result_of run2
  /\ statics (state_of run1) = statics (state_of run2)
  /\ logcat (state_of run1) = (lg ++ logcat (state_of run2))%list.
Proof.
  bridge_unfold. explode.
  all: repeat split; rewrite <- ?app_assoc; reflexivity.
Qed.

(** X21. Cleaning up gives a fresh start. From any reachable state, and
    with adapters that do not throw, [cleanupNative] brings the statics
    back to their values at program start; an [initializeNative] call
    made after it returns what the same call returns at program start,
    leaves the same statics and writes the same log lines. *)
Theorem X21_cleanup_then_initialize_is_fresh_start
        `{!GpuNoThrow G} `{!FallbackNoThrow F}
        (st : @State G F) (e_init e_score : gpu_env) (f_init f_nnapi : fb_env)
        (path : string) :
  reachable build st ->
  let cleaned := state_of (cleanupNative build st) in
  let again := initializeNative build e_init e_score f_init f_nnapi path cleaned in
  let first := initializeNative build e_init e_score f_init f_nnapi path initial in
  result_of (cleanupNative build st) = Return tt
  /\ statics cleaned = statics initial
  /\ result_of again = result_of first
  /\ statics (state_of again) = statics (state_of first)
  /\ emitted cleaned (state_of again) = logcat (state_of first).
Proof.
  intros Hreach cleaned again first.
  destruct (reachable_consistent build st Hreach) as (Ht & Ho & _).
  destruct (cleanupNative_run build st) as (st1 & H1 & Hi1 & Hb1 & Ht1 & Ho1).
  assert (Hc : cleaned = st1) by (subst cleaned; rewrite H1; reflexivity).
  assert (Hts : tflite_service st1 = None).
  { rewrite Ht1. destruct (TFLITE_GPU_AVAILABLE build); auto. }
  assert (Hos : onnx_service st1 = None).
  { rewrite Ho1. destruct (ONNX_MOBILE_AVAILABLE build); auto. }
  split; [rewrite H1; reflexivity|].
  subst again first. rewrite Hc. clear Hc cleaned.
  destruct st1 as [ts os ii ab lg]. cbn in Hi1, Hb1, Hts, Hos. subst.
  split; [reflexivity|].
  destruct (initializeNative_reads_no_log None None false "none" lg
              e_init e_score f_init f_nnapi path) as (Hr & Hs & Hl).
  split; [exact Hr|]. split; [exact Hs|].
  unfold emitted. cbn [logcat]. rewrite Hl.
  rewrite skipn_app, skipn_all, Nat.sub_diag. reflexivity.
Qed.

End BridgeFacts.

Section OnnxBridge.
Import Cxx Android Bridge Facts.
Context {G : Type} {GA : GpuAdapter G} `{!GpuNoThrow G}.
Variable build : Build.

(** X22. With the ONNX adapter of the repository compiled in,
    [initializeNative] cannot fail: for every path, from every state and
    with any GPU adapter that does not throw, it returns [true] and sets
    the initialized flag. The backend is "tflite_gpu" exactly when the
    TFLite adapter is compiled in and its [initialize] returned [true];
    otherwise it is "onnx_mobile", served by an ONNX service initialized
    with the same path. *)
Theorem X22_initialize_cannot_fail_with_onnx
        (st : @State G Onnx.ONNXMobileService) (e_init e_score : gpu_env)
        (f_init f_nnapi : @fb_env _ onnx_adapter) (path : string) :
  ONNX_MOBILE_AVAILABLE build = true ->
  exists st',
    initializeNative build e_init e_score f_init f_nnapi path st = (Return true, st')
    /\ is_initialized st' = true
    /\ (active_backend st' = "tflite_gpu"
        <-> TFLITE_GPU_AVAILABLE build = true
            /\ result_of (gpu_initialize e_init path gpu_new) = Return true)
    /\ (active_backend st' <> "tflite_gpu" ->
        active_backend st' = "onnx_mobile"
        /\ onnx_service st' = Some (Onnx.mkService true path)).
Proof.
  intros Honnx. destruct st as [ts os ii ab lg].
  unfold initializeNative, via_tflite, via_onnx, log, bind, ret, get, gets, modify, throw.
  rewrite Honnx.
  cbn [tflite_service onnx_service is_initialized active_backend logcat
       set_tflite_service set_onnx_service set_is_initialized set_active_backend].
  destruct (TFLITE_GPU_AVAILABLE build) eqn:Htf; cbn.
  - destruct (gpu_initialize e_init path gpu_new) as [[[|]|w] g1] eqn:Hinit; cbn.
    + destruct (gpu_getPerformanceScore e_score g1) as [[perf|w] g2] eqn:Hperf; cbn.
      * eexists; split; [reflexivity|]. cbn. intuition congruence.
      * exfalso.
        exact (no_throw_not_throw _ _ _ (gpu_getPerformanceScore_no_throw e_score g1) Hperf).
    + eexists; split; [reflexivity|]. cbn.
      repeat split; intros; intuition (first [discriminate | congruence]).
    + exfalso.
      exact (no_throw_not_throw _ _ _ (gpu_initialize_no_throw e_init path gpu_new) Hinit).
  - eexists; split; [reflexivity|]. cbn.
    repeat split; intros; intuition (first [discriminate | congruence]).
Qed.

End OnnxBridge.

Section MockBridge.
Import Cxx Android Bridge Facts.
Context {F : Type} {FA : FallbackAdapter F}.
Variable build : Build.

Lemma mock_initializeWithAssets_true e mgr s :
  exists s', Mock.initializeWithAssets e mgr s = (Return true, s')
    /\ Mock.initialized_ s' = true.
Proof.
  unfold Mock.initializeWithAssets. unfold bind at 1. unfold modify at 1.
  destruct (mock_try_candidates_run e mgr Mock.model_candidates
              (Mock.set_asset_manager_ (Some mgr) s)) as (r & s1 & Hrun & Hr).
  unfold bind. rewrite Hrun.
  destruct Hr as [-> | (-> & Hi & _)].
  - eexists; split; [reflexivity|]. reflexivity.
  - eexists; split; [reflexivity|]. exact Hi.
Qed.

Lemma mock_getPerformanceScore_run e s :
  exists q, Mock.getPerformanceScore e s = (Return q, s).
Proof.
  unfold Mock.getPerformanceScore, bind, get, ret.
  destruct (negb (Mock.initialized_ s)); eexists; reflexivity.
Qed.

(** X23. In a build with the mock TFLite adapter, asset initialization
    through the bridge cannot fail: for every non-null asset manager,
    whatever the store holds, [initializeWithAssetsNative] returns
    [true] with backend "tflite_gpu", logs that the GPU is available and
    leaves the ONNX service as it was. *)
Theorem X23_mock_asset_initialization_cannot_fail
        (st : @State Mock.TFLiteGPUService F) (e_init e_score : Mock.Env)
        (mgr : AAssetManager) :
  TFLITE_GPU_AVAILABLE build = true ->
  exists st' perf,
    initializeWithAssetsNative (GA := mock_adapter) build e_init e_score (Some mgr) st
    = (Return true, st')
    /\ is_initialized st' = true
    /\ active_backend st' = "tflite_gpu"
    /\ onnx_service st' = onnx_service st
    /\ emitted st st'
       = [LogI_InitializingAssets;
          LogI_AttemptTFLiteAssets (REAL_TFLITE_AVAILABLE build);
          LogI_TFLiteAssetsOk true perf;
          LogI_Ready "tflite_gpu"].
Proof.
  intros Htf. destruct st as [ts os ii ab lg].
  destruct (mock_initializeWithAssets_true e_init mgr Mock.new) as (g1 & Hinit & _).
  destruct (mock_getPerformanceScore_run e_score g1) as (perf & Hperf).
  pose proof (mock_isGPUAvailable_true g1) as Hgpu.
  unfold initializeWithAssetsNative, via_tflite, via_onnx, log,
    bind, ret, get, gets, modify, throw.
  rewrite Htf.
  cbn [tflite_service onnx_service is_initialized active_backend logcat
       set_tflite_service set_onnx_service set_is_initialized set_active_backend
       gpu_new gpu_initializeWithAssets gpu_getPerformanceScore gpu_isGPUAvailable
       mock_adapter].
  rewrite Hinit.
  cbn [tflite_service onnx_service is_initialized active_backend logcat
       set_tflite_service set_onnx_service set_is_initialized set_active_backend
       gpu_new gpu_initializeWithAssets gpu_getPerformanceScore gpu_isGPUAvailable
       mock_adapter].
  rewrite Hperf.
  cbn [tflite_service onnx_service is_initialized active_backend logcat
       set_tflite_service set_onnx_service set_is_initialized set_active_backend
       gpu_new gpu_initializeWithAssets gpu_getPerformanceScore gpu_isGPUAvailable
       mock_adapter].
  rewrite Hgpu.
  exists (mkState (Some g1) os true "tflite_gpu"
            (lg ++ [LogI_InitializingAssets;
                    LogI_AttemptTFLiteAssets (REAL_TFLITE_AVAILABLE build);
                    LogI_TFLiteAssetsOk true perf;
                    LogI_Ready "tflite_gpu"])), perf.
  split.
  - destruct (ONNX_MOBILE_AVAILABLE build); cbn; rewrite <- !app_assoc; reflexivity.
  - repeat split. unfold emitted. cbn.
    rewrite skipn_app, skipn_all, Nat.sub_diag. reflexivity.
Qed.

End MockBridge.

(** ** Runs of the bridge *)

Section BridgeRuns.
Import Cxx Android Bridge Facts.

Lemma mock_running_reachable :
  reachable (GA := mock_adapter) (FA := onnx_adapter) Scenario.mock_build Scenario.mock_running.
Proof.
  apply (reach_initialize (GA := mock_adapter) (FA := onnx_adapter)
           Scenario.mock_build Scenario.mock_start Scenario.mock_running
           Fixtures.mock_env Fixtures.mock_env tt tt "model.tflite" true).
  - apply reach_initial.
  - vm_compute. reflexivity.
Qed.

Lemma tflite_only_running_reachable :
  reachable (GA := prod_adapter) (FA := onnx_adapter)
            Cases.tflite_only_build Cases.tflite_only_running.
Proof.
  apply (reach_initialize (GA := prod_adapter) (FA := onnx_adapter)
           Cases.tflite_only_build Scenario.native_start Cases.tflite_only_running
           Fixtures.cpu_only_env Fixtures.cpu_only_env tt tt "model.tflite" true).
  - apply reach_initial.
  - vm_compute. reflexivity.
Qed.

(** X17, witness: the production adapter finds no model in an empty
    store; the ONNX adapter, though compiled in, is not tried. *)
Lemma X17_witness :
  let run :=
    initializeWithAssetsNative (GA := prod_adapter) (F := Onnx.ONNXMobileService)
      Scenario.native_build Fixtures.cpu_only_env Fixtures.cpu_only_env
      (Some Fixtures.empty_assets) Scenario.native_start in
  onnx_service (state_of run) = None
  /\ is_initialized (state_of run) = false
  /\ tflite_service (state_of run) = None.
Proof.
  intros run.
  assert (Hrun : run = (Return false, state_of run)) by (vm_compute; reflexivity).
  destruct (proj2 (proj2 (X17_assets_entry_point_has_no_fallback
                            (GA := prod_adapter) (F := Onnx.ONNXMobileService)
                            Scenario.native_build Scenario.native_start
                            Fixtures.cpu_only_env Fixtures.cpu_only_env))
              Fixtures.empty_assets false (state_of run) Hrun) as (Ho & _ & Hf).
  destruct (Hf eq_refl) as (Hi & _ & Ht).
  split; [exact Ho|]. split; [exact Hi|]. exact (Ht eq_refl).
Defined.

(** X19, witness: a running production process is re-initialized on a
    device where no model can be built. *)
Lemma X19_witness :
  let st' :=
    state_of (initializeNative (GA := prod_adapter) (FA := onnx_adapter)
                Cases.tflite_only_build Fixtures.no_model_env Fixtures.no_model_env tt tt
                "other.tflite" Cases.tflite_only_running) in
  is_initialized st' = true
  /\ active_backend st' = "tflite_gpu"
  /\ result_of (processInferenceNative (GA := prod_adapter) (FA := onnx_adapter)
                  Cases.tflite_only_build Fixtures.cpu_only_env tt "Hello" st')
     = Return "Error: No active backend available".
Proof.
  intros st'.
  assert (Hrun : initializeNative (GA := prod_adapter) (FA := onnx_adapter)
                   Cases.tflite_only_build Fixtures.no_model_env Fixtures.no_model_env tt tt
                   "other.tflite" Cases.tflite_only_running = (Return false, st'))
    by (vm_compute; reflexivity).
  destruct (X19_failed_reinitialization_strands_backend
              (GA := prod_adapter) (FA := onnx_adapter)
              Cases.tflite_only_build Cases.tflite_only_running st'
              Fixtures.no_model_env Fixtures.no_model_env tt tt "other.tflite"
              tflite_only_running_reachable eq_refl Hrun)
    as (Hi & Hb & _ & _ & Hinf).
  split; [exact Hi|]. split; [rewrite Hb; reflexivity|].
  destruct (Hinf Fixtures.cpu_only_env tt "Hello") as (st'' & Hp & _).
  rewrite Hp. reflexivity.
Defined.

(** X20, witness *)
Lemma X20_witness :
  backend_name (active_backend Scenario.mock_running)
  /\ (is_initialized Scenario.mock_running = true
      <-> active_backend Scenario.mock_running <> "none").
Proof.
  exact (X20_backend_name_tracks_initialized
           (GA := mock_adapter) (FA := onnx_adapter)
           Scenario.mock_build Scenario.mock_running mock_running_reachable).
Defined.

(** X21, witness *)
Lemma X21_witness :
  statics (state_of (cleanupNative (GA := mock_adapter) (FA := onnx_adapter)
                       Scenario.mock_build Scenario.mock_running))
  = statics Scenario.mock_start.
Proof.
  exact (proj1 (proj2 (X21_cleanup_then_initialize_is_fresh_start
                         (GA := mock_adapter) (FA := onnx_adapter)
                         Scenario.mock_build Scenario.mock_running
                         Fixtures.mock_env Fixtures.mock_env tt tt "model.tflite"
                         mock_running_reachable))).
Defined.

(** X22, witness: the production adapter cannot build a model, the ONNX
    adapter takes over. *)
Lemma X22_witness :
  exists st',
    initializeNative (GA := prod_adapter) (FA := onnx_adapter)
      Scenario.native_build Fixtures.no_model_env Fixtures.no_model_env tt tt
      "model.tflite" Scenario.native_start = (Return true, st')
    /\ is_initialized st' = true
    /\ active_backend st' = "onnx_mobile".
Proof.
  destruct (X22_initialize_cannot_fail_with_onnx
              (GA := prod_runtime_adapter) Scenario.native_build Scenario.native_start
              (mkRuntime Fixtures.no_model_env no_model_env_hands_out)
              (mkRuntime Fixtures.no_model_env no_model_env_hands_out)
              tt tt "model.tflite" eq_refl)
    as (st' & Hrun & Hi & Hiff & Helse).
  exists st'. split; [exact Hrun|]. split; [exact Hi|].
  apply Helse. intros Hb. apply Hiff in Hb. destruct Hb as [_ Hb].
  vm_compute in Hb. discriminate Hb.
Defined.

(** X23, witness: an empty store. *)
Lemma X23_witness :
  exists st' perf,
    initializeWithAssetsNative (GA := mock_adapter) (F := Onnx.ONNXMobileService)
      Scenario.mock_build Fixtures.mock_env Fixtures.mock_env
      (Some Fixtures.empty_assets) Scenario.mock_start = (Return true, st')
    /\ is_initialized st' = true
    /\ active_backend st' = "tflite_gpu"
    /\ onnx_service st' = onnx_service Scenario.mock_start
    /\ emitted Scenario.mock_start st'
       = [LogI_InitializingAssets;
          LogI_AttemptTFLiteAssets (REAL_TFLITE_AVAILABLE Scenario.mock_build);
          LogI_TFLiteAssetsOk true perf;
          LogI_Ready "tflite_gpu"].
Proof.
  exact (X23_mock_asset_initialization_cannot_fail
           (F := Onnx.ONNXMobileService) Scenario.mock_build Scenario.mock_start
           Fixtures.mock_env Fixtures.mock_env Fixtures.empty_assets eq_refl).
Defined.

End BridgeRuns.

(** X18, witness *)
Lemma X18_witness :
  exists info st',
    Bridge.getBackendInfoNative (GA := mock_adapter) (FA := onnx_adapter)
      Scenario.mock_build Fixtures.mock_env tt Scenario.mock_running = (Return info, st')
    /\ Cxx.starts_with "Backend: tflite_gpu" info
    /\ Bridge.logcat st' = Bridge.logcat Scenario.mock_running.
Proof.
  destruct (X18_backend_info_reports_active_backend
              (GA := mock_adapter) (FA := onnx_adapter)
              Scenario.mock_build Scenario.mock_running Fixtures.mock_env tt)
    as (info & st' & Hrun & _ & _ & _ & Hlog & _ & Hname).
  exists info, st'. split; [exact Hrun|]. split; [exact (Hname eq_refl) | exact Hlog].
Defined.

(** ** The QNN placeholder *)

Section QnnFacts.
Variable QNN_AVAILABLE : bool.

(** X24. The QNN service. [initialize] returns the build's
    [QNN_AVAILABLE] from every state, and [isInitialized] then returns
    the same. [loadModel] returns a context id that is not negative
    (12345) exactly when the build has QNN and the service is
    initialized, and -1 otherwise: it fails on a new service in every
    build. [runInference] returns no bytes for any context id and
    input. [getQNNService] never returns null and creates the service at
    most once. *)
Theorem X24_qnn_service_needs_initialize
        (s : Qnn.QNNLLMService) (path : string) (contextId : Z) (input : list ascii)
        (g : option Qnn.QNNLLMService) :
  let s1 := state_of (Qnn.initialize QNN_AVAILABLE s) in
  result_of (Qnn.initialize QNN_AVAILABLE s) = Return QNN_AVAILABLE
  /\ Qnn.isInitialized s1 = (Return QNN_AVAILABLE, s1)
  /\ Qnn.loadModel QNN_AVAILABLE path s
     = (Return (if QNN_AVAILABLE && Qnn.initialized s then 12345 else -1), s)
  /\ Qnn.loadModel QNN_AVAILABLE path s1
     = (Return (if QNN_AVAILABLE then 12345 else -1), s1)
  /\ Qnn.loadModel QNN_AVAILABLE path Qnn.new = (Return (-1), Qnn.new)
  /\ Qnn.runInference contextId input s = (Return [], s)
  /\ (exists service,
        Qnn.getQNNService g = (Return service, Some service)
        /\ Qnn.getQNNService (Some service) = (Return service, Some service)
        /\ (g = None -> service = Qnn.new)).
Proof.
  destruct QNN_AVAILABLE, s as [[|]]; cbn; repeat split;
    destruct g as [service|]; cbn; eexists; repeat split; congruence.
Qed.

(** X25. The native methods of the QNN bridge answer from the build flag
    alone. [initializeQNN] and [isQNNAvailable] agree;
    [loadModelNative] returns what the service's [loadModel] returns
    after [initialize], for every path, although the bridge initializes
    nothing: in a QNN build it hands out context 12345 where a new
    service refuses with -1. [runInference] returns an empty array. *)
Theorem X25_qnn_bridge_answers_from_build_flag
        (s : Qnn.QNNLLMService) (path : string) (contextId : Z) (input : list ascii) :
  Qnn.initializeQNN QNN_AVAILABLE = Qnn.isQNNAvailable QNN_AVAILABLE
  /\ Qnn.isQNNAvailable QNN_AVAILABLE = QNN_AVAILABLE
  /\ (0 <= Qnn.loadModelNative QNN_AVAILABLE path <-> QNN_AVAILABLE = true)
  /\ Return (Qnn.loadModelNative QNN_AVAILABLE path)
     = result_of (Qnn.loadModel QNN_AVAILABLE path
                    (state_of (Qnn.initialize QNN_AVAILABLE s)))
  /\ (QNN_AVAILABLE = true ->
      Return (Qnn.loadModelNative QNN_AVAILABLE path)
      <> result_of (Qnn.loadModel QNN_AVAILABLE path Qnn.new))
  /\ Qnn.runInferenceNative QNN_AVAILABLE contextId input = [].
Proof.
  destruct QNN_AVAILABLE; cbn; repeat split; try discriminate; try lia; auto.
Qed.

End QnnFacts.

(** X24, witness *)
Lemma X24_witness :
  exists service,
    Qnn.getQNNService None = (Return service, Some service)
    /\ service = Qnn.new.
Proof.
  destruct (proj2 (proj2 (proj2 (proj2 (proj2 (proj2
              (X24_qnn_service_needs_initialize true Qnn.new "model.bin" 0 [] None)))))))
    as (service & Hget & _ & Hnew).
  exists service. split; [exact Hget | exact (Hnew eq_refl)].
Defined.

(** X25, witness *)
Lemma X25_witness :
  Return (Qnn.loadModelNative true "model.bin")
  <> result_of (Qnn.loadModel true "model.bin" Qnn.new).
Proof.
  exact (proj1 (proj2 (proj2 (proj2 (proj2
           (X25_qnn_bridge_answers_from_build_flag true Qnn.new "model.bin" 0 []))))) eq_refl).
Defined.
